(** * The Streamlit dashboard [streamlit_app.py], embedded in Rocq

    The script is a Streamlit page: Streamlit runs it from top to bottom on
    every user interaction, keeping [st.session_state] between the runs of one
    browser session.  The embedding follows the file:

    - Python values that travel through the views (what the collaborators
      return) are the type [pyval]; a [str] is its list of code points;
    - one run of the script is a computation in the monad [M]: it threads the
      session state and an event trace (what was rendered, which collaborator
      was called, what was logged) and may raise;
    - the collaborators (the services, the task queue, the clock, uuid4) are
      the fields of a [World]; what the user entered in the widgets is a
      record of inputs. *)

From Stdlib Require Import ZArith NArith List Bool String Ascii Lia.
From stdpp Require Import base option list gmap strings.
Import ListNotations.

Local Open Scope Z_scope.

(** ** Python strings *)

(** A Python [str] is a sequence of Unicode code points; [len], slicing,
    [in] and [strip] all work on code points. *)
Definition pystr := list N.

(** String literals of the source are written as UTF-8 text and decoded to
    their code points. *)
Fixpoint utf8_go (pending : nat) (acc : N) (bs : list N) : pystr :=
  match bs with
  | [] => []
  | b :: rest =>
      match pending with
      | O =>
          if (b <? 128)%N then b :: utf8_go 0 0%N rest
          else if (b <? 224)%N then utf8_go 1 (N.land b 31) rest
          else if (b <? 240)%N then utf8_go 2 (N.land b 15) rest
          else utf8_go 3 (N.land b 7) rest
      | S O => (acc * 64 + N.land b 63)%N :: utf8_go 0 0%N rest
      | S p => utf8_go p (acc * 64 + N.land b 63)%N rest
      end
  end.

Definition lit (s : string) : pystr :=
  utf8_go 0 0%N (map N_of_ascii (list_ascii_of_string s)).

(** [str.isspace] for one code point: the white-space table of CPython. *)
Definition isspace (c : N) : bool :=
  ((9 <=? c) && (c <=? 13) || (28 <=? c) && (c <=? 32)
   || (c =? 133) || (c =? 160) || (c =? 5760)
   || (8192 <=? c) && (c <=? 8202)
   || (c =? 8232) || (c =? 8233) || (c =? 8239) || (c =? 8287)
   || (c =? 12288))%N.

Fixpoint lstrip (s : pystr) : pystr :=
  match s with
  | [] => []
  | c :: r => if isspace c then lstrip r else s
  end.

Definition rstrip (s : pystr) : pystr := rev (lstrip (rev s)).

(** [s.strip()] *)
Definition strip (s : pystr) : pystr := rstrip (lstrip s).

Fixpoint starts_with (p s : pystr) : bool :=
  match p, s with
  | [], _ => true
  | _ :: _, [] => false
  | a :: p', b :: s' => (a =? b)%N && starts_with p' s'
  end.

(** [needle in hay] for two [str]: substring search. *)
Fixpoint str_contains (needle hay : pystr) : bool :=
  starts_with needle hay
  || match hay with
     | [] => false
     | _ :: t => str_contains needle t
     end.

(** [s[:n]] *)
Definition str_prefix (n : nat) (s : pystr) : pystr := firstn n s.

Definition is_ascii (s : pystr) : bool := forallb (fun c => (c <? 128)%N) s.

Definition ascii_lower (c : N) : N :=
  if ((65 <=? c) && (c <=? 90))%N then (c + 32)%N else c.

(** Decimal text of an [int]. *)
Fixpoint dec_go (fuel : nat) (n : N) (acc : pystr) : pystr :=
  match fuel with
  | O => acc
  | S f =>
      let acc' := (48 + n mod 10)%N :: acc in
      if (n / 10 =? 0)%N then acc' else dec_go f (n / 10)%N acc'
  end.

Definition dec_N (n : N) : pystr := dec_go (S (N.size_nat n)) n [].

Definition dec_Z (z : Z) : pystr :=
  if z <? 0 then 45%N :: dec_N (Z.abs_N z) else dec_N (Z.to_N z).

(** ** Python values *)

(** The values the collaborators hand to the views: JSON-like data.  A float
    is kept as its IEEE-754 binary64 bit pattern; a [dict] has [str] keys and
    keeps its insertion order (a key occurs once in a dict Python built;
    lookup takes the first binding). *)
#[warnings="-register-all"]
Inductive pyval : Type :=
  | VNone
  | VBool (b : bool)
  | VInt (z : Z)
  | VFloat (bits : Z)
  | VStr (s : pystr)
  | VList (l : list pyval)
  | VDict (d : list (pystr * pyval)).

(** What the interpreter itself raises on a value of the wrong shape.  All of
    them are subclasses of [Exception]. *)
Inductive builtin_error : Type :=
  | AttributeError (v : pyval) (attr : string)
  | SessionAttributeError (attr : string)
  | ObjectAttributeError (attr : string)
  | NotIterable (v : pyval)
  | NotSubscriptable (v : pyval)
  | BadIndex (v : pyval) (key : pyval)
  | KeyError (key : pyval)
  | IndexError (i : nat)
  | NoLen (v : pyval)
  | BadOperand (v : pyval)
  | BadFormat (v : pyval)
  | OverflowError (z : Z).

(** [Exception msg] is any instance [e] of [Exception] with [str(e) = msg];
    [RerunException] is the control-flow signal of [st.rerun()], which ends
    the current run of the script. *)
Inductive exn : Type :=
  | Exception (msg : pystr)
  | RerunException.

(** What evaluating an expression gives: a value, or an [Exception] [e]
    with [str(e) = msg]. *)
Inductive res (A : Type) : Type :=
  | Val (a : A)
  | Exc (msg : pystr).
Arguments Val {A} a.
Arguments Exc {A} msg.

Definition res_bind {A B : Type} (r : res A) (k : A -> res B) : res B :=
  match r with
  | Val a => k a
  | Exc msg => Exc msg
  end.

Notation "'let?' x ':=' r 'in' k" := (res_bind r (fun x => k))
  (at level 10, x name, r at level 100, k at level 200).

(** The parts of the Python runtime and of pandas that the embedding does not
    compute: float arithmetic and formatting, the [str] of containers,
    [str.lower] outside ASCII, the message text of interpreter errors, and
    the pandas expression of the K-line chart. *)
Class PyRuntime : Type := {
  (** [str(x)] for a float *)
  float_str : Z -> pystr;
  (** [format(x, ".2f")] for a float *)
  float_fmt2f : Z -> pystr;
  (** [format(z, ".2f")] for an int beyond 2^53; [None]: OverflowError *)
  bigint_fmt2f : Z -> option pystr;
  (** [z / 100] for an int, as float bits; [None]: OverflowError *)
  int_div100 : Z -> option Z;
  (** [x / 100] for a float *)
  float_div100 : Z -> Z;
  (** [str(v)] for a list or a dict *)
  container_str : pyval -> pystr;
  (** [s.lower()] for a str with non-ASCII characters *)
  unicode_lower : pystr -> pystr;
  (** [str(e)] for an error raised by the interpreter *)
  error_text : builtin_error -> pystr;
  (** [pd.DataFrame(data).set_index("date")["close"]] *)
  close_series : pyval -> res pyval
}.

(** The status values of tasks.  [src.services.task_queue] is not part of
    this file: the type of status values (up to Python's [==]), and the three
    members the page compares with, are taken as given.  [status_unknown] is
    the str ["unknown"] as a status value. *)
Class TaskStatusEnum : Type := {
  Status : Type;
  Status_eq_dec :: EqDecision Status;
  RUNNING : Status;
  COMPLETED : Status;
  FAILED : Status;
  status_unknown : Status;
  (** [str(status)] *)
  status_str : Status -> pystr
}.

(** A task as [list_tasks] returns it: a dict, of which the page reads three
    keys with [task.get].  [None] is an absent key. *)
Record Task `{TaskStatusEnum} : Type := {
  task_status : option Status;
  task_stock_code : option pyval;
  task_created_at : option pyval
}.

Definition str_truthy (s : pystr) : bool :=
  match s with
  | [] => false
  | _ :: _ => true
  end.

Fixpoint dict_get (k : pystr) (d : list (pystr * pyval)) : option pyval :=
  match d with
  | [] => None
  | (k', v) :: r => if decide (k = k') then Some v else dict_get k r
  end.

Definition is_str_eq (key : pystr) (v : pyval) : bool :=
  match v with
  | VStr s => bool_decide (s = key)
  | _ => false
  end.

Section Values.
Context {rt : PyRuntime}.

Definition raise_builtin {A : Type} (e : builtin_error) : res A :=
  Exc (error_text e).

(** [bool(v)] *)
Definition truthy (v : pyval) : bool :=
  match v with
  | VNone => false
  | VBool b => b
  | VInt z => negb (z =? 0)
  | VFloat bits => negb (Z.land bits (2 ^ 63 - 1) =? 0)
  | VStr s => str_truthy s
  | VList l => match l with [] => false | _ :: _ => true end
  | VDict d => match d with [] => false | _ :: _ => true end
  end.

(** [str(v)], which is also [format(v, "")] inside an f-string. *)
Definition py_str (v : pyval) : pystr :=
  match v with
  | VNone => lit "None"
  | VBool true => lit "True"
  | VBool false => lit "False"
  | VInt z => dec_Z z
  | VFloat bits => float_str bits
  | VStr s => s
  | VList _ | VDict _ => container_str v
  end.

(** [s.lower()] *)
Definition py_lower (s : pystr) : pystr :=
  if is_ascii s then map ascii_lower s else unicode_lower s.

(** [v.get(key, dflt)] *)
Definition py_get (v : pyval) (key : string) (dflt : pyval) : res pyval :=
  match v with
  | VDict d => Val (default dflt (dict_get (lit key) d))
  | _ => raise_builtin (AttributeError v "get")
  end.

(** [key in v] for a str [key] *)
Definition py_contains (key : pystr) (v : pyval) : res bool :=
  match v with
  | VStr s => Val (str_contains key s)
  | VList l => Val (existsb (is_str_eq key) l)
  | VDict d => Val (bool_decide (is_Some (dict_get key d)))
  | _ => raise_builtin (NotIterable v)
  end.

(** [v[key]] for a str [key] *)
Definition py_getitem (v : pyval) (key : pystr) : res pyval :=
  match v with
  | VDict d =>
      match dict_get key d with
      | Some x => Val x
      | None => raise_builtin (KeyError (VStr key))
      end
  | VStr _ | VList _ => raise_builtin (BadIndex v (VStr key))
  | _ => raise_builtin (NotSubscriptable v)
  end.

(** [v[i]] for an index [i] out of [range(len(v))] *)
Definition py_getitem_idx (v : pyval) (i : nat) : res pyval :=
  match v with
  | VList l =>
      match l !! i with
      | Some x => Val x
      | None => raise_builtin (IndexError i)
      end
  | VStr s =>
      match s !! i with
      | Some c => Val (VStr [c])
      | None => raise_builtin (IndexError i)
      end
  | VDict _ => raise_builtin (KeyError (VInt (Z.of_nat i)))
  | _ => raise_builtin (NotSubscriptable v)
  end.

(** [len(v)] *)
Definition py_len (v : pyval) : res nat :=
  match v with
  | VStr s => Val (length s)
  | VList l => Val (length l)
  | VDict d => Val (length d)
  | _ => raise_builtin (NoLen v)
  end.

(** The items [for x in v] runs over. *)
Definition py_iter (v : pyval) : res (list pyval) :=
  match v with
  | VList l => Val l
  | VStr s => Val (map (fun c => VStr [c]) s)
  | VDict d => Val (map (fun kv => VStr (fst kv)) d)
  | _ => raise_builtin (NotIterable v)
  end.

(** [v[:8]] *)
Definition py_slice8 (v : pyval) : res pyval :=
  match v with
  | VStr s => Val (VStr (str_prefix 8 s))
  | VList l => Val (VList (firstn 8 l))
  | VDict _ => raise_builtin (BadIndex v VNone)
  | _ => raise_builtin (NotSubscriptable v)
  end.

Definition int_truediv100 (v : pyval) (z : Z) : res pyval :=
  match int_div100 z with
  | Some bits => Val (VFloat bits)
  | None => raise_builtin (OverflowError z)
  end.

(** [v / 100] *)
Definition py_div100 (v : pyval) : res pyval :=
  match v with
  | VInt z => int_truediv100 v z
  | VBool b => int_truediv100 v (if b then 1 else 0)
  | VFloat bits => Val (VFloat (float_div100 bits))
  | _ => raise_builtin (BadOperand v)
  end.

Definition int_fmt2f (z : Z) : res pystr :=
  if Z.abs z <=? 2 ^ 53 then Val (dec_Z z ++ lit ".00")
  else match bigint_fmt2f z with
       | Some s => Val s
       | None => raise_builtin (OverflowError z)
       end.

(** [format(v, ".2f")] *)
Definition py_fmt2f (v : pyval) : res pystr :=
  match v with
  | VInt z => int_fmt2f z
  | VBool b => int_fmt2f (if b then 1 else 0)
  | VFloat bits => Val (float_fmt2f bits)
  | _ => raise_builtin (BadFormat v)
  end.
End Values.

(** ** What a run of the script does: rendered elements, calls, log lines *)

(** The four status boxes of Streamlit: [st.success], [st.info],
    [st.warning], [st.error]. *)
Inductive marker : Type := MSuccess | MInfo | MWarning | MError.

Inductive widget : Type := TextInput | Selectbox | Checkbox | Button | Radio.

(** An element records the text Streamlit displays: a body that is not a
    [str] is shown as its [str()]. *)
Inductive element : Type :=
  | SetPageConfig (page_title : pystr)
  | Title (body : pystr)
  | Markdown (body : pystr)
  | Subheader (body : pystr)
  | Caption (body : pystr)
  | Text (body : pystr)
  | Alert (m : marker) (body : pystr)
  | Progress (value : pyval)
  | Metric (label value : pystr) (delta : option pystr)
  | Dataframe (rows : list (list (pystr * pyval)))
  | LineChart (series : pyval)
  | Expander (label : pystr)
  | Spinner (text : pystr)
  | Widget (k : widget) (label : pystr) (options : list pystr)
  | DisabledTextInput (label : pystr) (value : pyval)
  | Sidebar (e : element).

Inductive service : Type :=
  | AnalysisService
  | HistoryService
  | StockService
  | SystemConfigService.

Definition service_eqb (a b : service) : bool :=
  match a, b with
  | AnalysisService, AnalysisService
  | HistoryService, HistoryService
  | StockService, StockService
  | SystemConfigService, SystemConfigService => true
  | _, _ => false
  end.

Inductive report_type : Type := detailed | simple.

Definition report_type_str (r : report_type) : pystr :=
  match r with
  | detailed => lit "detailed"
  | simple => lit "simple"
  end.

(** The calls the script makes to code outside of it, with their arguments. *)
Inductive call : Type :=
  | Call_get_config
  | Call_new (k : service)
  | Call_analyze_stock (stock_code : pystr) (rt : report_type)
      (force_refresh : bool) (query_id : pystr) (send_notification : bool)
  | Call_get_history_list (stock_code : option pystr) (start_date : pystr)
      (page : Z) (limit : Z)
  | Call_get_realtime_quote (stock_code : pystr)
  | Call_get_history_data (stock_code : pystr) (period : pystr) (days : Z)
  | Call_get_task_queue
  | Call_list_tasks (limit : Z)
  | Call_system_get_config (include_schema : bool).

Inductive event : Type :=
  | Render (e : element)
  | Call (c : call)
  | LogException (msg : pystr).

(** The [Config] object of [src.config]; the script only stores it. *)
Inductive Config : Type := ConfigObject (fields : list (pystr * pyval)).

(** What [st.session_state] holds under a key. *)
Inductive sval : Type :=
  | SBool (b : bool)
  | SConfig (c : Config)
  | SHandle (k : service).

(** [st.session_state]: a mapping from attribute names to values, kept by
    Streamlit between the runs of one session. *)
Abbreviation session := (gmap string sval).

(** What a collaborator does when called: it returns, or raises an
    [Exception] [e] with [str(e) = msg]. *)
Inductive outcome (A : Type) : Type :=
  | Returned (a : A)
  | Raised (msg : pystr).
Arguments Returned {A} a.
Arguments Raised {A} msg.

(** The collaborators, the clock and the uuid generator, as one run of the
    script meets them. *)
Record World `{TaskStatusEnum} : Type := {
  (** [get_config()] *)
  w_get_config : outcome Config;
  (** [AnalysisService()], [HistoryService()], ... *)
  w_new : service -> outcome unit;
  (** [uuid.uuid4().hex] *)
  w_uuid4_hex : pystr;
  (** [(datetime.now() - timedelta(days=d)).strftime("%Y-%m-%d")] *)
  w_start_date : Z -> pystr;
  w_analyze_stock : pystr -> report_type -> bool -> pystr -> bool -> outcome pyval;
  w_get_history_list : option pystr -> pystr -> Z -> Z -> outcome pyval;
  w_get_realtime_quote : pystr -> outcome pyval;
  w_get_history_data : pystr -> pystr -> Z -> outcome pyval;
  w_get_task_queue : outcome unit;
  w_list_tasks : Z -> outcome (option (list Task));
  w_system_get_config : bool -> outcome pyval
}.

(** ** The monad of a script run

    A computation reads and writes the session state, emits events in order
    and either returns or raises. *)
Inductive completion (A : Type) : Type :=
  | Ok (a : A)
  | Raise (e : exn).
Arguments Ok {A} a.
Arguments Raise {A} e.

Definition M (A : Type) : Type :=
  session -> completion A * session * list event.

Definition ret {A : Type} (a : A) : M A := fun s => (Ok a, s, []).

Definition bind {A B : Type} (m : M A) (k : A -> M B) : M B :=
  fun s =>
    match m s with
    | (Ok a, s1, t1) =>
        match k a s1 with
        | (r, s2, t2) => (r, s2, t1 ++ t2)
        end
    | (Raise e, s1, t1) => (Raise e, s1, t1)
    end.

Declare Scope py_scope.
Delimit Scope py_scope with py.
Notation "x <- m ;; k" := (bind m (fun x => k))
  (at level 100, m at next level, right associativity) : py_scope.
Notation "m ;; k" := (bind m (fun _ => k))
  (at level 100, right associativity) : py_scope.
Local Open Scope py_scope.

Definition raise {A : Type} (e : exn) : M A := fun s => (Raise e, s, []).

(** An expression evaluated inside a computation. *)
Definition lift {A : Type} (r : res A) : M A :=
  fun s =>
    match r with
    | Val a => (Ok a, s, [])
    | Exc msg => (Raise (Exception msg), s, [])
    end.

Definition emit (ev : event) : M unit := fun s => (Ok tt, s, [ev]).

Definition render (e : element) : M unit := emit (Render e).

(** [logger.exception(msg)] *)
Definition log_exception (msg : pystr) : M unit := emit (LogException msg).

(** [try: body except Exception as e: handler(str(e))] *)
Definition try_except (body : M unit) (handler : pystr -> M unit) : M unit :=
  fun s =>
    match body s with
    | (Raise (Exception msg), s1, t1) =>
        match handler msg s1 with
        | (r, s2, t2) => (r, s2, t1 ++ t2)
        end
    | r => r
    end.

(** [for x in l: body(x)] *)
Fixpoint for_each {A : Type} (l : list A) (body : A -> M unit) : M unit :=
  match l with
  | [] => ret tt
  | x :: r => body x ;; for_each r body
  end.

(** [[f(x) for x in l]], where [f] may raise *)
Fixpoint map_res {A B : Type} (f : A -> res B) (l : list A) : res (list B) :=
  match l with
  | [] => Val []
  | x :: r =>
      let? y := f x in
      let? ys := map_res f r in
      Val (y :: ys)
  end.

(** Calling a collaborator: the call is made, then it returns or raises. *)
Definition invoke {A : Type} (c : call) (o : outcome A) : M A :=
  emit (Call c) ;;
  match o with
  | Returned a => ret a
  | Raised msg => raise (Exception msg)
  end.

Section Session.
Context {rt : PyRuntime}.

(** [name in st.session_state] *)
Definition session_has (name : string) : M bool :=
  fun s => (Ok (bool_decide (is_Some (s !! name))), s, []).

(** [st.session_state.name = v] *)
Definition session_set (name : string) (v : sval) : M unit :=
  fun s => (Ok tt, <[name := v]> s, []).

(** [st.session_state.name] *)
Definition session_attr (name : string) : M sval :=
  fun s =>
    match s !! name with
    | Some v => (Ok v, s, [])
    | None => lift (raise_builtin (SessionAttributeError name)) s
    end.

(** [st.session_state.name.method], for a method of the service [k] *)
Definition session_service (name : string) (k : service) (method : string)
  : M unit :=
  v <- session_attr name ;;
  match v with
  | SHandle k' =>
      if service_eqb k' k then ret tt
      else lift (raise_builtin (ObjectAttributeError method))
  | _ => lift (raise_builtin (ObjectAttributeError method))
  end.
End Session.

(** ** The script *)

Section App.
Context {rt : PyRuntime} {ts : TaskStatusEnum}.
Variable w : World.

(** *** Session state initialization (lines 63-70) *)

Definition construct (k : service) (name : string) : M unit :=
  invoke (Call_new k) (w_new w k) ;;
  session_set name (SHandle k).

Definition init_session : M unit :=
  present <- session_has "initialized" ;;
  if negb present then
    session_set "initialized" (SBool true) ;;
    c <- invoke Call_get_config (w_get_config w) ;;
    session_set "config" (SConfig c) ;;
    construct AnalysisService "analysis_service" ;;
    construct HistoryService "history_service" ;;
    construct StockService "stock_service" ;;
    construct SystemConfigService "system_config_service"
  else ret tt.

(** *** [show_analysis_page] *)

Record AnalysisInputs : Type := {
  a_stock_code : pystr;
  a_report_type : report_type;
  a_force_refresh : bool;
  a_send_notification : bool;
  (** the button "开始分析" was clicked *)
  a_button : bool
}.

(** Lines 163-171: the operation advice, framed by what it contains. *)
Definition render_operation_advice (advice : pyval) : M unit :=
  render (Markdown (lit "### 💡 操作建议")) ;;
  buy <- lift (py_contains (lit "买入") advice) ;;
  if buy then render (Alert MSuccess (lit "**" ++ py_str advice ++ lit "**"))
  else
    sell <- lift (py_contains (lit "卖出") advice) ;;
    if sell then render (Alert MError (lit "**" ++ py_str advice ++ lit "**"))
    else render (Alert MWarning (lit "**" ++ py_str advice ++ lit "**")).

(** [if key in report: body(report[key])], for a dict [report] *)
Definition when_key (report : list (pystr * pyval)) (key : string)
    (body : pyval -> M unit) : M unit :=
  match dict_get (lit key) report with
  | Some v => body v
  | None => ret tt
  end.

(** Lines 158-186: a structured report. *)
Definition render_structured_report (report : list (pystr * pyval)) : M unit :=
  when_key report "summary" (fun summary =>
    render (Markdown (lit "### 📋 分析摘要")) ;;
    render (Alert MInfo (py_str summary))) ;;
  when_key report "operation_advice" render_operation_advice ;;
  when_key report "sentiment_score" (fun score =>
    render (Markdown (lit "### 📊 情绪评分")) ;;
    fraction <- lift (py_div100 score) ;;
    render (Progress fraction) ;;
    render (Caption (lit "评分: " ++ py_str score ++ lit "/100"))) ;;
  when_key report "trend_prediction" (fun trend =>
    render (Markdown (lit "### 🔮 趋势预测")) ;;
    render (Alert MInfo (py_str trend))) ;;
  when_key report "full_report" (fun full =>
    render (Markdown (lit "### 📄 完整报告")) ;;
    render (Markdown (py_str full))).

(** Lines 148-195: what is shown for the value [analyze_stock] returned. *)
Definition render_analysis_result (result : pyval) (query_id : pystr) : M unit :=
  if truthy result then
    render (Alert MSuccess (lit "分析完成！")) ;;
    render (Markdown (lit "---")) ;;
    stock_name <- lift (py_get result "stock_name" (VStr (lit "N/A"))) ;;
    stock_code <- lift (py_get result "stock_code" (VStr (lit "N/A"))) ;;
    render (Subheader (lit "📈 " ++ py_str stock_name ++ lit " ("
                       ++ py_str stock_code ++ lit ")")) ;;
    has_report <- lift (py_contains (lit "report") result) ;;
    (if has_report then
       report <- lift (py_getitem result (lit "report")) ;;
       match report with
       | VDict d => render_structured_report d
       | _ => render (Markdown (py_str report))
       end
     else ret tt) ;;
    render (Caption (lit "查询 ID: " ++ query_id))
  else
    render (Alert MError (lit "分析失败，请检查股票代码是否正确或查看日志")).

Definition show_analysis_page (inp : AnalysisInputs) : M unit :=
  let stock_code := a_stock_code inp in
  render (Title (lit "📊 股票分析")) ;;
  render (Markdown (lit "触发 AI 智能分析，获取股票决策建议")) ;;
  render (Widget TextInput (lit "股票代码") []) ;;
  render (Widget Selectbox (lit "报告类型")
            (map report_type_str [detailed; simple])) ;;
  render (Widget Checkbox (lit "强制刷新") []) ;;
  render (Widget Checkbox (lit "发送通知") []) ;;
  render (Widget Button (lit "开始分析") []) ;;
  if a_button inp then
    if negb (str_truthy stock_code) then
      render (Alert MError (lit "请输入股票代码"))
    else
      render (Spinner (lit "正在分析 " ++ stock_code ++ lit "...")) ;;
      try_except
        (let query_id := w_uuid4_hex w in
         session_service "analysis_service" AnalysisService "analyze_stock" ;;
         result <- invoke
           (Call_analyze_stock (strip stock_code) (a_report_type inp)
              (a_force_refresh inp) query_id (a_send_notification inp))
           (w_analyze_stock w (strip stock_code) (a_report_type inp)
              (a_force_refresh inp) query_id (a_send_notification inp)) ;;
         render_analysis_result result query_id)
        (fun msg =>
           render (Alert MError (lit "分析过程中发生错误: " ++ msg)) ;;
           log_exception (lit "Analysis error"))
  else ret tt.

(** *** [show_history_page] *)

Record HistoryInputs : Type := {
  h_stock_code_filter : pystr;
  (** one of 7, 30, 90, 180, 365 *)
  h_days_back : Z;
  (** one of 10, 20, 50, 100 *)
  h_page_size : Z;
  (** the button "查询" was clicked *)
  h_button : bool;
  (** what the selectbox "选择记录" returns: the index of one of its
      options, [None] when it has none *)
  h_selected_idx : option nat
}.

(** [v and key in v and v[key]], as a condition *)
Definition has_nonempty (v : pyval) (key : pystr) : res bool :=
  if truthy v then
    let? present := py_contains key v in
    if present then
      let? x := py_getitem v key in
      Val (truthy x)
    else Val false
  else Val false.

Definition NA : pyval := VStr (lit "N/A").

(** Lines 235-242: one row of the table. *)
Definition history_row (item : pyval) : res (list (pystr * pyval)) :=
  let? meta := py_get item "meta" (VDict []) in
  let? stock_code := py_get meta "stock_code" NA in
  let? stock_name := py_get meta "stock_name" NA in
  let? created_at := py_get meta "created_at" NA in
  let? operation_advice := py_get meta "operation_advice" NA in
  let? sentiment_score := py_get meta "sentiment_score" NA in
  Val [(lit "股票代码", stock_code); (lit "股票名称", stock_name);
      (lit "分析时间", created_at); (lit "操作建议", operation_advice);
      (lit "情绪评分", sentiment_score)].

(** Line 254: the [format_func] of the selectbox, which Streamlit applies
    to every option. *)
Definition history_option_label (items : pyval) (x : nat) : res pystr :=
  let? item := py_getitem_idx items x in
  let? meta := py_getitem item (lit "meta") in
  let? stock_name := py_get meta "stock_name" NA in
  let? item' := py_getitem_idx items x in
  let? meta' := py_getitem item' (lit "meta") in
  let? created_at := py_get meta' "created_at" NA in
  Val (py_str stock_name ++ lit " - " ++ py_str created_at).

(** Lines 229-262: what is shown for the value [get_history_list] returned. *)
Definition render_history_result (result : pyval) (selected_idx : option nat)
  : M unit :=
  found <- lift (has_nonempty result (lit "items")) ;;
  if found then
    total <- lift (py_get result "total" (VInt 0)) ;;
    render (Alert MSuccess (lit "找到 " ++ py_str total ++ lit " 条记录")) ;;
    items <- lift (py_getitem result (lit "items")) ;;
    df_data <- lift (let? l := py_iter items in map_res history_row l) ;;
    match df_data with
    | [] => ret tt
    | _ :: _ =>
        render (Dataframe df_data) ;;
        render (Markdown (lit "---")) ;;
        render (Subheader (lit "📄 查看详细报告")) ;;
        n <- lift (py_len items) ;;
        labels <- lift (map_res (history_option_label items) (seq 0 n)) ;;
        render (Widget Selectbox (lit "选择记录") labels) ;;
        match selected_idx with
        | Some i =>
            selected_item <- lift (py_getitem_idx items i) ;;
            has_report <- lift (py_contains (lit "report") selected_item) ;;
            if has_report then
              report <- lift (py_getitem selected_item (lit "report")) ;;
              render (Markdown (py_str report))
            else ret tt
        | None => ret tt
        end
    end
  else render (Alert MInfo (lit "暂无历史记录")).

(** Line 223: the [stock_code] argument of the query. *)
Definition history_stock_code (stock_code_filter : pystr) : option pystr :=
  if str_truthy stock_code_filter then Some (strip stock_code_filter)
  else None.

Definition show_history_page (inp : HistoryInputs) : M unit :=
  render (Title (lit "📚 历史记录")) ;;
  render (Markdown (lit "查看历史分析记录")) ;;
  render (Widget TextInput (lit "股票代码筛选") []) ;;
  render (Widget Selectbox (lit "时间范围")
            (map dec_Z [7; 30; 90; 180; 365])) ;;
  let start_date := w_start_date w (h_days_back inp) in
  render (Widget Selectbox (lit "每页数量") (map dec_Z [10; 20; 50; 100])) ;;
  render (Widget Button (lit "查询") []) ;;
  if h_button inp then
    render (Spinner (lit "正在加载历史记录...")) ;;
    try_except
      (session_service "history_service" HistoryService "get_history_list" ;;
       let stock_code := history_stock_code (h_stock_code_filter inp) in
       result <- invoke
         (Call_get_history_list stock_code start_date 1 (h_page_size inp))
         (w_get_history_list w stock_code start_date 1 (h_page_size inp)) ;;
       render_history_result result (h_selected_idx inp))
      (fun msg =>
         render (Alert MError (lit "查询失败: " ++ msg)) ;;
         log_exception (lit "History query error"))
  else ret tt.

(** *** [show_stock_quote_page] *)

Record QuoteInputs : Type := {
  q_stock_code : pystr;
  (** the button "查询行情" was clicked *)
  q_button : bool;
  (** the checkbox "显示历史K线数据" is ticked *)
  q_show_history : bool
}.

(** Lines 318-329: the K-line chart, with its own handler. *)
Definition render_kline (stock_code : pystr) (show_history : bool) : M unit :=
  render (Widget Checkbox (lit "显示历史K线数据") []) ;;
  if show_history then
    try_except
      (session_service "stock_service" StockService "get_history_data" ;;
       history <- invoke
         (Call_get_history_data (strip stock_code) (lit "daily") 30)
         (w_get_history_data w (strip stock_code) (lit "daily") 30) ;;
       found <- lift (has_nonempty history (lit "data")) ;;
       if found then
         data <- lift (py_getitem history (lit "data")) ;;
         series <- lift (close_series data) ;;
         render (LineChart series)
       else ret tt)
      (fun msg => render (Alert MWarning (lit "获取历史数据失败: " ++ msg)))
  else ret tt.

(** Lines 293-315: the ten fields of a quote. *)
Definition render_quote_fields (quote : pyval) : M unit :=
  current_price <- lift (py_get quote "current_price" NA) ;;
  render (Metric (lit "当前价") (py_str current_price) None) ;;
  change <- lift (py_get quote "change" (VInt 0)) ;;
  change_pct <- lift (py_get quote "change_percent" (VInt 0)) ;;
  change_txt <- lift (py_fmt2f change) ;;
  change_pct_txt <- lift (py_fmt2f change_pct) ;;
  render (Metric (lit "涨跌") change_txt (Some (change_pct_txt ++ lit "%"))) ;;
  open <- lift (py_get quote "open" NA) ;;
  render (Metric (lit "今日开盘") (py_str open) None) ;;
  prev_close <- lift (py_get quote "prev_close" NA) ;;
  render (Metric (lit "昨日收盘") (py_str prev_close) None) ;;
  render (Markdown (lit "---")) ;;
  high <- lift (py_get quote "high" NA) ;;
  render (Markdown (lit "**最高价**: " ++ py_str high)) ;;
  low <- lift (py_get quote "low" NA) ;;
  render (Markdown (lit "**最低价**: " ++ py_str low)) ;;
  volume <- lift (py_get quote "volume" NA) ;;
  render (Markdown (lit "**成交量**: " ++ py_str volume)) ;;
  amount <- lift (py_get quote "amount" NA) ;;
  render (Markdown (lit "**成交额**: " ++ py_str amount)) ;;
  turnover_rate <- lift (py_get quote "turnover_rate" NA) ;;
  render (Markdown (lit "**换手率**: " ++ py_str turnover_rate)).

(** Lines 289-331: what is shown for the value [get_realtime_quote]
    returned. *)
Definition render_quote_result (quote : pyval) (stock_code : pystr)
    (show_history : bool) : M unit :=
  if truthy quote then
    render (Alert MSuccess (lit "行情数据获取成功")) ;;
    render_quote_fields quote ;;
    render_kline stock_code show_history
  else render (Alert MError (lit "获取行情数据失败")).

Definition show_stock_quote_page (inp : QuoteInputs) : M unit :=
  let stock_code := q_stock_code inp in
  render (Title (lit "💹 股票行情")) ;;
  render (Markdown (lit "查看实时股票行情数据")) ;;
  render (Widget TextInput (lit "股票代码") []) ;;
  render (Widget Button (lit "查询行情") []) ;;
  if q_button inp then
    if negb (str_truthy stock_code) then
      render (Alert MError (lit "请输入股票代码"))
    else
      render (Spinner (lit "正在获取 " ++ stock_code ++ lit " 的行情数据...")) ;;
      try_except
        (session_service "stock_service" StockService "get_realtime_quote" ;;
         quote <- invoke (Call_get_realtime_quote (strip stock_code))
                    (w_get_realtime_quote w (strip stock_code)) ;;
         render_quote_result quote stock_code (q_show_history inp))
        (fun msg =>
           render (Alert MError (lit "查询失败: " ++ msg)) ;;
           log_exception (lit "Stock quote error"))
  else ret tt.

(** *** [show_task_monitor_page] *)

(** [status_groups]: a dict from status to the list of its tasks, in
    insertion order. *)
Definition groups : Type := list (Status * list Task).

(** [status in status_groups] *)
Fixpoint groups_has (status : Status) (g : groups) : bool :=
  match g with
  | [] => false
  | (k, _) :: r => if decide (k = status) then true else groups_has status r
  end.

(** [status_groups[status].append(task)]; the key is present when the page
    does this. *)
Fixpoint groups_append (status : Status) (task : Task) (g : groups) : groups :=
  match g with
  | [] => []
  | (k, l) :: r =>
      if decide (k = status) then (k, l ++ [task]) :: r
      else (k, l) :: groups_append status task r
  end.

(** Line 356: [task.get("status", "unknown")] *)
Definition status_of (task : Task) : Status :=
  default status_unknown (task_status task).

(** Lines 356-359: the body of the grouping loop. *)
Definition group_step (g : groups) (task : Task) : groups :=
  let status := status_of task in
  let g' := if groups_has status g then g else g ++ [(status, [])] in
  groups_append status task g'.

(** Lines 354-359 *)
Definition group_by_status (tasks : list Task) : groups :=
  fold_left group_step tasks [].

(** Lines 365-378: one task of a group. *)
Definition render_task (task : Task) : M unit :=
  render (Text (lit "股票: " ++ py_str (default NA (task_stock_code task)))) ;;
  render (Text (lit "创建时间: " ++ py_str (default NA (task_created_at task)))) ;;
  match task_status task with
  | Some s =>
      if decide (s = RUNNING) then render (Alert MWarning (lit "运行中"))
      else if decide (s = COMPLETED) then render (Alert MSuccess (lit "已完成"))
      else if decide (s = FAILED) then render (Alert MError (lit "失败"))
      else render (Alert MInfo (status_str s))
  | None => render (Alert MInfo (lit "未知"))
  end.

(** Lines 350-380: what is shown for the value [list_tasks] returned. *)
Definition render_tasks (tasks : option (list Task)) : M unit :=
  match tasks with
  | Some (t :: r) =>
      let tasks := t :: r in
      render (Alert MSuccess (lit "当前有 " ++ dec_Z (Z.of_nat (length tasks))
                              ++ lit " 个任务")) ;;
      let status_groups := group_by_status tasks in
      for_each status_groups (fun '(status, task_list) =>
        render (Expander (status_str status ++ lit " ("
                          ++ dec_Z (Z.of_nat (length task_list)) ++ lit ")")) ;;
        for_each task_list render_task)
  | _ => render (Alert MInfo (lit "当前没有任务"))
  end.

Record TaskInputs : Type := {
  (** the button "刷新任务列表" was clicked *)
  t_refresh : bool
}.

Definition show_task_monitor_page (inp : TaskInputs) : M unit :=
  render (Title (lit "⚙️ 任务监控")) ;;
  render (Markdown (lit "监控分析任务执行状态")) ;;
  render (Widget Button (lit "刷新任务列表") []) ;;
  (if t_refresh inp then raise RerunException else ret tt) ;;
  try_except
    (invoke Call_get_task_queue (w_get_task_queue w) ;;
     tasks <- invoke (Call_list_tasks 50) (w_list_tasks w 50) ;;
     render_tasks tasks)
    (fun msg =>
       render (Alert MError (lit "获取任务列表失败: " ++ msg)) ;;
       log_exception (lit "Task monitor error")).

(** *** [show_config_page] *)

(** Lines 402-407 *)
Definition sections : list (pystr * list pystr) :=
  [ (lit "AI 配置",
     [lit "gemini_api_key"; lit "openai_api_key"; lit "openai_base_url";
      lit "openai_model"]);
    (lit "通知配置",
     [lit "wechat_webhook_url"; lit "feishu_webhook_url";
      lit "telegram_bot_token"]);
    (lit "数据源配置",
     [lit "tushare_token"; lit "tavily_api_keys"; lit "serpapi_keys"]);
    (lit "股票配置", [lit "stock_list"]) ].

(** Line 415: the condition under which a value is masked. *)
Definition is_sensitive (key : pystr) : bool :=
  str_contains (lit "api_key") (py_lower key)
  || str_contains (lit "token") (py_lower key)
  || str_contains (lit "password") (py_lower key).

(** Line 416: [f"{value[:8]}..." if value and len(value) > 8 else "***"] *)
Definition mask_value (value : pyval) : res pyval :=
  if truthy value then
    let? n := py_len value in
    if (8 <? n)%nat then
      let? head := py_slice8 value in
      Val (VStr (py_str head ++ lit "..."))
    else Val (VStr (lit "***"))
  else Val (VStr (lit "***")).

(** Lines 413-418 *)
Definition display_value (key : pystr) (value : pyval) : res pyval :=
  if is_sensitive key then mask_value value else Val value.

(** Lines 412-419: one key of a section. *)
Definition render_config_key (config_dict : pyval) (key : pystr) : M unit :=
  present <- lift (py_contains key config_dict) ;;
  if present then
    value <- lift (py_getitem config_dict key) ;;
    shown <- lift (display_value key value) ;;
    render (DisabledTextInput key shown)
  else ret tt.

(** Lines 396-423: what is shown for the value [get_config] returned. *)
Definition render_config (config_data : pyval) : M unit :=
  found <- lift (if truthy config_data
                 then py_contains (lit "config") config_data
                 else Val false) ;;
  if found then
    config_dict <- lift (py_getitem config_data (lit "config")) ;;
    render (Markdown (lit "### 当前配置")) ;;
    for_each sections (fun '(section_name, keys) =>
      render (Expander section_name) ;;
      for_each keys (render_config_key config_dict)) ;;
    render (Alert MInfo
              (lit "⚠️ 配置修改需要在 .env 文件中进行，修改后需要重启应用"))
  else render (Alert MWarning (lit "无法加载配置信息")).

Definition show_config_page : M unit :=
  render (Title (lit "⚙️ 系统配置")) ;;
  render (Markdown (lit "查看和管理系统配置")) ;;
  try_except
    (session_service "system_config_service" SystemConfigService "get_config" ;;
     config_data <- invoke (Call_system_get_config true)
                      (w_system_get_config w true) ;;
     render_config config_data)
    (fun msg =>
       render (Alert MError (lit "加载配置失败: " ++ msg)) ;;
       log_exception (lit "Config page error")).

(** *** [main] and the script *)

(** The five labels of the navigation radio. *)
Inductive page : Type :=
  | PageAnalysis
  | PageHistory
  | PageQuote
  | PageTasks
  | PageConfig.

Definition page_label (p : page) : pystr :=
  match p with
  | PageAnalysis => lit "股票分析"
  | PageHistory => lit "历史记录"
  | PageQuote => lit "股票行情"
  | PageTasks => lit "任务监控"
  | PageConfig => lit "系统配置"
  end.

(** What the user has entered in the widgets when the script runs. *)
Record Inputs : Type := {
  nav : page;
  in_analysis : AnalysisInputs;
  in_history : HistoryInputs;
  in_quote : QuoteInputs;
  in_tasks : TaskInputs
}.

Definition show_page (inp : Inputs) : M unit :=
  match nav inp with
  | PageAnalysis => show_analysis_page (in_analysis inp)
  | PageHistory => show_history_page (in_history inp)
  | PageQuote => show_stock_quote_page (in_quote inp)
  | PageTasks => show_task_monitor_page (in_tasks inp)
  | PageConfig => show_config_page
  end.

Definition main (inp : Inputs) : M unit :=
  render (Sidebar (Title (lit "📈 股票智能分析系统"))) ;;
  render (Sidebar (Markdown (lit "---"))) ;;
  render (Sidebar (Widget Radio (lit "导航")
                     (map page_label [PageAnalysis; PageHistory; PageQuote;
                                      PageTasks; PageConfig]))) ;;
  render (Sidebar (Markdown (lit "---"))) ;;
  render (Sidebar (Markdown (lit "### 系统信息"))) ;;
  session_attr "config" ;;
  render (Sidebar (Alert MInfo (lit "**运行模式**: Streamlit Web UI"))) ;;
  show_page inp.

(** One run of the script: page configuration, session initialization,
    [main].  The environment and logging set-up of lines 17-53 touches
    neither the session nor the page. *)
Definition script (inp : Inputs) : M unit :=
  render (SetPageConfig (lit "股票智能分析系统")) ;;
  init_session ;;
  main inp.
End App.

Arguments lit : simpl never.
Arguments strip : simpl never.
Arguments dec_Z : simpl never.

(** ** Reading the result of a run *)

Definition result_of {A : Type} (x : completion A * session * list event) : completion A :=
  fst (fst x).

Definition session_of {A : Type} (x : completion A * session * list event) : session :=
  snd (fst x).

Definition trace_of {A : Type} (x : completion A * session * list event) : list event :=
  snd x.

(** The collaborator calls of a trace, in order. *)
Definition calls_of (t : list event) : list call :=
  omap (fun ev => match ev with Call c => Some c | _ => None end) t.

(** The status boxes of a trace, in order: marker and text. *)
Definition alerts (t : list event) : list (marker * pystr) :=
  omap (fun ev => match ev with
                  | Render (Alert m body) => Some (m, body)
                  | _ => None
                  end) t.

(** The disabled text inputs of a trace, in order: label and value. *)
Definition text_inputs (t : list event) : list (pystr * pyval) :=
  omap (fun ev => match ev with
                  | Render (DisabledTextInput label value) => Some (label, value)
                  | _ => None
                  end) t.

(** A computation that leaves the session state as it found it and emits
    only events that satisfy [P]. *)
Definition quiet {A : Type} (P : event -> Prop) (m : M A) : Prop :=
  forall s, session_of (m s) = s /\ Forall P (trace_of (m s)).

(** A computation that never asks for a rerun. *)
Definition no_rerun {A : Type} (m : M A) : Prop :=
  forall s, result_of (m s) <> Raise RerunException.

(** A computation that always returns. *)
Definition returns {A : Type} (m : M A) : Prop :=
  forall s, exists a, result_of (m s) = Ok a.

(** The events of a page: anything but a construction of the session's
    objects. *)
Definition page_event (ev : event) : Prop :=
  match ev with
  | Call Call_get_config | Call (Call_new _) => False
  | _ => True
  end.

(** The events that are not a call. *)
Definition no_call (ev : event) : Prop :=
  match ev with
  | Call _ => False
  | _ => True
  end.

(** How often a call occurs in a trace. *)
Definition count_call (c : call -> bool) (t : list event) : nat :=
  length (List.filter c (calls_of t)).

Definition is_new (k : service) (c : call) : bool :=
  match c with
  | Call_new k' => service_eqb k' k
  | _ => false
  end.

Definition is_get_config (c : call) : bool :=
  match c with
  | Call_get_config => true
  | _ => false
  end.

(** The state a view ends in: the run returned, the session state is as it
    was, and the one status box shown has the given marker and text. *)
Definition view_state (x : completion unit * session * list event) (s : session)
    (m : marker) (text : pystr) : Prop :=
  result_of x = Ok tt /\ session_of x = s
  /\ alerts (trace_of x) = [(m, text)].

(** The error state of a view. *)
Definition error_state (x : completion unit * session * list event) (s : session)
    (text : pystr) : Prop :=
  view_state x s MError text.

(** What a text input of the configuration view stands for: a key of the
    section table that is a key of the config mapping the service returned,
    with the value of that key as it is displayed. *)
Definition config_input `{PyRuntime} `{TaskStatusEnum} (w : World)
    (ev : event) : Prop :=
  match ev with
  | Render (DisabledTextInput key shown) =>
      key ∈ concat (map snd sections)
      /\ exists config_data config_dict value,
           w_system_get_config w true = Returned config_data
           /\ py_getitem config_data (lit "config") = Val config_dict
           /\ py_contains key config_dict = Val true
           /\ py_getitem config_dict key = Val value
           /\ display_value key value = Val shown
  | _ => True
  end.

(** The whole life of a session: the script runs once per interaction, each
    time with what the user entered and with the collaborators as they are
    then; Streamlit keeps the session state from one run to the next, also
    when a run raised. *)
Fixpoint run_session `{PyRuntime} `{TaskStatusEnum}
    (runs : list (World * Inputs)) (s : session) : session * list event :=
  match runs with
  | [] => (s, [])
  | (w, inp) :: rest =>
      let x := script w inp s in
      let y := run_session rest (session_of x) in
      (fst y, trace_of x ++ snd y)
  end.

(** ** The words of the specification *)

(** [tok] occurs in [s]: the text contains the token. *)
Definition occurs (tok s : pystr) : Prop := exists a b, s = a ++ tok ++ b.

(** The three advice classes, and the status box each one is shown in. *)
Inductive advice_class : Type := Buy | Sell | Neutral.

Definition advice_frame (c : advice_class) : marker :=
  match c with
  | Buy => MSuccess
  | Sell => MError
  | Neutral => MWarning
  end.

(** The distinct values of a sequence, in the order in which each is seen for
    the first time. *)
Fixpoint first_seen {K : Type} `{EqDecision K} (l : list K) : list K :=
  match l with
  | [] => []
  | x :: r => x :: filter (fun y => y <> x) (first_seen r)
  end.

(** What the quote view shows for the ten fields, given the text of each. *)
Definition quote_fields_view
    (current_price change change_percent open prev_close high low volume
       amount turnover_rate : pystr) : list event :=
  [ Render (Metric (lit "当前价") current_price None);
    Render (Metric (lit "涨跌") change (Some (change_percent ++ lit "%")));
    Render (Metric (lit "今日开盘") open None);
    Render (Metric (lit "昨日收盘") prev_close None);
    Render (Markdown (lit "---"));
    Render (Markdown (lit "**最高价**: " ++ high));
    Render (Markdown (lit "**最低价**: " ++ low));
    Render (Markdown (lit "**成交量**: " ++ volume));
    Render (Markdown (lit "**成交额**: " ++ amount));
    Render (Markdown (lit "**换手率**: " ++ turnover_rate)) ].

(** The text shown for a field that is displayed as it is: ["N/A"] when its
    key is absent from the quote, the [str] of its value when it is
    present. *)
Definition shown_plain `{PyRuntime} (quote : list (pystr * pyval))
    (key : string) (text : pystr) : Prop :=
  match dict_get (lit key) quote with
  | None => text = lit "N/A"
  | Some v => text = py_str v
  end.

(** The text shown for a field that is formatted with two decimals: ["0.00"]
    when its key is absent, the formatted value when it is present. *)
Definition shown_2f `{PyRuntime} (quote : list (pystr * pyval))
    (key : string) (text : pystr) : Prop :=
  match dict_get (lit key) quote with
  | None => text = lit "0.00"
  | Some v => py_fmt2f v = Val text
  end.

(** A field formatted with two decimals does not stop the rendering: its key
    is absent, or its value can be formatted. *)
Definition formattable `{PyRuntime} (quote : list (pystr * pyval))
    (key : string) : Prop :=
  forall v, dict_get (lit key) quote = Some v -> exists text, py_fmt2f v = Val text.

(** The lines written with [logger.exception], in order. *)
Definition logs_of (t : list event) : list pystr :=
  omap (fun ev => match ev with LogException msg => Some msg | _ => None end) t.

(** The rendered elements of a trace, in order. *)
Definition rendered (t : list event) : list element :=
  omap (fun ev => match ev with Render e => Some e | _ => None end) t.

(** The events that are not a log line. *)
Definition no_log (ev : event) : Prop :=
  match ev with
  | LogException _ => False
  | _ => True
  end.

(** A run that logged nothing, or whose last two events are the error box of
    an exception handler and its log line, the only one of the run. *)
Definition logged_last (prefix label : pystr)
    (x : completion unit * session * list event) : Prop :=
  logs_of (trace_of x) = []
  \/ exists t0 msg,
       trace_of x
       = t0 ++ [Render (Alert MError (prefix ++ msg)); LogException label]
       /\ logs_of t0 = [].

(** The events that are not a line chart. *)
Definition no_chart (ev : event) : Prop :=
  match ev with
  | Render (LineChart _) => False
  | _ => True
  end.

(** A history record the table can list: a dict whose "meta", when it has
    one, is a dict. *)
Definition listable (item : pyval) : Prop :=
  exists d, item = VDict d
            /\ (dict_get (lit "meta") d = None
                \/ exists m, dict_get (lit "meta") d = Some (VDict m)).

(** A history record with a "meta" dict. *)
Definition has_meta (item : pyval) : Prop :=
  exists d m, item = VDict d /\ dict_get (lit "meta") d = Some (VDict m).

(** A history record without the key "meta". *)
Definition lacks_meta (item : pyval) : Prop :=
  exists d, item = VDict d /\ dict_get (lit "meta") d = None.

(** The label of one record in the selectbox of the history view. *)
Definition record_label `{PyRuntime} (item : pyval) : res pystr :=
  let? meta := py_getitem item (lit "meta") in
  let? stock_name := py_get meta "stock_name" NA in
  let? created_at := py_get meta "created_at" NA in
  Val (py_str stock_name ++ lit " - " ++ py_str created_at).

(** What the history view shows below the selectbox: the report of the
    selected record, when it has one. *)
Definition selected_report `{PyRuntime} (items : list pyval)
    (selected_idx : option nat) : list event :=
  match selected_idx with
  | None => []
  | Some i =>
      match items !! i with
      | Some (VDict d) =>
          match dict_get (lit "report") d with
          | Some report => [Render (Markdown (py_str report))]
          | None => []
          end
      | _ => []
      end
  end.

(** The keys of the section table of the configuration view, in order. *)
Definition table_keys : list pystr := concat (map snd sections).

(** A key whose value, when the config mapping has one, can be displayed. *)
Definition displayable `{PyRuntime} (d : list (pystr * pyval)) (key : pystr)
  : Prop :=
  forall value, dict_get key d = Some value ->
                exists shown, display_value key value = Val shown.

(** Label and displayed value of the text input for a key of the config
    mapping; none for an absent key. *)
Definition config_field `{PyRuntime} (d : list (pystr * pyval)) (key : pystr)
  : option (pystr * pyval) :=
  match dict_get key d with
  | Some value =>
      match display_value key value with
      | Val shown => Some (key, shown)
      | Exc _ => None
      end
  | None => None
  end.

(** The text inputs of a list of keys. *)
Definition config_fields `{PyRuntime} (d : list (pystr * pyval))
    (keys : list pystr) : list event :=
  map (fun kv => Render (DisabledTextInput (fst kv) (snd kv)))
    (omap (config_field d) keys).

(** The keys of a list that come before the first occurrence of [key]. *)
Fixpoint before (key : pystr) (l : list pystr) : list pystr :=
  match l with
  | [] => []
  | k :: r => if decide (k = key) then [] else k :: before key r
  end.

(** The values that have no [len]: null, booleans and numbers. *)
Definition unsized (v : pyval) : bool :=
  match v with
  | VNone | VBool _ | VInt _ | VFloat _ => true
  | VStr _ | VList _ | VDict _ => false
  end.

(** The text lines of a trace, in order. *)
Definition texts (t : list event) : list pystr :=
  omap (fun ev => match ev with Render (Text x) => Some x | _ => None end) t.

(** The two text lines the task monitor shows for a task. *)
Definition task_lines `{PyRuntime} `{TaskStatusEnum} (task : Task)
  : list pystr :=
  [lit "股票: " ++ py_str (default NA (task_stock_code task));
   lit "创建时间: " ++ py_str (default NA (task_created_at task))].

(** A text made of white space only (the empty text included). *)
Definition blank (s : pystr) : bool := forallb isspace s.

(** A text that neither starts nor ends with white space. *)
Definition trimmed (s : pystr) : Prop :=
  match s with
  | [] => True
  | c :: _ => isspace c = false
  end
  /\ match rev s with
     | [] => True
     | c :: _ => isspace c = false
     end.

(** [s.upper()] for one ASCII code point. *)
Definition ascii_upper (c : N) : N :=
  if ((97 <=? c) && (c <=? 122))%N then (c - 32)%N else c.

(** ** Sample collaborators and inputs *)

(** A runtime for data without floats: the float operations are never reached
    on such data. *)
Definition sample_runtime : PyRuntime := {|
  float_str := fun _ => lit "nan";
  float_fmt2f := fun _ => lit "nan";
  bigint_fmt2f := fun _ => None;
  int_div100 := fun z => Some (z / 100);
  float_div100 := fun bits => bits;
  container_str := fun _ => lit "[...]";
  unicode_lower := fun s => s;
  error_text := fun e =>
    match e with
    | KeyError k =>
        match k with
        | VStr s => lit "'" ++ s ++ lit "'"
        | _ => lit "key"
        end
    | AttributeError _ a | SessionAttributeError a | ObjectAttributeError a =>
        lit "no attribute " ++ lit a
    | BadFormat _ => lit "unsupported format string"
    | _ => lit "TypeError"
    end;
  close_series := fun data => Val data
|}.

(** Status values that are plain strings. *)
Definition str_status : TaskStatusEnum := {|
  Status := pystr;
  RUNNING := lit "running";
  COMPLETED := lit "completed";
  FAILED := lit "failed";
  status_unknown := lit "unknown";
  status_str := fun s => s
|}.

(** A world in which every service answers with the given outcome. *)
Definition sample_world (analysis history quote config : outcome pyval)
    (tasks : outcome (option (list (@Task str_status)))) : @World str_status := {|
  w_get_config := Returned (ConfigObject []);
  w_new := fun _ => Returned tt;
  w_uuid4_hex := lit "3f2b8c1e9d4a4b6f8a7c5e2d1f0b9a8c";
  w_start_date := fun _ => lit "2024-05-01";
  w_analyze_stock := fun _ _ _ _ _ => analysis;
  w_get_history_list := fun _ _ _ _ => history;
  w_get_realtime_quote := fun _ => quote;
  w_get_history_data := fun _ _ _ => Returned VNone;
  w_get_task_queue := Returned tt;
  w_list_tasks := fun _ => tasks;
  w_system_get_config := fun _ => config
|}.

(** Every service returns nothing. *)
Definition silent_world : @World str_status :=
  sample_world (Returned VNone) (Returned VNone) (Returned VNone)
    (Returned VNone) (Returned None).

(** Every service raises. *)
Definition broken_world : @World str_status :=
  sample_world (Raised (lit "boom")) (Raised (lit "boom")) (Raised (lit "boom"))
    (Raised (lit "boom")) (Raised (lit "boom")).

(** The configuration service returns three keys, one of them not in the
    section table of the page. *)
Definition config_world : @World str_status :=
  sample_world (Returned VNone) (Returned VNone) (Returned VNone)
    (Returned
       (VDict [(lit "config",
                VDict [(lit "gemini_api_key", VStr (lit "sk-1234567890"));
                       (lit "openai_base_url", VStr (lit "https://api.example"));
                       (lit "log_level", VStr (lit "DEBUG"))])]))
    (Returned None).

(** The quote service returns the given quote. *)
Definition quote_world (quote : pyval) : @World str_status :=
  sample_world (Returned VNone) (Returned VNone) (Returned quote)
    (Returned VNone) (Returned None).

(** The history service returns one record, which has no "meta". *)
Definition history_world : @World str_status :=
  sample_world (Returned VNone)
    (Returned (VDict [(lit "total", VInt 1);
                      (lit "items", VList [VDict [(lit "report", VStr (lit "# 600519"))]])]))
    (Returned VNone) (Returned VNone) (Returned None).

(** The analysis service returns a structured report. *)
Definition analysis_world : @World str_status :=
  sample_world
    (Returned
       (VDict [(lit "stock_name", VStr (lit "贵州茅台"));
               (lit "stock_code", VStr (lit "600519"));
               (lit "report",
                VDict [(lit "summary", VStr (lit "趋势向上"));
                       (lit "operation_advice", VStr (lit "建议买入"))])]))
    (Returned VNone) (Returned VNone) (Returned VNone) (Returned None).

(** The session state after a first run in which every constructor returned. *)
Definition ready_session : session :=
  <["system_config_service" := SHandle SystemConfigService]>
    (<["stock_service" := SHandle StockService]>
       (<["history_service" := SHandle HistoryService]>
          (<["analysis_service" := SHandle AnalysisService]>
             (<["config" := SConfig (ConfigObject [])]>
                (<["initialized" := SBool true]> ∅))))).

Definition analysis_inputs (stock_code : pystr) : AnalysisInputs := {|
  a_stock_code := stock_code;
  a_report_type := detailed;
  a_force_refresh := false;
  a_send_notification := true;
  a_button := true
|}.

Definition history_inputs (stock_code_filter : pystr) : HistoryInputs := {|
  h_stock_code_filter := stock_code_filter;
  h_days_back := 30;
  h_page_size := 20;
  h_button := true;
  h_selected_idx := Some 0%nat
|}.

Definition quote_inputs (stock_code : pystr) : QuoteInputs := {|
  q_stock_code := stock_code;
  q_button := true;
  q_show_history := false
|}.

Definition sample_task (status : string) (code : string) : @Task str_status :=
  @Build_Task str_status (Some (lit status)) (Some (VStr (lit code))) None.

(** The world [w] with another outcome of [get_config()]. *)
Definition with_get_config (o : outcome Config) (w : @World str_status)
  : @World str_status := {|
  w_get_config := o;
  w_new := w_new w;
  w_uuid4_hex := w_uuid4_hex w;
  w_start_date := w_start_date w;
  w_analyze_stock := w_analyze_stock w;
  w_get_history_list := w_get_history_list w;
  w_get_realtime_quote := w_get_realtime_quote w;
  w_get_history_data := w_get_history_data w;
  w_get_task_queue := w_get_task_queue w;
  w_list_tasks := w_list_tasks w;
  w_system_get_config := w_system_get_config w
|}.

(** The world [w] with other constructors of the services. *)
Definition with_new (f : service -> outcome unit) (w : @World str_status)
  : @World str_status := {|
  w_get_config := w_get_config w;
  w_new := f;
  w_uuid4_hex := w_uuid4_hex w;
  w_start_date := w_start_date w;
  w_analyze_stock := w_analyze_stock w;
  w_get_history_list := w_get_history_list w;
  w_get_realtime_quote := w_get_realtime_quote w;
  w_get_history_data := w_get_history_data w;
  w_get_task_queue := w_get_task_queue w;
  w_list_tasks := w_list_tasks w;
  w_system_get_config := w_system_get_config w
|}.

(** The world [w] with another outcome of [get_history_data]. *)
Definition with_history_data (o : outcome pyval) (w : @World str_status)
  : @World str_status := {|
  w_get_config := w_get_config w;
  w_new := w_new w;
  w_uuid4_hex := w_uuid4_hex w;
  w_start_date := w_start_date w;
  w_analyze_stock := w_analyze_stock w;
  w_get_history_list := w_get_history_list w;
  w_get_realtime_quote := w_get_realtime_quote w;
  w_get_history_data := fun _ _ _ => o;
  w_get_task_queue := w_get_task_queue w;
  w_list_tasks := w_list_tasks w;
  w_system_get_config := w_system_get_config w
|}.

(** [get_config()] raises. *)
Definition no_config_world : @World str_status :=
  with_get_config (Raised (lit "missing .env")) silent_world.

(** The constructor of the analysis service raises. *)
Definition no_analysis_world : @World str_status :=
  with_new (fun k => if service_eqb k AnalysisService
                     then Raised (lit "no model")
                     else Returned tt)
    silent_world.

Definition sample_inputs : Inputs := {|
  nav := PageAnalysis;
  in_analysis := analysis_inputs (lit "600519");
  in_history := history_inputs [];
  in_quote := quote_inputs (lit "600519");
  in_tasks := {| t_refresh := false |}
|}.

(** A quote with its price only. *)
Definition sample_quote : list (pystr * pyval) :=
  [(lit "current_price", VInt 1680)].

(** The quote service answers; the K-line data cannot be fetched. *)
Definition kline_down_world : @World str_status :=
  with_history_data (Raised (lit "timeout")) (quote_world (VDict sample_quote)).

Definition kline_inputs : QuoteInputs := {|
  q_stock_code := lit "600519";
  q_button := true;
  q_show_history := true
|}.

(** An analysis result whose report is a text. *)
Definition raw_result : list (pystr * pyval) :=
  [(lit "report", VStr (lit "# 600519"))].

(** A structured report whose advice is null. *)
Definition null_advice_report : list (pystr * pyval) :=
  [(lit "summary", VStr (lit "趋势向上")); (lit "operation_advice", VNone)].

Definition null_advice_result : list (pystr * pyval) :=
  [(lit "stock_code", VStr (lit "600519"));
   (lit "report", VDict null_advice_report)].

Definition null_advice_world : @World str_status :=
  sample_world (Returned (VDict null_advice_result)) (Returned VNone)
    (Returned VNone) (Returned VNone) (Returned None).

(** One history record with its "meta" and its report. *)
Definition sample_records : list pyval :=
  [VDict [(lit "meta",
           VDict [(lit "stock_name", VStr (lit "贵州茅台"));
                  (lit "created_at", VStr (lit "2024-05-01"))]);
          (lit "report", VStr (lit "# 600519"))]].

Definition sample_history : list (pystr * pyval) :=
  [(lit "total", VInt 1); (lit "items", VList sample_records)].

(** One history record without "meta". *)
Definition bare_records : list pyval :=
  [VDict [(lit "report", VStr (lit "# 600519"))]].

Definition bare_history : list (pystr * pyval) :=
  [(lit "total", VInt 1); (lit "items", VList bare_records)].

(** A config mapping with a secret, a plain value and a key that is not in
    the section table. *)
Definition sample_config : list (pystr * pyval) :=
  [(lit "gemini_api_key", VStr (lit "sk-1234567890"));
   (lit "openai_base_url", VStr (lit "https://api.example"));
   (lit "log_level", VStr (lit "DEBUG"))].

(** A config mapping with a number under a masked key. *)
Definition numeric_config : list (pystr * pyval) :=
  [(lit "openai_base_url", VStr (lit "https://api.example"));
   (lit "tushare_token", VInt 123456);
   (lit "stock_list", VStr (lit "600519,00700"))].

Definition numeric_config_world : @World str_status :=
  sample_world (Returned VNone) (Returned VNone) (Returned VNone)
    (Returned (VDict [(lit "config", VDict numeric_config)]))
    (Returned None).

Definition sample_tasks : list (@Task str_status) :=
  [sample_task "running" "600519"; sample_task "completed" "00700";
   sample_task "running" "AAPL"].

Definition tasks_world : @World str_status :=
  sample_world (Returned VNone) (Returned VNone) (Returned VNone)
    (Returned VNone) (Returned (Some sample_tasks)).

(** * Properties *)

(** ** Strings *)

Lemma starts_with_spec (p s : pystr) :
  starts_with p s = true <-> exists b, s = p ++ b.
Proof.
  revert s. induction p as [|a p IH]; intros s; simpl.
  - split; [eauto | done].
  - destruct s as [|c s].
    + split; [done | intros [b Hb]; discriminate].
    + rewrite andb_true_iff, N.eqb_eq, IH. split.
      * intros [-> [b ->]]. eauto.
      * intros [b Hb]. injection Hb as -> ->. eauto.
Qed.

Lemma str_contains_spec (needle hay : pystr) :
  str_contains needle hay = true <-> occurs needle hay.
Proof.
  unfold occurs. induction hay as [|c hay IH]; simpl.
  - rewrite orb_false_r, starts_with_spec. split.
    + intros [b Hb]. exists [], b. done.
    + intros [a [b Hab]]. destruct a; [eauto|discriminate].
  - rewrite orb_true_iff, starts_with_spec, IH. split.
    + intros [[b Hb] | [a [b Hab]]].
      * exists [], b. done.
      * exists (c :: a), b. rewrite Hab. done.
    + intros [a [b Hab]]. destruct a as [|x a].
      * left. eauto.
      * right. injection Hab as -> ->. eauto.
Qed.

Lemma str_contains_false (needle hay : pystr) :
  str_contains needle hay = false <-> ~ occurs needle hay.
Proof.
  rewrite <- str_contains_spec. destruct (str_contains needle hay); naive_solver.
Qed.

Example lit_buy : lit "买入" = [20080; 20837]%N /\ lit "卖出" = [21334; 20986]%N.
Proof. split; reflexivity. Qed.

Example lit_emoji : lit "📊 a" = [128202; 32; 97]%N.
Proof. reflexivity. Qed.

Example dec_Z_ex : dec_Z (-1204) = lit "-1204" /\ dec_Z 0 = lit "0".
Proof. split; reflexivity. Qed.

Example strip_ex :
  strip ([32; 12288] ++ lit "6005 19" ++ [10; 9])%N = lit "6005 19".
Proof. reflexivity. Qed.

(** ** Running a computation step by step *)

Ltac unfold_run :=
  unfold invoke, session_service, session_attr, session_has, session_set,
    log_exception, render, emit, lift, raise, ret, try_except, bind,
    result_of, session_of, trace_of in *.

Ltac run := repeat (unfold_run; cbn -[lit strip dec_Z] in * ).

Arguments render_analysis_result : simpl never.
Arguments render_structured_report : simpl never.
Arguments render_operation_advice : simpl never.
Arguments render_history_result : simpl never.
Arguments render_quote_result : simpl never.
Arguments render_quote_fields : simpl never.
Arguments render_kline : simpl never.
Arguments render_tasks : simpl never.
Arguments render_task : simpl never.
Arguments render_config : simpl never.
Arguments render_config_key : simpl never.
Arguments history_stock_code : simpl never.
Arguments init_session : simpl never.
Arguments main : simpl never.
Arguments count_call : simpl never.

Section Claims.
Context {rt : PyRuntime} {ts : TaskStatusEnum}.

(** ** Advice classification (C4) *)

(** C4.  For every advice text the operation advice is framed as Buy (the
    success box) if the text contains "买入", otherwise as Sell (the error
    box) if it contains "卖出", otherwise as Neutral (the warning box); a
    text containing both tokens is framed as Buy. *)
Theorem C4_advice_classification (advice : pystr) (s : session) :
  exists c : advice_class,
    render_operation_advice (VStr advice) s
    = (Ok tt, s,
       [Render (Markdown (lit "### 💡 操作建议"));
        Render (Alert (advice_frame c) (lit "**" ++ advice ++ lit "**"))])
    /\ (c = Buy <-> occurs (lit "买入") advice)
    /\ (c = Sell <->
        ~ occurs (lit "买入") advice /\ occurs (lit "卖出") advice)
    /\ (c = Neutral <->
        ~ occurs (lit "买入") advice /\ ~ occurs (lit "卖出") advice)
    /\ (occurs (lit "买入") advice /\ occurs (lit "卖出") advice -> c = Buy).
Proof.
  unfold render_operation_advice. run.
  destruct (str_contains (lit "买入") advice) eqn:Hbuy.
  - exists Buy. apply str_contains_spec in Hbuy. run. intuition (try discriminate; try congruence).
  - apply str_contains_false in Hbuy.
    destruct (str_contains (lit "卖出") advice) eqn:Hsell.
    + exists Sell. apply str_contains_spec in Hsell. run. intuition (try discriminate; try congruence).
    + exists Neutral. apply str_contains_false in Hsell. run. intuition (try discriminate; try congruence).
Qed.

(** ** Secret masking (C5) *)

Lemma is_sensitive_spec (key : pystr) :
  is_sensitive key = true
  <-> occurs (lit "api_key") (py_lower key)
      \/ occurs (lit "token") (py_lower key)
      \/ occurs (lit "password") (py_lower key).
Proof.
  unfold is_sensitive.
  rewrite !orb_true_iff, !str_contains_spec. tauto.
Qed.

Lemma mask_value_str (s : pystr) :
  mask_value (VStr s)
  = Val (VStr (if (8 <? length s)%nat then firstn 8 s ++ lit "..."
              else lit "***")).
Proof.
  unfold mask_value. destruct s as [|c s]; [done|].
  cbn -[lit firstn Nat.ltb length].
  by destruct (8 <? length (c :: s))%nat.
Qed.

(** C5.  A key is sensitive when its lower-cased name contains "api_key",
    "token" or "password".  The value of a sensitive key is shown as its
    first 8 characters followed by "..." when it is a text longer than 8
    characters, and as "***" otherwise, also when it is empty or null; the
    value of any other key is shown as it is. *)
Theorem C5_masking (key : pystr) :
  (is_sensitive key = true
   <-> occurs (lit "api_key") (py_lower key)
       \/ occurs (lit "token") (py_lower key)
       \/ occurs (lit "password") (py_lower key))
  /\ (is_sensitive key = true ->
      (forall s : pystr, (8 < length s)%nat ->
         display_value key (VStr s) = Val (VStr (firstn 8 s ++ lit "...")))
      /\ (forall s : pystr, (length s <= 8)%nat ->
            display_value key (VStr s) = Val (VStr (lit "***")))
      /\ display_value key VNone = Val (VStr (lit "***")))
  /\ (is_sensitive key = false ->
      forall value : pyval, display_value key value = Val value).
Proof.
  split; [apply is_sensitive_spec|].
  unfold display_value. split; intros ->.
  - split; [|split]; [intros s Hlen ..|done]; rewrite mask_value_str.
    + by rewrite (proj2 (Nat.ltb_lt _ _)).
    + by rewrite (proj2 (Nat.ltb_ge _ _)).
  - done.
Qed.

(** Values that are not text: a list is cut to its first 8 items, and the
    length of a number raises (the page catches it). *)
Remark mask_value_other_types (l : list pyval) (z : Z) :
  z <> 0 ->
  mask_value (VList l)
  = Val (VStr (if (8 <? length l)%nat
              then container_str (VList (firstn 8 l)) ++ lit "..."
              else lit "***"))
  /\ mask_value (VInt z) = raise_builtin (NoLen (VInt z)).
Proof.
  intros Hz. unfold mask_value. split.
  - destruct l as [|x l]; [done|].
    cbn -[lit firstn Nat.ltb length].
    by destruct (8 <? length (x :: l))%nat.
  - simpl. by rewrite (proj2 (Z.eqb_neq z 0) Hz).
Qed.

(** ** Grouping of tasks by status (C6) *)

Lemma first_seen_snoc {K : Type} `{EqDecision K} (l : list K) (x : K) :
  first_seen (l ++ [x])
  = first_seen l ++ (if decide (x ∈ l) then [] else [x]).
Proof.
  induction l as [|y l IH]; simpl.
  - done.
  - rewrite IH, filter_app. f_equal. f_equal.
    destruct (decide (x = y)) as [->|Hne].
    + rewrite (decide_True (P := y ∈ y :: l)) by (apply elem_of_cons; auto).
      destruct (decide (y ∈ l)); [done|].
      rewrite filter_cons_False by (intros Hn; by apply Hn). done.
    + destruct (decide (x ∈ l)) as [Hin|Hnin].
      * rewrite decide_True by (apply elem_of_cons; auto). done.
      * rewrite decide_False by (rewrite elem_of_cons; tauto).
        rewrite filter_cons_True by done. done.
Qed.

Lemma elem_of_first_seen {K : Type} `{EqDecision K} (l : list K) (x : K) :
  x ∈ first_seen l <-> x ∈ l.
Proof.
  induction l as [|y l IH]; simpl; [done|].
  rewrite !elem_of_cons, list_elem_of_filter, IH.
  destruct (decide (x = y)); tauto.
Qed.

Lemma NoDup_first_seen {K : Type} `{EqDecision K} (l : list K) :
  NoDup (first_seen l).
Proof.
  induction l as [|y l IH]; simpl; [constructor|].
  constructor.
  - rewrite list_elem_of_filter. tauto.
  - by apply NoDup_filter.
Qed.

Lemma groups_has_map (f : Status -> list Task) (ks : list Status) (k : Status) :
  groups_has k (map (fun k' => (k', f k')) ks) = bool_decide (k ∈ ks).
Proof.
  induction ks as [|k' ks IH]; simpl; [done|].
  destruct (decide (k' = k)) as [->|Hne].
  - symmetry. apply bool_decide_eq_true. apply elem_of_cons. auto.
  - rewrite IH. apply bool_decide_ext. rewrite elem_of_cons. 
    split; [auto|]. intros [->|]; done.
Qed.

Lemma groups_append_map (f : Status -> list Task) (ks : list Status)
    (k : Status) (t : Task) :
  NoDup ks ->
  groups_append k t (map (fun k' => (k', f k')) ks)
  = map (fun k' => (k', if decide (k' = k) then f k' ++ [t] else f k')) ks.
Proof.
  induction 1 as [|k' ks Hnin Hnd IH]; simpl; [done|].
  destruct (decide (k' = k)) as [->|Hne].
  - f_equal. apply map_ext_in. intros k' Hin.
    rewrite decide_False; [done|]. intros ->.
    apply Hnin. by apply list_elem_of_In.
  - by rewrite IH.
Qed.

Lemma filter_status_absent (tasks : list Task) (k : Status) :
  k ∉ map status_of tasks ->
  filter (fun t => status_of t = k) tasks = [].
Proof.
  induction tasks as [|t tasks IH]; simpl; intros Hnin; [done|].
  apply not_elem_of_cons in Hnin as [Hne Hnin].
  rewrite filter_cons_False by congruence. auto.
Qed.

Lemma group_by_status_snoc (tasks : list Task) (t : Task) :
  group_by_status (tasks ++ [t]) = group_step (group_by_status tasks) t.
Proof. unfold group_by_status. by rewrite fold_left_app. Qed.

(** The grouping loop computes one group per distinct status, in first-seen
    order, each holding the tasks of that status in input order. *)
Lemma group_by_status_spec (tasks : list Task) :
  group_by_status tasks
  = map (fun k => (k, filter (fun t => status_of t = k) tasks))
      (first_seen (map status_of tasks)).
Proof.
  induction tasks as [|t tasks IH] using rev_ind; [done|].
  rewrite group_by_status_snoc, IH. unfold group_step.
  rewrite groups_has_map, map_app. simpl (map status_of [t]).
  rewrite first_seen_snoc.
  set (k := status_of t).
  assert (Hfilter : forall k',
    filter (fun t0 => status_of t0 = k') (tasks ++ [t])
    = if decide (k' = k)
      then filter (fun t0 => status_of t0 = k') tasks ++ [t]
      else filter (fun t0 => status_of t0 = k') tasks).
  { intros k'. rewrite filter_app. destruct (decide (k' = k)) as [->|Hne].
    - by rewrite filter_cons_True.
    - rewrite filter_cons_False by (fold k; congruence).
      by rewrite app_nil_r. }
  destruct (decide (k ∈ map status_of tasks)) as [Hin|Hnin].
  - rewrite bool_decide_eq_true_2 by (by apply elem_of_first_seen).
    rewrite groups_append_map by apply NoDup_first_seen.
    rewrite app_nil_r. apply map_ext. intros k'. by rewrite Hfilter.
  - rewrite bool_decide_eq_false_2 by (by rewrite elem_of_first_seen).
    pose proof (filter_status_absent tasks k Hnin) as Hempty.
    replace [(k, [])]
      with (map (fun k0 => (k0, filter (fun t0 => status_of t0 = k0) tasks)) [k])
      by (simpl; by rewrite Hempty).
    rewrite <- map_app, groups_append_map.
    + apply map_ext. intros k'. by rewrite Hfilter.
    + apply NoDup_app. split; [apply NoDup_first_seen|].
      split; [|apply NoDup_singleton].
      intros x Hx Hk. apply list_elem_of_singleton in Hk. subst x.
      apply Hnin. by apply elem_of_first_seen.
Qed.

(** C6.  Grouping by status yields the distinct status values in first-seen
    order of the input, and each group holds the tasks of its status in
    the same relative order as in the input. *)
Theorem C6_group_by_status (tasks : list Task) :
  map fst (group_by_status tasks) = first_seen (map status_of tasks)
  /\ NoDup (map fst (group_by_status tasks))
  /\ (forall k : Status,
        k ∈ map fst (group_by_status tasks) <-> k ∈ map status_of tasks)
  /\ (forall (k : Status) (l : list Task),
        (k, l) ∈ group_by_status tasks ->
        l = filter (fun t => status_of t = k) tasks).
Proof.
  assert (Hkeys : map fst (group_by_status tasks)
                  = first_seen (map status_of tasks)).
  { rewrite group_by_status_spec, map_map. simpl. apply map_id. }
  rewrite Hkeys. split; [done|]. split; [apply NoDup_first_seen|].
  split; [intros k; apply elem_of_first_seen|].
  intros k l. rewrite group_by_status_spec.
  intros Hin. apply list_elem_of_In, in_map_iff in Hin as [k' [Heq _]].
  by injection Heq as <- <-.
Qed.
End Claims.


(** ** Computations that keep the session state *)

Section Quiet.
Context {A B : Type} (P : event -> Prop).

Lemma quiet_ret (a : A) : quiet P (ret a).
Proof. intros s. by split. Qed.

Lemma quiet_lift (r : res A) : quiet P (lift r).
Proof. intros s. unfold lift. by destruct r. Qed.

Lemma quiet_raise (e : exn) : quiet P (@raise A e).
Proof. intros s. by split. Qed.

Lemma quiet_bind (m : M A) (k : A -> M B) :
  quiet P m -> (forall a, quiet P (k a)) -> quiet P (bind m k).
Proof.
  intros Hm Hk s. specialize (Hm s). unfold bind.
  destruct (m s) as [[[a|e] s1] t1]; cbn in *.
  - destruct Hm as [-> Ht1]. specialize (Hk a s).
    destruct (k a s) as [[r s2] t2]; cbn in *.
    destruct Hk as [-> Ht2]. split; [done|]. by apply Forall_app.
  - done.
Qed.
End Quiet.

Section QuietUnit.
Context (P : event -> Prop).

Lemma quiet_emit (ev : event) : P ev -> quiet P (emit ev).
Proof. intros Hev s. split; [done|]. by constructor. Qed.

Lemma quiet_render (e : element) : P (Render e) -> quiet P (render e).
Proof. apply quiet_emit. Qed.

Lemma quiet_log_exception (msg : pystr) :
  P (LogException msg) -> quiet P (log_exception msg).
Proof. apply quiet_emit. Qed.

Lemma quiet_invoke {A : Type} (c : call) (o : outcome A) :
  P (Call c) -> quiet P (invoke c o).
Proof.
  intros Hc. unfold invoke. apply quiet_bind; [by apply quiet_emit|].
  intros _. destruct o; [apply quiet_ret | apply quiet_raise].
Qed.

Lemma quiet_try_except (body : M unit) (handler : pystr -> M unit) :
  quiet P body -> (forall msg, quiet P (handler msg)) ->
  quiet P (try_except body handler).
Proof.
  intros Hb Hh s. specialize (Hb s). unfold try_except.
  destruct (body s) as [[[a|[msg|]] s1] t1]; cbn in *; try done.
  destruct Hb as [-> Ht1]. specialize (Hh msg s).
  destruct (handler msg s) as [[r s2] t2]; cbn in *.
  destruct Hh as [-> Ht2]. split; [done|]. by apply Forall_app.
Qed.

Lemma quiet_for_each {A : Type} (l : list A) (body : A -> M unit) :
  (forall x, x ∈ l -> quiet P (body x)) -> quiet P (for_each l body).
Proof.
  induction l as [|x l IH]; intros Hbody; simpl.
  - apply quiet_ret.
  - apply quiet_bind.
    + apply Hbody. by left.
    + intros _. apply IH. intros y Hy. apply Hbody. by right.
Qed.

Lemma quiet_session_attr `{PyRuntime} (name : string) :
  quiet P (session_attr name).
Proof. intros s. unfold session_attr. by destruct (s !! name). Qed.

Lemma quiet_session_service `{PyRuntime} (name : string) (k : service)
    (method : string) :
  quiet P (session_service name k method).
Proof.
  unfold session_service. apply quiet_bind; [apply quiet_session_attr|].
  intros [b|c|k']; try apply quiet_lift.
  destruct (service_eqb k' k); [apply quiet_ret | apply quiet_lift].
Qed.
End QuietUnit.

Ltac quiet_step :=
  lazymatch goal with
  | |- quiet _ (bind _ _) => apply quiet_bind; [|intros ?]
  | |- quiet _ (ret _) => apply quiet_ret
  | |- quiet _ (lift _) => apply quiet_lift
  | |- quiet _ (raise _) => apply quiet_raise
  | |- quiet _ (render _) => apply quiet_render; exact I
  | |- quiet _ (log_exception _) => apply quiet_log_exception; exact I
  | |- quiet _ (invoke _ _) => apply quiet_invoke; exact I
  | |- quiet _ (try_except _ _) => apply quiet_try_except; [|intros ?]
  | |- quiet _ (for_each _ _) => apply quiet_for_each; intros ? _
  | |- quiet _ (session_attr _) => apply quiet_session_attr
  | |- quiet _ (session_service _ _ _) => apply quiet_session_service
  | |- quiet _ (if ?b then _ else _) => destruct b
  | |- quiet _ (match ?x with _ => _ end) => destruct x
  end.

Ltac quiet_auto := repeat quiet_step.

Section Pages.
Context {rt : PyRuntime} {ts : TaskStatusEnum}.
Variable w : World.

Lemma quiet_show_analysis_page inp :
  quiet page_event (show_analysis_page w inp).
Proof.
  unfold show_analysis_page, render_analysis_result, render_structured_report,
    when_key, render_operation_advice. quiet_auto.
Qed.

Lemma quiet_show_history_page inp :
  quiet page_event (show_history_page w inp).
Proof. unfold show_history_page, render_history_result. quiet_auto. Qed.

Lemma quiet_show_stock_quote_page inp :
  quiet page_event (show_stock_quote_page w inp).
Proof.
  unfold show_stock_quote_page, render_quote_result, render_quote_fields,
    render_kline. quiet_auto.
Qed.

Lemma quiet_show_task_monitor_page inp :
  quiet page_event (show_task_monitor_page w inp).
Proof.
  unfold show_task_monitor_page, render_tasks, render_task. quiet_auto.
Qed.

Lemma quiet_show_config_page : quiet page_event (show_config_page w).
Proof.
  unfold show_config_page, render_config, render_config_key. quiet_auto.
Qed.

(** No page, and not [main], writes to the session state or constructs a
    service. *)
Lemma quiet_main inp : quiet page_event (main w inp).
Proof.
  unfold main, show_page. quiet_auto;
    auto using quiet_show_analysis_page, quiet_show_history_page,
      quiet_show_stock_quote_page, quiet_show_task_monitor_page,
      quiet_show_config_page.
Qed.

End Pages.

(** ** Computations that return *)

Section NoRerun.
Context {A B : Type}.

Lemma no_rerun_ret (a : A) : no_rerun (ret a).
Proof. by intros s. Qed.

Lemma no_rerun_lift (r : res A) : no_rerun (lift r).
Proof. intros s. unfold lift. by destruct r. Qed.

Lemma no_rerun_raise (msg : pystr) : no_rerun (@raise A (Exception msg)).
Proof. by intros s. Qed.

Lemma no_rerun_bind (m : M A) (k : A -> M B) :
  no_rerun m -> (forall a, no_rerun (k a)) -> no_rerun (bind m k).
Proof.
  intros Hm Hk s. specialize (Hm s). unfold bind, result_of in *.
  destruct (m s) as [[[a|e] s1] t1]; simpl in *;
    [|intros H; apply Hm; congruence].
  specialize (Hk a s1). unfold result_of in Hk.
  by destruct (k a s1) as [[r s2] t2].
Qed.

Lemma no_rerun_invoke (c : call) (o : outcome A) : no_rerun (invoke c o).
Proof. intros s. by destruct o. Qed.

Lemma returns_ret (a : A) : returns (ret a).
Proof. intros s. by exists a. Qed.

Lemma returns_bind (m : M A) (k : A -> M B) :
  returns m -> (forall a, returns (k a)) -> returns (bind m k).
Proof.
  intros Hm Hk s. destruct (Hm s) as [a Ha]. unfold bind.
  destruct (m s) as [[r s1] t1]; cbn in *. subst r.
  destruct (Hk a s1) as [b Hb]. destruct (k a s1) as [[r s2] t2]; cbn in *.
  eauto.
Qed.
End NoRerun.

Lemma no_rerun_emit (ev : event) : no_rerun (emit ev).
Proof. by intros s. Qed.

Lemma no_rerun_try_except (body : M unit) (handler : pystr -> M unit) :
  no_rerun body -> (forall msg, no_rerun (handler msg)) ->
  no_rerun (try_except body handler).
Proof.
  intros Hb Hh s. specialize (Hb s). unfold try_except.
  destruct (body s) as [[[a|[msg|]] s1] t1]; cbn in *; try done.
  specialize (Hh msg s1). by destruct (handler msg s1) as [[r s2] t2].
Qed.

Lemma no_rerun_for_each {A : Type} (l : list A) (body : A -> M unit) :
  (forall x, no_rerun (body x)) -> no_rerun (for_each l body).
Proof.
  intros Hbody. induction l as [|x l IH]; simpl.
  - apply no_rerun_ret.
  - apply no_rerun_bind; [apply Hbody | intros _; apply IH].
Qed.

Lemma no_rerun_session_attr `{PyRuntime} (name : string) :
  no_rerun (session_attr name).
Proof. intros s. unfold session_attr. by destruct (s !! name). Qed.

Lemma no_rerun_session_service `{PyRuntime} (name : string) (k : service)
    (method : string) :
  no_rerun (session_service name k method).
Proof.
  unfold session_service. apply no_rerun_bind; [apply no_rerun_session_attr|].
  intros [b|c|k']; try apply no_rerun_lift.
  destruct (service_eqb k' k); [apply no_rerun_ret | apply no_rerun_lift].
Qed.

Lemma returns_emit (ev : event) : returns (emit ev).
Proof. intros s. by exists tt. Qed.

(** A handler that returns makes the whole [try] return, unless the body
    asks for a rerun. *)
Lemma returns_try_except (body : M unit) (handler : pystr -> M unit) :
  no_rerun body -> (forall msg, returns (handler msg)) ->
  returns (try_except body handler).
Proof.
  intros Hb Hh s. specialize (Hb s). unfold try_except.
  destruct (body s) as [[[a|[msg|]] s1] t1]; cbn in *; try done.
  - by exists a.
  - destruct (Hh msg s1) as [a Ha].
    destruct (handler msg s1) as [[r s2] t2]; cbn in *. eauto.
Qed.

Ltac no_rerun_step :=
  lazymatch goal with
  | |- no_rerun (bind _ _) => apply no_rerun_bind; [|intros ?]
  | |- no_rerun (ret _) => apply no_rerun_ret
  | |- no_rerun (lift _) => apply no_rerun_lift
  | |- no_rerun (raise (Exception _)) => apply no_rerun_raise
  | |- no_rerun (render _) => apply no_rerun_emit
  | |- no_rerun (log_exception _) => apply no_rerun_emit
  | |- no_rerun (invoke _ _) => apply no_rerun_invoke
  | |- no_rerun (try_except _ _) => apply no_rerun_try_except; [|intros ?]
  | |- no_rerun (for_each _ _) => apply no_rerun_for_each; intros ?
  | |- no_rerun (session_attr _) => apply no_rerun_session_attr
  | |- no_rerun (session_service _ _ _) => apply no_rerun_session_service
  | |- no_rerun (if ?b then _ else _) => destruct b
  | |- no_rerun (match ?x with _ => _ end) => destruct x
  end.

Ltac returns_step :=
  lazymatch goal with
  | |- returns (bind _ _) => apply returns_bind; [|intros ?]
  | |- returns (ret _) => apply returns_ret
  | |- returns (render _) => apply returns_emit
  | |- returns (log_exception _) => apply returns_emit
  | |- returns (try_except _ _) =>
      apply returns_try_except; [repeat no_rerun_step|intros ?]
  | |- returns (if ?b then _ else _) => destruct b
  end.

Section Boundary.
Context {rt : PyRuntime} {ts : TaskStatusEnum}.
Variable w : World.

(** Whatever happens inside its [try], a view returns: no failure of a
    collaborator, and no failure of the rendering of what it returned, leaves
    the view.  The one way out of a view is the rerun the refresh button of
    the task monitor asks for. *)
Lemma view_boundary :
  (forall inp, returns (show_analysis_page w inp))
  /\ (forall inp, returns (show_history_page w inp))
  /\ (forall inp, returns (show_stock_quote_page w inp))
  /\ (forall inp, t_refresh inp = false -> returns (show_task_monitor_page w inp))
  /\ returns (show_config_page w).
Proof.
  split; [|split; [|split; [|split]]].
  - intros inp.
    unfold show_analysis_page, render_analysis_result,
      render_structured_report, when_key, render_operation_advice.
    repeat returns_step.
  - intros inp. unfold show_history_page, render_history_result.
    repeat returns_step.
  - intros inp.
    unfold show_stock_quote_page, render_quote_result, render_quote_fields,
      render_kline.
    repeat returns_step.
  - intros inp Hb.
    unfold show_task_monitor_page, render_tasks, render_task. rewrite Hb.
    repeat returns_step.
  - unfold show_config_page, render_config, render_config_key.
    repeat returns_step.
Qed.

Lemma show_page_returns (inp : Inputs) :
  nav inp <> PageTasks \/ t_refresh (in_tasks inp) = false ->
  returns (show_page w inp).
Proof.
  destruct view_boundary as [Ha [Hh [Hq [Ht Hc]]]].
  intros Hpage. unfold show_page.
  destruct (nav inp); auto. destruct Hpage; [done | auto].
Qed.

Lemma quiet_show_page (inp : Inputs) : quiet page_event (show_page w inp).
Proof.
  unfold show_page.
  destruct (nav inp);
    auto using quiet_show_analysis_page, quiet_show_history_page,
      quiet_show_stock_quote_page, quiet_show_task_monitor_page,
      quiet_show_config_page.
Qed.

(** ** Failures of the collaborators (C3) *)

(** C3.  In every view, when the collaborator call of the view raises an
    exception, the view returns normally, the session state (the
    initialization flag and the service handles) is unchanged, and the view
    shows an error box whose text ends with the message of the failure.
    More generally no view ever lets an exception out or writes to the
    session state, whatever the collaborators do: a page returns, unless the
    refresh button of the task monitor asks for a rerun. *)
Theorem C3_collaborator_failure_is_caught (s : session) (msg : pystr) :
  (forall inp : AnalysisInputs,
      a_button inp = true -> a_stock_code inp <> [] ->
      s !! "analysis_service" = Some (SHandle AnalysisService) ->
      w_analyze_stock w (strip (a_stock_code inp)) (a_report_type inp)
        (a_force_refresh inp) (w_uuid4_hex w) (a_send_notification inp)
      = Raised msg ->
      error_state (show_analysis_page w inp s) s
        (lit "分析过程中发生错误: " ++ msg))
  /\ (forall inp : HistoryInputs,
        h_button inp = true ->
        s !! "history_service" = Some (SHandle HistoryService) ->
        w_get_history_list w (history_stock_code (h_stock_code_filter inp))
          (w_start_date w (h_days_back inp)) 1 (h_page_size inp)
        = Raised msg ->
        error_state (show_history_page w inp s) s (lit "查询失败: " ++ msg))
  /\ (forall inp : QuoteInputs,
        q_button inp = true -> q_stock_code inp <> [] ->
        s !! "stock_service" = Some (SHandle StockService) ->
        w_get_realtime_quote w (strip (q_stock_code inp)) = Raised msg ->
        error_state (show_stock_quote_page w inp s) s
          (lit "查询失败: " ++ msg))
  /\ (forall inp : TaskInputs,
        t_refresh inp = false ->
        w_get_task_queue w = Raised msg
        \/ (w_get_task_queue w = Returned tt
            /\ w_list_tasks w 50 = Raised msg) ->
        error_state (show_task_monitor_page w inp s) s
          (lit "获取任务列表失败: " ++ msg))
  /\ (s !! "system_config_service" = Some (SHandle SystemConfigService) ->
      w_system_get_config w true = Raised msg ->
      error_state (show_config_page w s) s (lit "加载配置失败: " ++ msg))
  /\ (forall inp : Inputs,
        nav inp <> PageTasks \/ t_refresh (in_tasks inp) = false ->
        result_of (show_page w inp s) = Ok tt
        /\ session_of (show_page w inp s) = s).
Proof.
  unfold error_state, view_state. split; [|split; [|split; [|split; [|split]]]].
  - intros inp Hb Hc Hs Hr. unfold show_analysis_page. rewrite Hb.
    destruct (a_stock_code inp) as [|c code]; [done|].
    run. rewrite Hs. run. rewrite Hr. done.
  - intros inp Hb Hs Hr. unfold show_history_page. rewrite Hb.
    run. rewrite Hs. run. rewrite Hr. done.
  - intros inp Hb Hc Hs Hr. unfold show_stock_quote_page. rewrite Hb.
    destruct (q_stock_code inp) as [|c code]; [done|].
    run. rewrite Hs. run. rewrite Hr. done.
  - intros inp Hb Hr. unfold show_task_monitor_page. rewrite Hb.
    run. destruct Hr as [Hr | [Hq Hr]].
    + rewrite Hr. done.
    + rewrite Hq. run. rewrite Hr. done.
  - intros Hs Hr. unfold show_config_page.
    run. rewrite Hs. run. rewrite Hr. done.
  - intros inp Hpage. split; [|apply quiet_show_page].
    destruct (show_page_returns inp Hpage s) as [[] Hr]. exact Hr.
Qed.
End Boundary.

Section Requests.
Context {rt : PyRuntime} {ts : TaskStatusEnum}.
Variable w : World.

Lemma no_call_calls_of (t : list event) : Forall no_call t -> calls_of t = [].
Proof.
  induction 1 as [|ev t Hev _ IH]; [done|].
  destruct ev; try done; apply IH.
Qed.

Lemma calls_of_app (t1 t2 : list event) :
  calls_of (t1 ++ t2) = calls_of t1 ++ calls_of t2.
Proof. apply omap_app. Qed.

Lemma render_analysis_result_no_call result query_id :
  quiet no_call (render_analysis_result result query_id).
Proof.
  unfold render_analysis_result, render_structured_report, when_key,
    render_operation_advice. quiet_auto.
Qed.

Lemma render_history_result_no_call result idx :
  quiet no_call (render_history_result result idx).
Proof. unfold render_history_result. quiet_auto. Qed.

Lemma render_tasks_no_call tasks : quiet no_call (render_tasks tasks).
Proof. unfold render_tasks, render_task. quiet_auto. Qed.

Lemma render_config_no_call config_data :
  quiet no_call (render_config config_data).
Proof. unfold render_config, render_config_key. quiet_auto. Qed.

(** The analysis view calls [analyze_stock] once, with the trimmed code,
    whenever the code entered is not empty. *)
Lemma analysis_call (s : session) (inp : AnalysisInputs) :
  a_button inp = true -> a_stock_code inp <> [] ->
  s !! "analysis_service" = Some (SHandle AnalysisService) ->
  calls_of (trace_of (show_analysis_page w inp s))
  = [Call_analyze_stock (strip (a_stock_code inp)) (a_report_type inp)
       (a_force_refresh inp) (w_uuid4_hex w) (a_send_notification inp)].
Proof.
  intros Hb Hc Hs. unfold show_analysis_page. rewrite Hb.
  destruct (a_stock_code inp) as [|c code]; [done|].
  run. rewrite Hs. run.
  destruct (w_analyze_stock _ _ _ _ _ _) as [result|msg]; [|done].
  run.
  pose proof (render_analysis_result_no_call result (w_uuid4_hex w) s)
    as [_ Ht].
  destruct (render_analysis_result result (w_uuid4_hex w) s) as [[r s'] t].
  apply no_call_calls_of in Ht. unfold calls_of in *.
  destruct r as [|[|]]; run; rewrite ?omap_app, ?Ht; done.
Qed.

(** The quote view calls [get_realtime_quote] first, with the trimmed code,
    whenever the code entered is not empty. *)
Lemma quote_call (s : session) (inp : QuoteInputs) :
  q_button inp = true -> q_stock_code inp <> [] ->
  s !! "stock_service" = Some (SHandle StockService) ->
  exists rest,
    calls_of (trace_of (show_stock_quote_page w inp s))
    = Call_get_realtime_quote (strip (q_stock_code inp)) :: rest.
Proof.
  intros Hb Hc Hs. unfold show_stock_quote_page. rewrite Hb.
  destruct (q_stock_code inp) as [|c code]; [done|].
  run. rewrite Hs. run.
  destruct (w_get_realtime_quote _ _) as [quote|msg]; [|by eexists].
  run.
  destruct (render_quote_result _ _ _ _ s) as [[r s'] t].
  unfold calls_of.
  destruct r as [|[|]]; run; rewrite ?omap_app; by eexists.
Qed.

(** ** Validation of the stock code (C1) *)

(** C1, as the code has it.  With an empty stock code the analysis view and
    the quote view show the error "请输入股票代码" and call no collaborator.
    The test is made on the text as entered: any other text, also one of
    white space only, passes it, and the collaborator is called with the
    trimmed text. *)
Theorem C1_empty_stock_code_is_rejected (s : session) :
  (forall inp : AnalysisInputs,
      a_button inp = true -> a_stock_code inp = [] ->
      error_state (show_analysis_page w inp s) s (lit "请输入股票代码")
      /\ calls_of (trace_of (show_analysis_page w inp s)) = [])
  /\ (forall inp : QuoteInputs,
        q_button inp = true -> q_stock_code inp = [] ->
        error_state (show_stock_quote_page w inp s) s (lit "请输入股票代码")
        /\ calls_of (trace_of (show_stock_quote_page w inp s)) = [])
  /\ (forall inp : AnalysisInputs,
        a_button inp = true -> a_stock_code inp <> [] ->
        s !! "analysis_service" = Some (SHandle AnalysisService) ->
        calls_of (trace_of (show_analysis_page w inp s))
        = [Call_analyze_stock (strip (a_stock_code inp)) (a_report_type inp)
             (a_force_refresh inp) (w_uuid4_hex w)
             (a_send_notification inp)])
  /\ (forall inp : QuoteInputs,
        q_button inp = true -> q_stock_code inp <> [] ->
        s !! "stock_service" = Some (SHandle StockService) ->
        exists rest,
          calls_of (trace_of (show_stock_quote_page w inp s))
          = Call_get_realtime_quote (strip (q_stock_code inp)) :: rest).
Proof.
  unfold error_state, view_state. split; [|split; [|split]].
  - intros inp Hb Hc. unfold show_analysis_page. by rewrite Hb, Hc.
  - intros inp Hb Hc. unfold show_stock_quote_page. by rewrite Hb, Hc.
  - apply analysis_call.
  - apply quote_call.
Qed.

(** ** The history query (C8) *)

(** C8, as the code has it.  The history view calls [get_history_list] once;
    its stock-code filter is null exactly when the text entered is empty,
    and otherwise it is the trimmed text (the empty string when the text is
    white space only); the page is 1. *)
Theorem C8_history_query (s : session) (inp : HistoryInputs) :
  h_button inp = true ->
  s !! "history_service" = Some (SHandle HistoryService) ->
  exists stock_code : option pystr,
    calls_of (trace_of (show_history_page w inp s))
    = [Call_get_history_list stock_code (w_start_date w (h_days_back inp)) 1
         (h_page_size inp)]
    /\ (stock_code = None <-> h_stock_code_filter inp = [])
    /\ (h_stock_code_filter inp <> [] ->
        stock_code = Some (strip (h_stock_code_filter inp))).
Proof.
  intros Hb Hs. exists (history_stock_code (h_stock_code_filter inp)).
  split.
  - unfold show_history_page. rewrite Hb. run. rewrite Hs. run.
    destruct (w_get_history_list _ _ _ _ _) as [result|msg]; [|done].
    run.
    pose proof (render_history_result_no_call result (h_selected_idx inp) s)
      as [_ Ht].
    destruct (render_history_result result (h_selected_idx inp) s)
      as [[r s'] t].
    apply no_call_calls_of in Ht. unfold calls_of in *.
    destruct r as [|[|]]; run; rewrite ?omap_app, ?Ht; done.
  - unfold history_stock_code.
    destruct (h_stock_code_filter inp); simpl; by split.
Qed.
End Requests.

Section Results.
Context {rt : PyRuntime} {ts : TaskStatusEnum}.
Variable w : World.

Lemma has_nonempty_falsy (result : pyval) (key : pystr) :
  truthy result = false -> has_nonempty result key = Val false.
Proof. unfold has_nonempty. by intros ->. Qed.

(** ** Empty results (C2) *)

(** C2, as the code has it.  When the collaborator call of a view returns an
    empty or null result, the history view and the task monitor show an
    info box and the configuration view a warning box, each a marker other
    than the error marker; the analysis view and the quote view show an
    error box, the marker they also use for failures, with a text of its
    own. *)
Theorem C2_empty_result (s : session) :
  (forall (inp : AnalysisInputs) (result : pyval),
      a_button inp = true -> a_stock_code inp <> [] ->
      s !! "analysis_service" = Some (SHandle AnalysisService) ->
      w_analyze_stock w (strip (a_stock_code inp)) (a_report_type inp)
        (a_force_refresh inp) (w_uuid4_hex w) (a_send_notification inp)
      = Returned result ->
      truthy result = false ->
      view_state (show_analysis_page w inp s) s MError
        (lit "分析失败，请检查股票代码是否正确或查看日志"))
  /\ (forall (inp : HistoryInputs) (result : pyval),
        h_button inp = true ->
        s !! "history_service" = Some (SHandle HistoryService) ->
        w_get_history_list w (history_stock_code (h_stock_code_filter inp))
          (w_start_date w (h_days_back inp)) 1 (h_page_size inp)
        = Returned result ->
        truthy result = false
        \/ has_nonempty result (lit "items") = Val false ->
        view_state (show_history_page w inp s) s MInfo (lit "暂无历史记录"))
  /\ (forall (inp : QuoteInputs) (quote : pyval),
        q_button inp = true -> q_stock_code inp <> [] ->
        s !! "stock_service" = Some (SHandle StockService) ->
        w_get_realtime_quote w (strip (q_stock_code inp)) = Returned quote ->
        truthy quote = false ->
        view_state (show_stock_quote_page w inp s) s MError
          (lit "获取行情数据失败"))
  /\ (forall (inp : TaskInputs) (tasks : option (list Task)),
        t_refresh inp = false ->
        w_get_task_queue w = Returned tt ->
        w_list_tasks w 50 = Returned tasks ->
        tasks = None \/ tasks = Some [] ->
        view_state (show_task_monitor_page w inp s) s MInfo
          (lit "当前没有任务"))
  /\ (forall config_data : pyval,
        s !! "system_config_service" = Some (SHandle SystemConfigService) ->
        w_system_get_config w true = Returned config_data ->
        truthy config_data = false
        \/ py_contains (lit "config") config_data = Val false ->
        view_state (show_config_page w s) s MWarning (lit "无法加载配置信息")).
Proof.
  unfold view_state. split; [|split; [|split; [|split]]].
  - intros inp result Hb Hc Hs Hr Hempty. unfold show_analysis_page.
    rewrite Hb. destruct (a_stock_code inp) as [|c code]; [done|].
    run. rewrite Hs. run. rewrite Hr. run.
    unfold render_analysis_result. rewrite Hempty. done.
  - intros inp result Hb Hs Hr Hempty. unfold show_history_page.
    rewrite Hb. run. rewrite Hs. run. rewrite Hr. run.
    unfold render_history_result.
    assert (Hn : has_nonempty result (lit "items") = Val false)
      by (destruct Hempty; [by apply has_nonempty_falsy | done]).
    run. rewrite Hn. done.
  - intros inp quote Hb Hc Hs Hr Hempty. unfold show_stock_quote_page.
    rewrite Hb. destruct (q_stock_code inp) as [|c code]; [done|].
    run. rewrite Hs. run. rewrite Hr. run.
    unfold render_quote_result. rewrite Hempty. done.
  - intros inp tasks Hb Hq Hr Hempty. unfold show_task_monitor_page.
    rewrite Hb. run. rewrite Hq. run. rewrite Hr. run.
    unfold render_tasks. by destruct Hempty as [-> | ->].
  - intros config_data Hs Hr Hempty. unfold show_config_page.
    run. rewrite Hs. run. rewrite Hr. run.
    unfold render_config. run.
    destruct Hempty as [-> | Hc]; [done|].
    rewrite Hc. by destruct (truthy config_data).
Qed.

(** The K-line chart of the quote view makes a call of its own, inside its
    own handler: when that call raises, the view shows a warning and goes
    on. *)
Lemma kline_failure_is_a_warning (s : session) (stock_code msg : pystr) :
  s !! "stock_service" = Some (SHandle StockService) ->
  w_get_history_data w (strip stock_code) (lit "daily") 30 = Raised msg ->
  render_kline w stock_code true s
  = (Ok tt, s,
     [Render (Widget Checkbox (lit "显示历史K线数据") []);
      Call (Call_get_history_data (strip stock_code) (lit "daily") 30);
      Render (Alert MWarning (lit "获取历史数据失败: " ++ msg))]).
Proof.
  intros Hs Hr. unfold render_kline. run. rewrite Hs. run. by rewrite Hr.
Qed.
End Results.

Section Quote.
Context {rt : PyRuntime}.

Lemma shown_plain_get (d : list (pystr * pyval)) (key : string) :
  shown_plain d key (py_str (default NA (dict_get (lit key) d))).
Proof. unfold shown_plain. by destruct (dict_get (lit key) d). Qed.

Lemma fmt2f_zero : py_fmt2f (VInt 0) = Val (lit "0.00").
Proof. reflexivity. Qed.

Lemma formattable_get (d : list (pystr * pyval)) (key : string) :
  formattable d key ->
  exists text,
    py_fmt2f (default (VInt 0) (dict_get (lit key) d)) = Val text
    /\ shown_2f d key text.
Proof.
  unfold formattable, shown_2f. intros H.
  destruct (dict_get (lit key) d) as [v|]; simpl.
  - destruct (H v eq_refl) as [text Ht]. eauto.
  - exists (lit "0.00"). split; [apply fmt2f_zero | done].
Qed.

(** ** The fields of a quote (C7) *)

(** C7, as the code has it.  Each of the ten fields of a quote may be
    absent.  For current price, open, previous close, high, low, volume,
    amount and turnover rate the view shows "N/A" when the key is absent,
    and the text of the value when it is present.  Change and change
    percent are shown with two decimals and default to 0 when the key is
    absent, so that they read "0.00" and "0.00%".  The rendering returns
    whatever keys are absent: only a change or change percent that is
    present and cannot be formatted stops it. *)
Theorem C7_quote_fields (quote : list (pystr * pyval)) (s : session) :
  formattable quote "change" ->
  formattable quote "change_percent" ->
  exists current_price change change_percent open prev_close high low
         volume amount turnover_rate : pystr,
    render_quote_fields (VDict quote) s
    = (Ok tt, s,
       quote_fields_view current_price change change_percent open prev_close
         high low volume amount turnover_rate)
    /\ shown_plain quote "current_price" current_price
    /\ shown_2f quote "change" change
    /\ shown_2f quote "change_percent" change_percent
    /\ shown_plain quote "open" open
    /\ shown_plain quote "prev_close" prev_close
    /\ shown_plain quote "high" high
    /\ shown_plain quote "low" low
    /\ shown_plain quote "volume" volume
    /\ shown_plain quote "amount" amount
    /\ shown_plain quote "turnover_rate" turnover_rate.
Proof.
  intros Hc Hp.
  destruct (formattable_get quote "change" Hc) as [change [Hchange Sc]].
  destruct (formattable_get quote "change_percent" Hp) as [pct [Hpct Sp]].
  exists (py_str (default NA (dict_get (lit "current_price") quote))),
    change, pct,
    (py_str (default NA (dict_get (lit "open") quote))),
    (py_str (default NA (dict_get (lit "prev_close") quote))),
    (py_str (default NA (dict_get (lit "high") quote))),
    (py_str (default NA (dict_get (lit "low") quote))),
    (py_str (default NA (dict_get (lit "volume") quote))),
    (py_str (default NA (dict_get (lit "amount") quote))),
    (py_str (default NA (dict_get (lit "turnover_rate") quote))).
  split.
  - unfold render_quote_fields, py_get. run.
    rewrite Hchange. run. rewrite Hpct. done.
  - repeat split; try done; apply shown_plain_get.
Qed.
End Quote.

Section Initialization.
Context {rt : PyRuntime} {ts : TaskStatusEnum}.

Lemma count_call_app (c : call -> bool) (t1 t2 : list event) :
  count_call c (t1 ++ t2) = (count_call c t1 + count_call c t2)%nat.
Proof.
  unfold count_call, calls_of.
  by rewrite omap_app, List.filter_app, length_app.
Qed.

Lemma count_call_page_events (c : call -> bool) (t : list event) :
  (forall x, c x = true -> ~ page_event (Call x)) ->
  Forall page_event t -> count_call c t = 0%nat.
Proof.
  intros Hc. induction 1 as [|ev t Hev _ IH]; [done|].
  change (ev :: t) with ([ev] ++ t). rewrite count_call_app, IH.
  destruct ev as [e|x|msg]; try done.
  unfold count_call. simpl. destruct (c x) eqn:E; [|done].
  by destruct (Hc x E).
Qed.

Lemma is_new_not_page_event (k : service) (x : call) :
  is_new k x = true -> ~ page_event (Call x).
Proof. destruct x; simpl; intros H; try done; tauto. Qed.

Lemma is_get_config_not_page_event (x : call) :
  is_get_config x = true -> ~ page_event (Call x).
Proof. destruct x; simpl; intros H; try done; tauto. Qed.

(** The first run: nothing is in the session state yet. *)
Lemma init_session_first (w : World) (s : session) (c : Config) :
  s !! "initialized" = None ->
  w_get_config w = Returned c ->
  (forall k, w_new w k = Returned tt) ->
  init_session w s
  = (Ok tt,
     <["system_config_service" := SHandle SystemConfigService]>
       (<["stock_service" := SHandle StockService]>
          (<["history_service" := SHandle HistoryService]>
             (<["analysis_service" := SHandle AnalysisService]>
                (<["config" := SConfig c]>
                   (<["initialized" := SBool true]> s))))),
     [Call Call_get_config; Call (Call_new AnalysisService);
      Call (Call_new HistoryService); Call (Call_new StockService);
      Call (Call_new SystemConfigService)]).
Proof.
  intros Hs Hc Hn. unfold init_session, construct. run.
  rewrite Hs, Hc, !Hn. done.
Qed.

(** Any later run: the flag is there. *)
Lemma init_session_again (w : World) (s : session) :
  is_Some (s !! "initialized") -> init_session w s = (Ok tt, s, []).
Proof.
  intros Hs. unfold init_session. run.
  by rewrite bool_decide_eq_true_2.
Qed.

(** Whatever the constructors do, a first run sets the flag and calls each
    of them at most once. *)
Lemma init_session_at_most_once (w : World) (s : session) :
  s !! "initialized" = None ->
  is_Some (session_of (init_session w s) !! "initialized")
  /\ (count_call is_get_config (trace_of (init_session w s)) <= 1)%nat
  /\ forall k,
      (count_call (is_new k) (trace_of (init_session w s)) <= 1)%nat.
Proof.
  intros Hs. unfold init_session, construct. run. rewrite Hs. run.
  destruct (w_get_config w); run;
    [destruct (w_new w AnalysisService); run;
     [destruct (w_new w HistoryService); run;
      [destruct (w_new w StockService); run;
       [destruct (w_new w SystemConfigService); run|]|]|]|].
  all: split;
    [rewrite ?lookup_insert_ne by done; rewrite lookup_insert_eq; by eexists|].
  all: split; [unfold count_call; simpl; lia|].
  all: intros []; unfold count_call; simpl; lia.
Qed.

Lemma count_call_render (c : call -> bool) (e : element) (t : list event) :
  count_call c (Render e :: t) = count_call c t.
Proof. done. Qed.

(** A run of the script on an initialized session leaves the session state
    as it is and constructs nothing. *)
Lemma script_initialized (w : World) (inp : Inputs) (s : session) :
  is_Some (s !! "initialized") ->
  session_of (script w inp s) = s
  /\ Forall page_event (trace_of (script w inp s)).
Proof.
  intros Hs. unfold script. run. rewrite (init_session_again w s Hs).
  pose proof (quiet_main w inp s) as [Hm Ht].
  destruct (main w inp s) as [[r s'] t]. run. subst s'.
  split; [done|]. by constructor.
Qed.

(** The first run of the script sets the flag and calls each constructor at
    most once, whatever the constructors and the page do. *)
Lemma script_first (w : World) (inp : Inputs) (s : session) :
  s !! "initialized" = None ->
  is_Some (session_of (script w inp s) !! "initialized")
  /\ (count_call is_get_config (trace_of (script w inp s)) <= 1)%nat
  /\ forall k, (count_call (is_new k) (trace_of (script w inp s)) <= 1)%nat.
Proof.
  intros Hs. unfold script. run.
  destruct (init_session_at_most_once w s Hs) as [Hflag [Hc Hn]].
  destruct (init_session w s) as [[r1 s1] t1]. run.
  destruct r1 as [[]|e]; run;
    [|split; [done|]; split; [|intros k];
      rewrite count_call_render; auto].
  pose proof (quiet_main w inp s1) as [Hm Ht].
  destruct (main w inp s1) as [[r s'] t]. run. subst s'.
  split; [done|].
  split; [|intros k]; rewrite count_call_render, count_call_app.
  - rewrite (count_call_page_events _ t is_get_config_not_page_event Ht). lia.
  - rewrite (count_call_page_events _ t (is_new_not_page_event k) Ht).
    specialize (Hn k). lia.
Qed.

Lemma run_session_initialized (runs : list (World * Inputs)) (s : session) :
  is_Some (s !! "initialized") ->
  fst (run_session runs s) = s
  /\ Forall page_event (snd (run_session runs s)).
Proof.
  revert s. induction runs as [|[w inp] runs IH]; intros s Hs; simpl.
  - by split.
  - destruct (script_initialized w inp s Hs) as [Hsame Ht].
    rewrite Hsame. destruct (IH s Hs) as [Hfst Hrest].
    split; [done|]. by apply Forall_app.
Qed.

(** Over the whole life of a session each constructor runs at most once. *)
Lemma run_session_at_most_once (runs : list (World * Inputs)) (s : session) :
  (count_call is_get_config (snd (run_session runs s)) <= 1)%nat
  /\ forall k, (count_call (is_new k) (snd (run_session runs s)) <= 1)%nat.
Proof.
  destruct (s !! "initialized") as [v|] eqn:Hs.
  - destruct (run_session_initialized runs s) as [_ Ht]; [by rewrite Hs|].
    split; [|intros k].
    + rewrite (count_call_page_events _ _ is_get_config_not_page_event Ht).
      lia.
    + rewrite (count_call_page_events _ _ (is_new_not_page_event k) Ht). lia.
  - destruct runs as [|[w inp] runs]; simpl.
    + split; [|intros k]; unfold count_call; simpl; lia.
    + destruct (script_first w inp s Hs) as [Hflag [Hc Hn]].
      destruct (run_session_initialized runs _ Hflag) as [_ Ht].
      split; [|intros k]; rewrite count_call_app.
      * rewrite (count_call_page_events _ _ is_get_config_not_page_event Ht).
        lia.
      * rewrite (count_call_page_events _ _ (is_new_not_page_event k) Ht).
        specialize (Hn k). lia.
Qed.

(** ** Session initialization (C9) *)

(** C9.  Session initialization runs once.  On the first run of the script
    in a session, when the constructors return, it calls [get_config] and
    each of the four service constructors exactly once, stores the five
    objects and sets the flag.  On a run that finds the flag it does
    nothing, and the whole run leaves the session state as it is and
    constructs nothing.  Over any sequence of runs of one session, each of
    the constructors is called at most once. *)
Theorem C9_session_initialization :
  (forall (w : World) (s : session) (c : Config),
      s !! "initialized" = None ->
      w_get_config w = Returned c ->
      (forall k, w_new w k = Returned tt) ->
      init_session w s
      = (Ok tt,
         <["system_config_service" := SHandle SystemConfigService]>
           (<["stock_service" := SHandle StockService]>
              (<["history_service" := SHandle HistoryService]>
                 (<["analysis_service" := SHandle AnalysisService]>
                    (<["config" := SConfig c]>
                       (<["initialized" := SBool true]> s))))),
         [Call Call_get_config; Call (Call_new AnalysisService);
          Call (Call_new HistoryService); Call (Call_new StockService);
          Call (Call_new SystemConfigService)]))
  /\ (forall (w : World) (s : session),
        is_Some (s !! "initialized") -> init_session w s = (Ok tt, s, []))
  /\ (forall (w : World) (inp : Inputs) (s : session),
        is_Some (s !! "initialized") ->
        session_of (script w inp s) = s
        /\ count_call is_get_config (trace_of (script w inp s)) = 0%nat
        /\ forall k, count_call (is_new k) (trace_of (script w inp s)) = 0%nat)
  /\ (forall (runs : list (World * Inputs)) (k : service),
        (count_call (is_new k) (snd (run_session runs ∅)) <= 1)%nat
        /\ (count_call is_get_config (snd (run_session runs ∅)) <= 1)%nat).
Proof.
  split; [apply init_session_first|].
  split; [apply init_session_again|].
  split.
  - intros w inp s Hs. destruct (script_initialized w inp s Hs) as [Hsame Ht].
    split; [done|]. split; [|intros k].
    + apply (count_call_page_events _ _ is_get_config_not_page_event Ht).
    + apply (count_call_page_events _ _ (is_new_not_page_event k) Ht).
  - intros runs k. destruct (run_session_at_most_once runs ∅) as [Hc Hn].
    split; [apply Hn | apply Hc].
Qed.
End Initialization.

Section ConfigPage.
Context {rt : PyRuntime} {ts : TaskStatusEnum}.
Variable w : World.

Lemma quiet_bind_lift {A B : Type} (P : event -> Prop) (r : res A)
    (k : A -> M B) :
  (forall a, r = Val a -> quiet P (k a)) -> quiet P (bind (lift r) k).
Proof.
  intros Hk. destruct r as [a|e].
  - intros s. specialize (Hk a eq_refl s). run.
    by destruct (k a s) as [[r s'] t].
  - intros s. by split.
Qed.

Lemma quiet_bind_invoke {A B : Type} (P : event -> Prop) (c : call)
    (o : outcome A) (k : A -> M B) :
  P (Call c) ->
  (forall a, o = Returned a -> quiet P (k a)) ->
  quiet P (bind (invoke c o) k).
Proof.
  intros Hc Hk. destruct o as [a|msg].
  - intros s. specialize (Hk a eq_refl s). run.
    destruct (k a s) as [[r s'] t]. run. destruct Hk as [-> Ht].
    split; [done|]. by constructor.
  - intros s. run. split; [done|]. by constructor.
Qed.

Lemma quiet_render_config_key (config_data config_dict : pyval) (key : pystr) :
  w_system_get_config w true = Returned config_data ->
  py_getitem config_data (lit "config") = Val config_dict ->
  key ∈ concat (map snd sections) ->
  quiet (config_input w) (render_config_key config_dict key).
Proof.
  intros Hdata Hdict Hkey. unfold render_config_key.
  apply quiet_bind_lift. intros [|] Hpresent; [|apply quiet_ret].
  apply quiet_bind_lift. intros value Hvalue.
  apply quiet_bind_lift. intros shown Hshown.
  apply quiet_render. simpl. split; [done|]. eauto 10.
Qed.

Lemma quiet_render_config (config_data : pyval) :
  w_system_get_config w true = Returned config_data ->
  quiet (config_input w) (render_config config_data).
Proof.
  intros Hdata. unfold render_config.
  apply quiet_bind; [apply quiet_lift|]. intros [|]; [|by quiet_auto].
  apply quiet_bind_lift. intros config_dict Hdict.
  apply quiet_bind; [by quiet_auto|]. intros _.
  apply quiet_bind; [|intros _; by quiet_auto].
  apply quiet_for_each. intros [section_name keys] Hsection.
  apply quiet_bind; [by quiet_auto|]. intros _.
  apply quiet_for_each. intros key Hkey.
  apply (quiet_render_config_key config_data); [done..|].
  apply list_elem_of_In, in_concat. exists keys.
  split; [|by apply list_elem_of_In].
  apply in_map_iff. exists (section_name, keys).
  split; [done|]. by apply list_elem_of_In.
Qed.

Lemma quiet_config_page : quiet (config_input w) (show_config_page w).
Proof.
  unfold show_config_page.
  apply quiet_bind; [by quiet_auto|]. intros _.
  apply quiet_bind; [by quiet_auto|]. intros _.
  apply quiet_try_except; [|intros msg; by quiet_auto].
  apply quiet_bind; [apply quiet_session_service|]. intros _.
  apply quiet_bind_invoke; [done|]. intros config_data Hdata.
  by apply quiet_render_config.
Qed.

(** ** The keys the configuration view shows (C10) *)

(** C10.  Every text input the configuration view shows belongs to a key of
    its fixed section table that is also a key of the config mapping the
    service returned, and it shows the value of that key, masked or not. A
    key of the mapping that is not in the table is never shown. *)
Theorem C10_config_keys_shown (s : session) (key : pystr) (shown : pyval) :
  Render (DisabledTextInput key shown) ∈ trace_of (show_config_page w s) ->
  key ∈ concat (map snd sections)
  /\ exists config_data config_dict value,
       w_system_get_config w true = Returned config_data
       /\ py_getitem config_data (lit "config") = Val config_dict
       /\ py_contains key config_dict = Val true
       /\ py_getitem config_dict key = Val value
       /\ display_value key value = Val shown.
Proof.
  intros Hin. destruct (quiet_config_page s) as [_ Ht].
  rewrite Forall_forall in Ht. apply (Ht _ Hin).
Qed.
End ConfigPage.

(** ** The script on sample inputs *)

Section Samples.
#[local] Existing Instance sample_runtime.
#[local] Existing Instance str_status.

Example advice_both_tokens :
  alerts (trace_of (render_operation_advice (VStr (lit "建议买入并卖出")) ∅))
  = [(MSuccess, lit "**建议买入并卖出**")].
Proof. reflexivity. Qed.

Example advice_sell_and_hold :
  alerts (trace_of (render_operation_advice (VStr (lit "建议卖出")) ∅))
  = [(MError, lit "**建议卖出**")]
  /\ alerts (trace_of (render_operation_advice (VStr (lit "持有观望")) ∅))
     = [(MWarning, lit "**持有观望**")].
Proof. split; reflexivity. Qed.

Example group_running_completed_running_failed :
  group_by_status
    [sample_task "running" "600519"; sample_task "completed" "00700";
     sample_task "running" "AAPL"; sample_task "failed" "000001"]
  = [(lit "running", [sample_task "running" "600519";
                      sample_task "running" "AAPL"]);
     (lit "completed", [sample_task "completed" "00700"]);
     (lit "failed", [sample_task "failed" "000001"])].
Proof. reflexivity. Qed.

(** A stock code of white space only passes the test for an empty code: the
    collaborator is called, with the empty string. *)
Lemma C1_whitespace_code_reaches_collaborator :
  strip (lit "  ") = []
  /\ calls_of (trace_of (show_analysis_page silent_world
                           (analysis_inputs (lit "  ")) ready_session))
     = [Call_analyze_stock [] detailed false
          (lit "3f2b8c1e9d4a4b6f8a7c5e2d1f0b9a8c") true]
  /\ calls_of (trace_of (show_stock_quote_page silent_world
                           (quote_inputs (lit "  ")) ready_session))
     = [Call_get_realtime_quote []].
Proof. repeat split; reflexivity. Qed.

Lemma C1_empty_stock_code_witness :
  error_state (show_analysis_page silent_world (analysis_inputs [])
                 ready_session)
    ready_session (lit "请输入股票代码")
  /\ calls_of (trace_of (show_analysis_page silent_world (analysis_inputs [])
                           ready_session)) = [].
Proof.
  apply (proj1 (C1_empty_stock_code_is_rejected silent_world ready_session)
           (analysis_inputs [])); reflexivity.
Defined.

(** The analysis view shows a null result in an error box, the marker it
    also uses when the call raises. *)
Lemma C2_null_analysis_is_shown_as_error :
  alerts (trace_of (show_analysis_page silent_world
                      (analysis_inputs (lit "600519")) ready_session))
  = [(MError, lit "分析失败，请检查股票代码是否正确或查看日志")]
  /\ alerts (trace_of (show_analysis_page broken_world
                         (analysis_inputs (lit "600519")) ready_session))
     = [(MError, lit "分析过程中发生错误: boom")].
Proof. split; reflexivity. Qed.

Lemma C2_empty_result_witness :
  view_state (show_history_page silent_world (history_inputs [])
                ready_session)
    ready_session MInfo (lit "暂无历史记录").
Proof.
  apply (proj1 (proj2 (C2_empty_result silent_world ready_session))
           (history_inputs []) VNone);
    [reflexivity | reflexivity | reflexivity | left; reflexivity].
Defined.

Lemma C3_collaborator_failure_witness :
  error_state (show_analysis_page broken_world
                 (analysis_inputs (lit "600519")) ready_session)
    ready_session (lit "分析过程中发生错误: " ++ lit "boom").
Proof.
  apply (proj1 (C3_collaborator_failure_is_caught broken_world ready_session
                  (lit "boom")) (analysis_inputs (lit "600519")));
    [reflexivity | discriminate | reflexivity | reflexivity].
Defined.

Lemma C5_masking_witness :
  display_value (lit "gemini_api_key") (VStr (lit "sk-1234567890"))
  = Val (VStr (firstn 8 (lit "sk-1234567890") ++ lit "...")).
Proof.
  apply (proj1 (proj1 (proj2 (C5_masking (lit "gemini_api_key")))
                  eq_refl) (lit "sk-1234567890")).
  vm_compute. lia.
Defined.

Example mask_examples :
  display_value (lit "gemini_api_key") (VStr (lit "sk-1234567890"))
  = Val (VStr (lit "sk-12345..."))
  /\ display_value (lit "tushare_token") (VStr []) = Val (VStr (lit "***"))
  /\ display_value (lit "tushare_token") VNone = Val (VStr (lit "***"))
  /\ display_value (lit "serpapi_keys") (VStr (lit "12345678"))
     = Val (VStr (lit "***"))
  /\ display_value (lit "openai_base_url") (VStr (lit "https://api.example"))
     = Val (VStr (lit "https://api.example")).
Proof. repeat split; reflexivity. Qed.

(** A quote without the key "change" shows "0.00" for it, not "N/A"; a
    field that is present and null shows "None"; a change that is present
    and null stops the rendering. *)
Lemma C7_absent_change_is_shown_as_zero :
  render_quote_fields (VDict [(lit "current_price", VInt 1680)]) ∅
  = (Ok tt, ∅,
     quote_fields_view (lit "1680") (lit "0.00") (lit "0.00") (lit "N/A")
       (lit "N/A") (lit "N/A") (lit "N/A") (lit "N/A") (lit "N/A")
       (lit "N/A"))
  /\ render_quote_fields (VDict [(lit "open", VNone)]) ∅
     = (Ok tt, ∅,
        quote_fields_view (lit "N/A") (lit "0.00") (lit "0.00") (lit "None")
          (lit "N/A") (lit "N/A") (lit "N/A") (lit "N/A") (lit "N/A")
          (lit "N/A"))
  /\ result_of (render_quote_fields (VDict [(lit "change", VNone)]) ∅)
     = Raise (Exception (lit "unsupported format string")).
Proof. repeat split; reflexivity. Qed.

Lemma C7_quote_fields_witness :
  exists current_price change change_percent open prev_close high low
         volume amount turnover_rate : pystr,
    render_quote_fields (VDict [(lit "current_price", VInt 1680)]) ∅
    = (Ok tt, ∅,
       quote_fields_view current_price change change_percent open prev_close
         high low volume amount turnover_rate)
    /\ shown_plain [(lit "current_price", VInt 1680)] "current_price"
         current_price
    /\ shown_2f [(lit "current_price", VInt 1680)] "change" change
    /\ shown_2f [(lit "current_price", VInt 1680)] "change_percent"
         change_percent
    /\ shown_plain [(lit "current_price", VInt 1680)] "open" open
    /\ shown_plain [(lit "current_price", VInt 1680)] "prev_close" prev_close
    /\ shown_plain [(lit "current_price", VInt 1680)] "high" high
    /\ shown_plain [(lit "current_price", VInt 1680)] "low" low
    /\ shown_plain [(lit "current_price", VInt 1680)] "volume" volume
    /\ shown_plain [(lit "current_price", VInt 1680)] "amount" amount
    /\ shown_plain [(lit "current_price", VInt 1680)] "turnover_rate"
         turnover_rate.
Proof.
  apply (C7_quote_fields [(lit "current_price", VInt 1680)] ∅);
    intros v Hv; vm_compute in Hv; discriminate.
Defined.

(** The quote view as a whole: a quote with a null change ends in the error
    state of the view, after the success box and the first metric. *)
Example quote_page_null_change :
  alerts (trace_of (show_stock_quote_page
                      (quote_world (VDict [(lit "current_price", VInt 1680);
                                           (lit "change", VNone)]))
                      (quote_inputs (lit "600519")) ready_session))
  = [(MSuccess, lit "行情数据获取成功");
     (MError, lit "查询失败: unsupported format string")].
Proof. vm_compute. reflexivity. Qed.

Example analysis_page_structured_report :
  alerts (trace_of (show_analysis_page analysis_world
                      (analysis_inputs (lit " 600519 ")) ready_session))
  = [(MSuccess, lit "分析完成！"); (MInfo, lit "趋势向上");
     (MSuccess, lit "**建议买入**")]
  /\ calls_of (trace_of (show_analysis_page analysis_world
                           (analysis_inputs (lit " 600519 ")) ready_session))
     = [Call_analyze_stock (lit "600519") detailed false
          (lit "3f2b8c1e9d4a4b6f8a7c5e2d1f0b9a8c") true].
Proof. split; reflexivity. Qed.

(** A history record without "meta" is listed with "N/A" in every column;
    the labels of the selectbox then fail on [item['meta']], and the view
    ends in its error state. *)
Example history_page_record_without_meta :
  alerts (trace_of (show_history_page history_world (history_inputs [])
                      ready_session))
  = [(MSuccess, lit "找到 1 条记录"); (MError, lit "查询失败: 'meta'")].
Proof. reflexivity. Qed.

(** A filter of white space only is sent as the empty string, not as
    null. *)
Lemma C8_whitespace_filter_is_not_null :
  strip (lit "  ") = []
  /\ calls_of (trace_of (show_history_page silent_world
                           (history_inputs (lit "  ")) ready_session))
     = [Call_get_history_list (Some []) (lit "2024-05-01") 1 20].
Proof. split; reflexivity. Qed.

Lemma C8_history_query_witness :
  exists stock_code : option pystr,
    calls_of (trace_of (show_history_page silent_world
                          (history_inputs (lit " 600519 ")) ready_session))
    = [Call_get_history_list stock_code
         (w_start_date silent_world (h_days_back (history_inputs (lit " 600519 "))))
         1 (h_page_size (history_inputs (lit " 600519 ")))]
    /\ (stock_code = None
        <-> h_stock_code_filter (history_inputs (lit " 600519 ")) = [])
    /\ (h_stock_code_filter (history_inputs (lit " 600519 ")) <> [] ->
        stock_code
        = Some (strip (h_stock_code_filter (history_inputs (lit " 600519 "))))).
Proof.
  apply (C8_history_query silent_world ready_session
           (history_inputs (lit " 600519 "))); reflexivity.
Defined.

Lemma C9_first_run_witness :
  init_session silent_world ∅
  = (Ok tt, ready_session,
     [Call Call_get_config; Call (Call_new AnalysisService);
      Call (Call_new HistoryService); Call (Call_new StockService);
      Call (Call_new SystemConfigService)]).
Proof.
  apply (proj1 C9_session_initialization silent_world ∅ (ConfigObject []));
    [reflexivity | reflexivity | intros k; reflexivity].
Defined.

(** Of the three keys the service returns, the two of the section table are
    shown, the secret one masked; "log_level" is not. *)
Example config_page_sample :
  text_inputs (trace_of (show_config_page config_world ready_session))
  = [(lit "gemini_api_key", VStr (lit "sk-12345..."));
     (lit "openai_base_url", VStr (lit "https://api.example"))].
Proof. reflexivity. Qed.

Lemma C10_config_keys_witness :
  lit "gemini_api_key" ∈ concat (map snd sections)
  /\ exists config_data config_dict value,
       w_system_get_config config_world true = Returned config_data
       /\ py_getitem config_data (lit "config") = Val config_dict
       /\ py_contains (lit "gemini_api_key") config_dict = Val true
       /\ py_getitem config_dict (lit "gemini_api_key") = Val value
       /\ display_value (lit "gemini_api_key") value
          = Val (VStr (lit "sk-12345...")).
Proof.
  apply (C10_config_keys_shown config_world ready_session).
  apply list_elem_of_In. vm_compute.
  repeat (first [left; reflexivity | right]).
Defined.

Lemma C4_advice_witness :
  exists c : advice_class,
    render_operation_advice (VStr (lit "建议买入并卖出")) ∅
    = (Ok tt, ∅,
       [Render (Markdown (lit "### 💡 操作建议"));
        Render (Alert (advice_frame c)
                  (lit "**" ++ lit "建议买入并卖出" ++ lit "**"))])
    /\ (c = Buy <-> occurs (lit "买入") (lit "建议买入并卖出"))
    /\ (c = Sell <->
        ~ occurs (lit "买入") (lit "建议买入并卖出")
        /\ occurs (lit "卖出") (lit "建议买入并卖出"))
    /\ (c = Neutral <->
        ~ occurs (lit "买入") (lit "建议买入并卖出")
        /\ ~ occurs (lit "卖出") (lit "建议买入并卖出"))
    /\ (occurs (lit "买入") (lit "建议买入并卖出")
        /\ occurs (lit "卖出") (lit "建议买入并卖出") -> c = Buy).
Proof. exact (C4_advice_classification (lit "建议买入并卖出") ∅). Defined.

Lemma C6_grouping_witness :
  map fst (group_by_status
             [sample_task "running" "600519"; sample_task "completed" "00700";
              sample_task "running" "AAPL"; sample_task "failed" "000001"])
  = [lit "running"; lit "completed"; lit "failed"].
Proof.
  apply (proj1 (C6_group_by_status
                  [sample_task "running" "600519";
                   sample_task "completed" "00700";
                   sample_task "running" "AAPL";
                   sample_task "failed" "000001"])).
Defined.
End Samples.

(** * Further properties of the script *)

(** ** [str.strip] *)

Lemma lstrip_split (s : pystr) :
  exists p, s = p ++ lstrip s /\ blank p = true.
Proof.
  induction s as [|c s [p [Hs Hp]]]; simpl.
  - by exists [].
  - destruct (isspace c) eqn:Hc.
    + exists (c :: p). split; [simpl; by f_equal|]. simpl. by rewrite Hc.
    + by exists [].
Qed.

Lemma lstrip_head (s : pystr) :
  match lstrip s with
  | [] => True
  | c :: _ => isspace c = false
  end.
Proof.
  induction s as [|c s IH]; simpl; [done|].
  destruct (isspace c) eqn:Hc; [done|]. by rewrite Hc.
Qed.

Lemma blank_app (p q : pystr) : blank (p ++ q) = blank p && blank q.
Proof. apply forallb_app. Qed.

Lemma blank_rev (p : pystr) : blank (rev p) = blank p.
Proof.
  induction p as [|c p IH]; simpl; [done|].
  rewrite blank_app, IH. simpl. rewrite andb_true_r. apply andb_comm.
Qed.

Lemma lstrip_blank (s : pystr) : lstrip s = [] <-> blank s = true.
Proof.
  induction s as [|c s IH]; simpl; [done|].
  destruct (isspace c); simpl; [done|]. split; discriminate.
Qed.

(** [strip] takes white space off both ends, and nothing else. *)
Lemma strip_split (s : pystr) :
  exists p q, s = p ++ strip s ++ q /\ blank p = true /\ blank q = true.
Proof.
  unfold strip, rstrip.
  destruct (lstrip_split s) as [p [Hs Hp]].
  destruct (lstrip_split (rev (lstrip s))) as [q [Hr Hq]].
  exists p, (rev q). split; [|split; [done | by rewrite blank_rev]].
  rewrite <- rev_app_distr, <- Hr, rev_involutive. exact Hs.
Qed.

Lemma strip_trimmed (s : pystr) : trimmed (strip s).
Proof.
  unfold trimmed, strip, rstrip. rewrite rev_involutive.
  split; [|apply lstrip_head].
  pose proof (lstrip_head s) as Hhead.
  destruct (lstrip_split (rev (lstrip s))) as [q [Hr Hq]].
  apply (f_equal (@rev N)) in Hr. rewrite rev_involutive, rev_app_distr in Hr.
  destruct (rev (lstrip (rev (lstrip s)))) as [|c u]; [done|].
  rewrite Hr in Hhead. exact Hhead.
Qed.

Lemma strip_blank (s : pystr) : strip s = [] <-> blank s = true.
Proof.
  split.
  - intros H. destruct (strip_split s) as [p [q [Hs [Hp Hq]]]].
    rewrite H in Hs. rewrite Hs, blank_app, Hp. exact Hq.
  - intros H. unfold strip, rstrip.
    rewrite (proj2 (lstrip_blank s) H). reflexivity.
Qed.

Section PageCalls.
Context {rt : PyRuntime} {ts : TaskStatusEnum}.
Variable w : World.

Lemma render_quote_fields_no_call quote :
  quiet no_call (render_quote_fields quote).
Proof. unfold render_quote_fields. quiet_auto. Qed.

End PageCalls.
Section PageCalls2.
Context {rt : PyRuntime} {ts : TaskStatusEnum}.
Variable w : World.

Lemma analysis_calls (inp : AnalysisInputs) (s : session) :
  calls_of (trace_of (show_analysis_page w inp s)) = []
  \/ (a_button inp = true /\ a_stock_code inp <> []
      /\ calls_of (trace_of (show_analysis_page w inp s))
         = [Call_analyze_stock (strip (a_stock_code inp)) (a_report_type inp)
              (a_force_refresh inp) (w_uuid4_hex w) (a_send_notification inp)]).
Proof.
  destruct (a_button inp) eqn:Hb;
    [|left; unfold show_analysis_page; by rewrite Hb].
  destruct (a_stock_code inp) as [|c code] eqn:Hc;
    [left; unfold show_analysis_page; by rewrite Hb, Hc|].
  destruct (s !! "analysis_service") as [[b|cfg|[]]|] eqn:Hs.
  3: { right. split; [done|]. split; [done|]. rewrite <- Hc.
       apply analysis_call; [done| by rewrite Hc |done]. }
  all: left; unfold show_analysis_page; rewrite Hb, Hc; run; rewrite Hs; done.
Qed.

Lemma history_calls (inp : HistoryInputs) (s : session) :
  calls_of (trace_of (show_history_page w inp s)) = []
  \/ (h_button inp = true
      /\ calls_of (trace_of (show_history_page w inp s))
         = [Call_get_history_list
              (history_stock_code (h_stock_code_filter inp))
              (w_start_date w (h_days_back inp)) 1 (h_page_size inp)]).
Proof.
  destruct (h_button inp) eqn:Hb;
    [|left; unfold show_history_page; by rewrite Hb].
  unfold show_history_page. rewrite Hb. run.
  destruct (s !! "history_service") as [[b|cfg|[]]|] eqn:Hs; run; auto.
  right. split; [done|].
  destruct (w_get_history_list _ _ _ _ _) as [result|msg]; [|done].
  run.
  pose proof (render_history_result_no_call result (h_selected_idx inp) s)
    as [_ Ht].
  destruct (render_history_result result (h_selected_idx inp) s)
    as [[r s'] t].
  apply no_call_calls_of in Ht. unfold calls_of in *.
  destruct r as [|[|]]; run; rewrite ?omap_app, ?Ht; done.
Qed.

Lemma kline_calls (stock_code : pystr) (show_history : bool) (s : session) :
  calls_of (trace_of (render_kline w stock_code show_history s)) = []
  \/ (show_history = true
      /\ calls_of (trace_of (render_kline w stock_code show_history s))
         = [Call_get_history_data (strip stock_code) (lit "daily") 30]).
Proof.
  unfold render_kline. destruct show_history; [|by left]. run.
  destruct (s !! "stock_service") as [[b|cfg|[]]|] eqn:Hs; run; auto.
  right. split; [done|].
  destruct (w_get_history_data _ _ _ _) as [history|msg]; [|done]. run.
  destruct (has_nonempty history (lit "data")) as [[|]|]; run; try done.
  destruct (py_getitem history (lit "data")) as [data|]; run; try done.
  destruct (close_series data); run; done.
Qed.

Lemma kline_returns (stock_code : pystr) (show_history : bool) (s : session) :
  result_of (render_kline w stock_code show_history s) = Ok tt
  /\ session_of (render_kline w stock_code show_history s) = s.
Proof.
  unfold render_kline. destruct show_history; [|done]. run.
  destruct (s !! "stock_service") as [[b|cfg|[]]|] eqn:Hs; run; try done.
  destruct (w_get_history_data _ _ _ _) as [history|msg]; [|done]. run.
  destruct (has_nonempty history (lit "data")) as [[|]|]; run; try done.
  destruct (py_getitem history (lit "data")) as [data|]; run; try done.
  destruct (close_series data); run; done.
Qed.

Lemma quote_result_calls (quote : pyval) (stock_code : pystr)
    (show_history : bool) (s : session) :
  calls_of (trace_of (render_quote_result w quote stock_code show_history s)) = []
  \/ (show_history = true
      /\ calls_of (trace_of (render_quote_result w quote stock_code
                               show_history s))
         = [Call_get_history_data (strip stock_code) (lit "daily") 30]).
Proof.
  unfold render_quote_result. destruct (truthy quote); [|by left]. run.
  pose proof (render_quote_fields_no_call quote s) as [Hs Ht].
  destruct (render_quote_fields quote s) as [[r s'] t].
  apply no_call_calls_of in Ht. unfold calls_of in *. run. subst s'.
  destruct r as [[]|e]; run; [|left; by rewrite Ht].
  destruct (kline_calls stock_code show_history s) as [Hk | [Hshow Hk]];
    unfold calls_of, trace_of in Hk;
    destruct (render_kline w stock_code show_history s) as [[r2 s2] t2];
    run; rewrite omap_app, Ht, Hk; auto.
Qed.

Lemma quote_calls (inp : QuoteInputs) (s : session) :
  calls_of (trace_of (show_stock_quote_page w inp s)) = []
  \/ (q_button inp = true /\ q_stock_code inp <> []
      /\ (calls_of (trace_of (show_stock_quote_page w inp s))
          = [Call_get_realtime_quote (strip (q_stock_code inp))]
          \/ (q_show_history inp = true
              /\ calls_of (trace_of (show_stock_quote_page w inp s))
                 = [Call_get_realtime_quote (strip (q_stock_code inp));
                    Call_get_history_data (strip (q_stock_code inp))
                      (lit "daily") 30]))).
Proof.
  destruct (q_button inp) eqn:Hb;
    [|left; unfold show_stock_quote_page; by rewrite Hb].
  destruct (q_stock_code inp) as [|c code] eqn:Hc;
    [left; unfold show_stock_quote_page; by rewrite Hb, Hc|].
  unfold show_stock_quote_page. rewrite Hb, Hc. run.
  destruct (s !! "stock_service") as [[b|cfg|[]]|] eqn:Hs; run; auto.
  right. split; [done|]. split; [done|].
  destruct (w_get_realtime_quote _ _) as [quote|msg]; [|by left]. run.
  destruct (quote_result_calls quote (c :: code) (q_show_history inp) s)
    as [Hk | [Hshow Hk]];
    unfold calls_of, trace_of in Hk;
    destruct (render_quote_result w quote (c :: code) (q_show_history inp) s)
      as [[r s'] t];
    unfold calls_of; destruct r as [|[|]]; run; rewrite ?omap_app, Hk; auto.
Qed.

Lemma task_calls (inp : TaskInputs) (s : session) :
  (t_refresh inp = true
   /\ calls_of (trace_of (show_task_monitor_page w inp s)) = [])
  \/ calls_of (trace_of (show_task_monitor_page w inp s)) = [Call_get_task_queue]
  \/ calls_of (trace_of (show_task_monitor_page w inp s))
     = [Call_get_task_queue; Call_list_tasks 50].
Proof.
  unfold show_task_monitor_page.
  destruct (t_refresh inp); [by left|]. run.
  destruct (w_get_task_queue w) as [[]|msg]; [|by right; left]. run.
  right. right.
  destruct (w_list_tasks w 50) as [tasks|msg]; [|done]. run.
  pose proof (render_tasks_no_call tasks s) as [_ Ht].
  destruct (render_tasks tasks s) as [[r s'] t].
  apply no_call_calls_of in Ht. unfold calls_of in *.
  destruct r as [|[|]]; run; rewrite ?omap_app, ?Ht; done.
Qed.

Lemma config_calls (s : session) :
  calls_of (trace_of (show_config_page w s)) = []
  \/ calls_of (trace_of (show_config_page w s)) = [Call_system_get_config true].
Proof.
  unfold show_config_page. run.
  destruct (s !! "system_config_service") as [[b|cfg|[]]|] eqn:Hs; run; auto.
  right.
  destruct (w_system_get_config w true) as [config_data|msg]; [|done]. run.
  pose proof (render_config_no_call config_data s) as [_ Ht].
  destruct (render_config config_data s) as [[r s'] t].
  apply no_call_calls_of in Ht. unfold calls_of in *.
  destruct r as [|[|]]; run; rewrite ?omap_app, ?Ht; done.
Qed.

(** X3.  Each view calls the operations of its own collaborator only, with what
    was entered, and at most once in a run: [analyze_stock] after a click with
    a code that is not empty; [get_history_list] after a click;
    [get_realtime_quote] after a click with a code that is not empty, followed
    by [get_history_data] for 30 daily bars only when the K-line box is
    ticked; [get_task_queue] and then [list_tasks(limit=50)] unless the
    refresh button was clicked; [get_config(include_schema=True)]. *)
Theorem view_calls (s : session) :
  (forall inp : AnalysisInputs,
      calls_of (trace_of (show_analysis_page w inp s)) = []
      \/ (a_button inp = true /\ a_stock_code inp <> []
          /\ calls_of (trace_of (show_analysis_page w inp s))
             = [Call_analyze_stock (strip (a_stock_code inp))
                  (a_report_type inp) (a_force_refresh inp) (w_uuid4_hex w)
                  (a_send_notification inp)]))
  /\ (forall inp : HistoryInputs,
        calls_of (trace_of (show_history_page w inp s)) = []
        \/ (h_button inp = true
            /\ calls_of (trace_of (show_history_page w inp s))
               = [Call_get_history_list
                    (history_stock_code (h_stock_code_filter inp))
                    (w_start_date w (h_days_back inp)) 1 (h_page_size inp)]))
  /\ (forall inp : QuoteInputs,
        calls_of (trace_of (show_stock_quote_page w inp s)) = []
        \/ (q_button inp = true /\ q_stock_code inp <> []
            /\ (calls_of (trace_of (show_stock_quote_page w inp s))
                = [Call_get_realtime_quote (strip (q_stock_code inp))]
                \/ (q_show_history inp = true
                    /\ calls_of (trace_of (show_stock_quote_page w inp s))
                       = [Call_get_realtime_quote (strip (q_stock_code inp));
                          Call_get_history_data (strip (q_stock_code inp))
                            (lit "daily") 30]))))
  /\ (forall inp : TaskInputs,
        (t_refresh inp = true
         /\ calls_of (trace_of (show_task_monitor_page w inp s)) = [])
        \/ calls_of (trace_of (show_task_monitor_page w inp s))
           = [Call_get_task_queue]
        \/ calls_of (trace_of (show_task_monitor_page w inp s))
           = [Call_get_task_queue; Call_list_tasks 50])
  /\ (calls_of (trace_of (show_config_page w s)) = []
      \/ calls_of (trace_of (show_config_page w s))
         = [Call_system_get_config true]).
Proof.
  split; [intros inp; apply analysis_calls|].
  split; [intros inp; apply history_calls|].
  split; [intros inp; apply quote_calls|].
  split; [intros inp; apply task_calls | apply config_calls].
Qed.
End PageCalls2.

Section Requests2.
Context {rt : PyRuntime} {ts : TaskStatusEnum}.
Variable w : World.

(** X11.  A click on the refresh button of the task monitor ends the run with a
    rerun request right after the button, before the queue is asked; nothing
    else makes the task monitor ask for a rerun. *)
Theorem task_monitor_rerun (inp : TaskInputs) (s : session) :
  (result_of (show_task_monitor_page w inp s) = Raise RerunException
   <-> t_refresh inp = true)
  /\ (t_refresh inp = true ->
      show_task_monitor_page w inp s
      = (Raise RerunException, s,
         [Render (Title (lit "⚙️ 任务监控"));
          Render (Markdown (lit "监控分析任务执行状态"));
          Render (Widget Button (lit "刷新任务列表") [])])).
Proof.
  destruct (t_refresh inp) eqn:Hb.
  - unfold show_task_monitor_page. rewrite Hb. by split.
  - split; [|done]. split; [|done].
    destruct (view_boundary w) as [_ [_ [_ [Ht _]]]].
    destruct (Ht inp Hb s) as [a Ha]. rewrite Ha. done.
Qed.

(** X4.  The stock code a collaborator receives never starts or ends with white
    space, and it is the text entered without the white space at its ends. *)
Theorem sent_codes_are_trimmed (s : session) :
  (forall (inp : AnalysisInputs) code r f q n,
      Call_analyze_stock code r f q n
        ∈ calls_of (trace_of (show_analysis_page w inp s)) ->
      trimmed code
      /\ exists p p', a_stock_code inp = p ++ code ++ p'
                      /\ blank p = true /\ blank p' = true)
  /\ (forall (inp : HistoryInputs) code d p l,
        Call_get_history_list (Some code) d p l
          ∈ calls_of (trace_of (show_history_page w inp s)) ->
        trimmed code
        /\ exists p p', h_stock_code_filter inp = p ++ code ++ p'
                        /\ blank p = true /\ blank p' = true)
  /\ (forall (inp : QuoteInputs) code,
        Call_get_realtime_quote code
          ∈ calls_of (trace_of (show_stock_quote_page w inp s))
        \/ (exists period days,
              Call_get_history_data code period days
                ∈ calls_of (trace_of (show_stock_quote_page w inp s))) ->
        trimmed code
        /\ exists p p', q_stock_code inp = p ++ code ++ p'
                        /\ blank p = true /\ blank p' = true).
Proof.
  split; [|split].
  - intros inp code r f q n Hin.
    destruct (analysis_calls w inp s) as [H | [_ [_ H]]]; rewrite H in Hin.
    + by apply elem_of_nil in Hin.
    + apply list_elem_of_singleton in Hin. injection Hin as -> _ _ _ _.
      split; [apply strip_trimmed | apply strip_split].
  - intros inp code d p l Hin.
    destruct (history_calls w inp s) as [H | [_ H]]; rewrite H in Hin.
    + by apply elem_of_nil in Hin.
    + apply list_elem_of_singleton in Hin. injection Hin as Hcode _ _ _.
      unfold history_stock_code in Hcode.
      destruct (str_truthy (h_stock_code_filter inp)); [|done].
      injection Hcode as ->.
      split; [apply strip_trimmed | apply strip_split].
  - intros inp code Hin.
    assert (code = strip (q_stock_code inp)) as ->;
      [|split; [apply strip_trimmed | apply strip_split]].
    destruct (quote_calls w inp s) as [H | [_ [_ [H | [_ H]]]]];
      rewrite H in Hin; destruct Hin as [Hin | [period [days Hin]]];
      repeat (apply elem_of_cons in Hin as [Hin | Hin]);
      try (by apply elem_of_nil in Hin); try done; congruence.
Qed.

(** X5.  After a click, the analysis service is called with the empty string
    exactly when the text entered is not empty and made of white space only;
    the history service gets the empty string as its filter in the same
    case, and null only for the empty text. *)
Theorem blank_code_is_sent_empty (s : session) :
  (forall inp : AnalysisInputs,
      a_button inp = true ->
      s !! "analysis_service" = Some (SHandle AnalysisService) ->
      (calls_of (trace_of (show_analysis_page w inp s))
       = [Call_analyze_stock [] (a_report_type inp) (a_force_refresh inp)
            (w_uuid4_hex w) (a_send_notification inp)]
       <-> a_stock_code inp <> [] /\ blank (a_stock_code inp) = true))
  /\ (forall inp : HistoryInputs,
        (history_stock_code (h_stock_code_filter inp) = Some []
         <-> h_stock_code_filter inp <> []
             /\ blank (h_stock_code_filter inp) = true)
        /\ (history_stock_code (h_stock_code_filter inp) = None
            <-> h_stock_code_filter inp = [])).
Proof.
  split.
  - intros inp Hb Hs. split.
    + intros Hcalls.
      destruct (analysis_calls w inp s) as [H | [_ [Hc H]]];
        rewrite H in Hcalls; [done|].
      split; [done|]. apply strip_blank. congruence.
    + intros [Hc Hblank].
      rewrite (analysis_call w s inp Hb Hc Hs).
      by rewrite (proj2 (strip_blank _) Hblank).
  - intros inp. unfold history_stock_code.
    destruct (h_stock_code_filter inp) as [|c code] eqn:Hf; simpl.
    + repeat split; try done. by intros [].
    + split; [|by split]. split.
      * intros Hcode. split; [done|].
        apply (proj1 (strip_blank (c :: code))). congruence.
      * intros [_ Hblank].
        by rewrite (proj2 (strip_blank (c :: code)) Hblank).
Qed.

(** X6.  A report that is not a dict is shown as it is, as one markdown block,
    between the header of the stock and the query id. *)
Theorem raw_report_is_shown_verbatim (d : list (pystr * pyval))
    (report : pyval) (query_id : pystr) (s : session) :
  dict_get (lit "report") d = Some report ->
  (forall r, report <> VDict r) ->
  render_analysis_result (VDict d) query_id s
  = (Ok tt, s,
     [Render (Alert MSuccess (lit "分析完成！"));
      Render (Markdown (lit "---"));
      Render (Subheader
                (lit "📈 " ++ py_str (default NA (dict_get (lit "stock_name") d))
                 ++ lit " ("
                 ++ py_str (default NA (dict_get (lit "stock_code") d))
                 ++ lit ")"));
      Render (Markdown (py_str report));
      Render (Caption (lit "查询 ID: " ++ query_id))]).
Proof.
  intros Hreport Hraw. unfold render_analysis_result.
  destruct d as [|kv d]; [done|]. run.
  rewrite Hreport.
  rewrite bool_decide_eq_true_2 by (by eexists). run.
  destruct report; try done. by destruct (Hraw d0).
Qed.
End Requests2.

Section Logging.
Context {rt : PyRuntime} {ts : TaskStatusEnum}.
Variable w : World.

Lemma no_log_logs_of (t : list event) : Forall no_log t -> logs_of t = [].
Proof.
  induction 1 as [|ev t Hev _ IH]; [done|].
  destruct ev; try done; apply IH.
Qed.

Lemma logged_last_render (prefix label : pystr) (e : element)
    (k : unit -> M unit) (s : session) :
  logged_last prefix label (k tt s) ->
  logged_last prefix label (bind (render e) k s).
Proof.
  unfold logged_last. run. destruct (k tt s) as [[r s'] t]. run.
  intros [H | [t0 [msg [Ht H0]]]]; [by left|].
  right. exists (Render e :: t0), msg. by rewrite Ht.
Qed.

Lemma logged_last_try (prefix label : pystr) (body : M unit) (s : session) :
  quiet no_log body ->
  logged_last prefix label
    (try_except body
       (fun msg =>
          render (Alert MError (prefix ++ msg)) ;; log_exception label) s).
Proof.
  intros Hq. destruct (Hq s) as [_ Ht]. apply no_log_logs_of in Ht.
  unfold logged_last, try_except. unfold trace_of in *.
  destruct (body s) as [[[a|[msg|]] s1] t1]; run; auto.
  right. by exists t1, msg.
Qed.

Lemma logged_last_ret (prefix label : pystr) (k : unit -> M unit)
    (s : session) :
  logged_last prefix label (k tt s) ->
  logged_last prefix label (bind (ret tt) k s).
Proof.
  unfold logged_last. run. by destruct (k tt s) as [[r s'] t].
Qed.

Ltac logged_header := repeat apply logged_last_render.

(** X18.  A log line is written only by the exception handler of a view: it is the
    last event of the run, it follows the error box of the handler, and there
    is at most one in a run.  Validation errors, empty results and the
    failure of the K-line chart are not logged. *)
Theorem logging_discipline (s : session) :
  (forall inp, logged_last (lit "分析过程中发生错误: ") (lit "Analysis error")
                 (show_analysis_page w inp s))
  /\ (forall inp, logged_last (lit "查询失败: ") (lit "History query error")
                    (show_history_page w inp s))
  /\ (forall inp, logged_last (lit "查询失败: ") (lit "Stock quote error")
                    (show_stock_quote_page w inp s))
  /\ (forall inp, logged_last (lit "获取任务列表失败: ") (lit "Task monitor error")
                    (show_task_monitor_page w inp s))
  /\ logged_last (lit "加载配置失败: ") (lit "Config page error")
       (show_config_page w s).
Proof.
  split; [|split; [|split; [|split]]].
  - intros inp. unfold show_analysis_page. logged_header.
    destruct (a_button inp); [|by left].
    destruct (str_truthy (a_stock_code inp)); simpl; [|by left].
    logged_header. apply logged_last_try.
    unfold render_analysis_result, render_structured_report, when_key,
      render_operation_advice. quiet_auto.
  - intros inp. unfold show_history_page. logged_header.
    destruct (h_button inp); [|by left].
    logged_header. apply logged_last_try.
    unfold render_history_result. quiet_auto.
  - intros inp. unfold show_stock_quote_page. logged_header.
    destruct (q_button inp); [|by left].
    destruct (str_truthy (q_stock_code inp)); simpl; [|by left].
    logged_header. apply logged_last_try.
    unfold render_quote_result, render_quote_fields, render_kline. quiet_auto.
  - intros inp. unfold show_task_monitor_page. logged_header.
    destruct (t_refresh inp); [by left|].
    apply logged_last_ret.
    apply logged_last_try. unfold render_tasks, render_task. quiet_auto.
  - unfold show_config_page. logged_header. apply logged_last_try.
    unfold render_config, render_config_key. quiet_auto.
Qed.
End Logging.

Section Kline.
Context {rt : PyRuntime} {ts : TaskStatusEnum}.
Variable w : World.

Lemma quote_fields_return (quote : list (pystr * pyval)) (s : session) :
  formattable quote "change" ->
  formattable quote "change_percent" ->
  exists t, render_quote_fields (VDict quote) s = (Ok tt, s, t)
            /\ alerts t = [] /\ calls_of t = [] /\ logs_of t = [].
Proof.
  intros Hc Hp.
  destruct (formattable_get quote "change" Hc) as [change [Hchange _]].
  destruct (formattable_get quote "change_percent" Hp) as [pct [Hpct _]].
  unfold render_quote_fields, py_get. run.
  rewrite Hchange. run. rewrite Hpct. run. by eexists.
Qed.

Lemma quote_fields_no_chart (quote : pyval) :
  quiet no_chart (render_quote_fields quote).
Proof. unfold render_quote_fields. quiet_auto. Qed.

(** X10.  The K-line chart is an extra of the quote view.  When its call raises,
    the quote stays on the page: the view shows a warning with the message
    after the success box, logs nothing and returns.  When the call returns
    nothing to draw, the view shows neither a chart nor a message. *)
Theorem kline_failure_keeps_the_quote (inp : QuoteInputs)
    (quote : list (pystr * pyval)) (s : session) :
  q_button inp = true ->
  q_stock_code inp <> [] ->
  q_show_history inp = true ->
  s !! "stock_service" = Some (SHandle StockService) ->
  w_get_realtime_quote w (strip (q_stock_code inp)) = Returned (VDict quote) ->
  quote <> [] ->
  formattable quote "change" ->
  formattable quote "change_percent" ->
  (forall msg,
      w_get_history_data w (strip (q_stock_code inp)) (lit "daily") 30
      = Raised msg ->
      result_of (show_stock_quote_page w inp s) = Ok tt
      /\ alerts (trace_of (show_stock_quote_page w inp s))
         = [(MSuccess, lit "行情数据获取成功");
            (MWarning, lit "获取历史数据失败: " ++ msg)]
      /\ logs_of (trace_of (show_stock_quote_page w inp s)) = [])
  /\ (forall history,
        w_get_history_data w (strip (q_stock_code inp)) (lit "daily") 30
        = Returned history ->
        has_nonempty history (lit "data") = Val false ->
        result_of (show_stock_quote_page w inp s) = Ok tt
        /\ alerts (trace_of (show_stock_quote_page w inp s))
           = [(MSuccess, lit "行情数据获取成功")]
        /\ (forall series,
              Render (LineChart series)
                ∉ trace_of (show_stock_quote_page w inp s))).
Proof.
  intros Hb Hc Hshow Hs Hq Hne Hfc Hfp.
  destruct (quote_fields_return quote s Hfc Hfp) as [t [Ht [Ha [_ Hl]]]].
  assert (Hnochart : forall series, Render (LineChart series) ∉ t).
  { intros series Hin.
    destruct (quote_fields_no_chart (VDict quote) s) as [_ Hf].
    rewrite Ht in Hf. rewrite Forall_forall in Hf. exact (Hf _ Hin). }
  unfold show_stock_quote_page. rewrite Hb, Hshow.
  destruct (q_stock_code inp) as [|c code]; [done|].
  split.
  - intros msg Hh. run. rewrite Hs. run. rewrite Hq. run.
    unfold render_quote_result, render_kline.
    destruct quote as [|kv quote]; [done|]. run. rewrite Ht. run.
    rewrite Hs. run. rewrite Hh. run.
    unfold alerts, logs_of in *. rewrite !omap_app, Ha, Hl. done.
  - intros history Hh Hempty. run. rewrite Hs. run. rewrite Hq. run.
    unfold render_quote_result, render_kline.
    destruct quote as [|kv quote]; [done|]. run. rewrite Ht. run.
    rewrite Hs. run. rewrite Hh. run. rewrite Hempty. run.
    unfold alerts in *. rewrite !omap_app, Ha.
    split; [done|]. split; [done|].
    intros series Hin.
    repeat (apply elem_of_cons in Hin as [Hin | Hin]; [done|]).
    apply elem_of_app in Hin as [Hin | Hin]; [by apply (Hnochart series)|].
    repeat (apply elem_of_cons in Hin as [Hin | Hin]; [done|]).
    by apply elem_of_nil in Hin.
Qed.
End Kline.

Section Grouping.
Context {rt : PyRuntime} {ts : TaskStatusEnum}.

Lemma groups_append_perm (k : Status) (t : Task) (g : groups) :
  groups_has k g = true ->
  concat (map snd (groups_append k t g)) ≡ₚ t :: concat (map snd g).
Proof.
  induction g as [|[k' l] g IH]; simpl; [done|].
  destruct (decide (k' = k)) as [->|Hne]; simpl.
  - intros _. rewrite <- app_assoc. simpl.
    by rewrite <- Permutation_middle.
  - intros Hhas. rewrite (IH Hhas). by rewrite <- Permutation_middle.
Qed.

Lemma groups_has_snoc (k : Status) (g : groups) :
  groups_has k (g ++ [(k, [])]) = true.
Proof.
  induction g as [|[k' l] g IH]; simpl.
  - by rewrite decide_True.
  - by destruct (decide (k' = k)).
Qed.

Lemma group_step_perm (g : groups) (t : Task) :
  concat (map snd (group_step g t)) ≡ₚ t :: concat (map snd g).
Proof.
  unfold group_step. destruct (groups_has (status_of t) g) eqn:Hhas.
  - by apply groups_append_perm.
  - rewrite groups_append_perm by apply groups_has_snoc.
    by rewrite map_app, concat_app, app_nil_r.
Qed.

Lemma group_by_status_perm (tasks : list Task) :
  concat (map snd (group_by_status tasks)) ≡ₚ tasks.
Proof.
  induction tasks as [|t tasks IH] using rev_ind; [done|].
  rewrite group_by_status_snoc, group_step_perm, IH.
  by rewrite <- Permutation_cons_append.
Qed.

(** X12.  Grouping neither loses nor repeats a task: the groups, put end to end,
    are a rearrangement of the task list, and no group is empty. *)
Theorem grouping_keeps_every_task (tasks : list Task) :
  concat (map snd (group_by_status tasks)) ≡ₚ tasks
  /\ Forall (fun g => snd g <> []) (group_by_status tasks).
Proof.
  split; [apply group_by_status_perm|].
  - rewrite group_by_status_spec. apply Forall_forall.
    intros [k l] Hin. apply list_elem_of_In in Hin.
    apply in_map_iff in Hin as [k' [Heq Hk]].
    injection Heq as -> <-. simpl.
    apply list_elem_of_In in Hk.
    apply (proj1 (elem_of_first_seen _ _)) in Hk.
    apply list_elem_of_In in Hk. apply in_map_iff in Hk as [t [Hst Ht]].
    intros Hnil. apply list_elem_of_In in Ht.
    assert (Hin : t ∈ filter (fun t0 => status_of t0 = k) tasks)
      by (by apply list_elem_of_filter).
    rewrite Hnil in Hin. by apply elem_of_nil in Hin.
Qed.
End Grouping.

Section Sensitive.
Context {rt : PyRuntime}.

Lemma ascii_lower_upper (c : N) : ascii_lower (ascii_upper c) = ascii_lower c.
Proof.
  unfold ascii_lower, ascii_upper.
  repeat match goal with
         | |- context [(?a <=? ?b)%N] =>
             destruct (N.leb_spec a b); simpl in *
         end; lia.
Qed.

Lemma is_ascii_upper (s : pystr) :
  is_ascii s = true -> is_ascii (map ascii_upper s) = true.
Proof.
  unfold is_ascii. induction s as [|c s IH]; simpl; [done|].
  rewrite !andb_true_iff, !N.ltb_lt. intros [Hc Hs]. split; [|auto].
  unfold ascii_upper.
  destruct ((97 <=? c) && (c <=? 122))%N; lia.
Qed.

(** X14.  The test for a sensitive key does not depend on the case of ASCII
    letters: a key written in capitals is masked exactly when the key in
    small letters is. *)
Theorem sensitive_ignores_case (key : pystr) :
  is_ascii key = true ->
  is_sensitive (map ascii_upper key) = is_sensitive key.
Proof.
  intros Hascii. unfold is_sensitive, py_lower.
  rewrite (is_ascii_upper key Hascii), Hascii, map_map.
  by rewrite (map_ext _ _ ascii_lower_upper).
Qed.

(** X15.  Of the eleven keys of the section table six are masked: the two API
    keys, the two tokens and the two key lists.  The webhook URLs, the base
    URL, the model and the stock list are shown as they are. *)
Theorem masked_keys_of_the_table :
  List.filter is_sensitive (concat (map snd sections))
  = [lit "gemini_api_key"; lit "openai_api_key"; lit "telegram_bot_token";
     lit "tushare_token"; lit "tavily_api_keys"; lit "serpapi_keys"]
  /\ List.filter (fun key => negb (is_sensitive key))
       (concat (map snd sections))
     = [lit "openai_base_url"; lit "openai_model"; lit "wechat_webhook_url";
        lit "feishu_webhook_url"; lit "stock_list"].
Proof. split; vm_compute; reflexivity. Qed.
End Sensitive.

Section Script.
Context {rt : PyRuntime} {ts : TaskStatusEnum}.

(** [main] reads the config of the session outside of any [try]: when the
    session has none, the run ends with the attribute error after the
    sidebar, before any page is shown. *)
Lemma main_needs_config (w : World) (inp : Inputs) (s : session) :
  s !! "config" = None ->
  main w inp s
  = (Raise (Exception (error_text (SessionAttributeError "config"))), s,
     [Render (Sidebar (Title (lit "📈 股票智能分析系统")));
      Render (Sidebar (Markdown (lit "---")));
      Render (Sidebar (Widget Radio (lit "导航")
                         (map page_label [PageAnalysis; PageHistory; PageQuote;
                                          PageTasks; PageConfig])));
      Render (Sidebar (Markdown (lit "---")));
      Render (Sidebar (Markdown (lit "### 系统信息")))]).
Proof. intros Hs. unfold main. run. by rewrite Hs. Qed.

Lemma main_without_config (w : World) (inp : Inputs) (s : session) :
  s !! "config" = None ->
  result_of (main w inp s)
  = Raise (Exception (error_text (SessionAttributeError "config")))
  /\ session_of (main w inp s) = s
  /\ calls_of (trace_of (main w inp s)) = []
  /\ alerts (trace_of (main w inp s)) = [].
Proof. intros Hs. unfold main. run. by rewrite Hs. Qed.

(** X1.  The flag is set before anything is constructed.  When [get_config]
    raises in the first run, the run ends with that exception and the session
    keeps the flag without a config: no later run initializes again, and
    every later run ends in [main] with the attribute error, showing no page
    and calling nothing. *)
Theorem failed_config_is_never_retried (w : World) (inp : Inputs)
    (s : session) (msg : pystr) :
  s !! "initialized" = None ->
  s !! "config" = None ->
  w_get_config w = Raised msg ->
  script w inp s
  = (Raise (Exception msg), <["initialized" := SBool true]> s,
     [Render (SetPageConfig (lit "股票智能分析系统")); Call Call_get_config])
  /\ forall (w' : World) (inp' : Inputs),
       result_of (script w' inp' (<["initialized" := SBool true]> s))
       = Raise (Exception (error_text (SessionAttributeError "config")))
       /\ session_of (script w' inp' (<["initialized" := SBool true]> s))
          = <["initialized" := SBool true]> s
       /\ calls_of (trace_of (script w' inp' (<["initialized" := SBool true]> s)))
          = []
       /\ alerts (trace_of (script w' inp' (<["initialized" := SBool true]> s)))
          = [].
Proof.
  intros Hi Hc Hg. split.
  - unfold script, init_session. run. rewrite Hi. run. by rewrite Hg.
  - intros w' inp'.
    assert (Hflag : is_Some ((<["initialized" := SBool true]> s) !! "initialized"))
      by (rewrite lookup_insert_eq; by eexists).
    assert (Hcfg : (<["initialized" := SBool true]> s) !! "config" = None)
      by (by rewrite lookup_insert_ne).
    destruct (main_without_config w' inp' _ Hcfg) as [Hr [Hs [Hcalls Ha]]].
    unfold script. run. rewrite (init_session_again w' _ Hflag).
    destruct (main w' inp' (<["initialized" := SBool true]> s))
      as [[r s'] t]. run. by subst.
Qed.

(** X2.  When the constructor of the analysis service raises in the first run,
    the session keeps the flag and the config, without the service.  In every
    later run the analysis view ends in its error state, with the attribute
    error as its message, and [analyze_stock] is never called. *)
Theorem failed_service_is_never_retried (w : World) (inp : Inputs)
    (s : session) (c : Config) (msg : pystr) :
  s !! "initialized" = None ->
  s !! "analysis_service" = None ->
  w_get_config w = Returned c ->
  w_new w AnalysisService = Raised msg ->
  script w inp s
  = (Raise (Exception msg),
     <["config" := SConfig c]> (<["initialized" := SBool true]> s),
     [Render (SetPageConfig (lit "股票智能分析系统")); Call Call_get_config;
      Call (Call_new AnalysisService)])
  /\ forall (w' : World) (inp' : AnalysisInputs),
       a_button inp' = true ->
       a_stock_code inp' <> [] ->
       error_state
         (show_analysis_page w' inp'
            (<["config" := SConfig c]> (<["initialized" := SBool true]> s)))
         (<["config" := SConfig c]> (<["initialized" := SBool true]> s))
         (lit "分析过程中发生错误: "
          ++ error_text (SessionAttributeError "analysis_service"))
       /\ calls_of
            (trace_of
               (show_analysis_page w' inp'
                  (<["config" := SConfig c]>
                     (<["initialized" := SBool true]> s)))) = [].
Proof.
  intros Hi Ha Hg Hn. split.
  - unfold script, init_session, construct. run. rewrite Hi. run.
    rewrite Hg. run. by rewrite Hn.
  - intros w' inp' Hb Hc.
    assert (Hnone : (<["config" := SConfig c]>
                       (<["initialized" := SBool true]> s))
                    !! "analysis_service" = None)
      by (by rewrite !lookup_insert_ne).
    unfold error_state, view_state, show_analysis_page. rewrite Hb.
    destruct (a_stock_code inp') as [|x code]; [done|].
    run. by rewrite Hnone.
Qed.
End Script.

Section History.
Context {rt : PyRuntime}.

Lemma map_res_all {A B : Type} (f : A -> res B) (l : list A) :
  Forall (fun x => exists y, f x = Val y) l ->
  exists ys, map_res f l = Val ys /\ length ys = length l.
Proof.
  induction 1 as [|x l [y Hy] _ [ys [Hys Hlen]]]; simpl.
  - by exists [].
  - rewrite Hy, Hys. simpl. exists (y :: ys). by rewrite <- Hlen.
Qed.

(** The first element that fails decides: the elements before it return. *)
Lemma map_res_first_failure {A B : Type} (f : A -> res B) (l : list A)
    (msg : pystr) :
  Forall (fun x => (exists y, f x = Val y) \/ f x = Exc msg) l ->
  Exists (fun x => f x = Exc msg) l ->
  map_res f l = Exc msg.
Proof.
  induction 1 as [|x l Hx Hl IH]; intros Hex.
  - by apply Exists_nil in Hex.
  - simpl. destruct Hx as [[y Hy] | Hx]; [|by rewrite Hx].
    rewrite Hy. simpl. apply Exists_cons in Hex as [Hex | Hex]; [congruence|].
    by rewrite (IH Hex).
Qed.

Lemma option_label_at (items : list pyval) (x : nat) (item : pyval) :
  items !! x = Some item ->
  history_option_label (VList items) x = record_label item.
Proof.
  intros Hx. unfold history_option_label, record_label. simpl. rewrite Hx.
  simpl. destruct (py_getitem item (lit "meta")) as [meta|]; simpl; [|done].
  destruct (py_get meta "stock_name" NA); simpl; [|done].
  by destruct (py_get meta "created_at" NA).
Qed.

Lemma option_labels_seq (pre l : list pyval) :
  map_res (history_option_label (VList (pre ++ l)))
    (seq (length pre) (length l))
  = map_res record_label l.
Proof.
  revert pre. induction l as [|x l IH]; intros pre; [done|].
  cbn [length seq map_res].
  rewrite (option_label_at (pre ++ x :: l) (length pre) x)
    by (by rewrite lookup_app_r, Nat.sub_diag by lia).
  specialize (IH (pre ++ [x])).
  rewrite <- app_assoc, length_app in IH. simpl in IH.
  rewrite Nat.add_1_r in IH. by rewrite IH.
Qed.

Lemma option_labels (items : list pyval) :
  map_res (history_option_label (VList items)) (seq 0 (length items))
  = map_res record_label items.
Proof. apply (option_labels_seq [] items). Qed.

Lemma history_row_listable (item : pyval) :
  listable item -> exists row, history_row item = Val row.
Proof.
  intros [d [-> [Hmeta | [m Hmeta]]]]; unfold history_row; simpl;
    rewrite Hmeta; simpl; by eexists.
Qed.

Lemma record_label_has_meta (item : pyval) :
  has_meta item -> exists label, record_label item = Val label.
Proof.
  intros [d [m [-> Hmeta]]]. unfold record_label. simpl. rewrite Hmeta.
  simpl. by eexists.
Qed.

Lemma record_label_lacks_meta (item : pyval) :
  lacks_meta item ->
  record_label item = Exc (error_text (KeyError (VStr (lit "meta")))).
Proof.
  intros [d [-> Hmeta]]. unfold record_label. simpl. by rewrite Hmeta.
Qed.

Lemma record_label_listable (item : pyval) :
  listable item ->
  (exists label, record_label item = Val label)
  \/ record_label item = Exc (error_text (KeyError (VStr (lit "meta")))).
Proof.
  intros [d [-> [Hmeta | [m Hmeta]]]].
  - right. apply record_label_lacks_meta. by exists d.
  - left. apply record_label_has_meta. by exists d, m.
Qed.

Lemma has_nonempty_items (result : list (pystr * pyval)) (items : list pyval) :
  dict_get (lit "items") result = Some (VList items) ->
  items <> [] ->
  has_nonempty (VDict result) (lit "items") = Val true.
Proof.
  intros Hitems Hne. unfold has_nonempty.
  destruct result as [|kv result]; [done|].
  cbn -[lit dict_get]. rewrite Hitems.
  rewrite bool_decide_eq_true_2 by (by eexists). simpl.
  by destruct items.
Qed.

(** X8.  A page of records that all have a "meta" dict is shown in full: the
    success box with the total the service reported (0 when it reported
    none), a table with one row per record, a selectbox with one label per
    record, and the report of the selected record when it has one. *)
Theorem history_page_of_records (result : list (pystr * pyval))
    (items : list pyval) (selected_idx : option nat) (s : session) :
  dict_get (lit "items") result = Some (VList items) ->
  items <> [] ->
  Forall has_meta items ->
  (forall i, selected_idx = Some i -> (i < length items)%nat) ->
  exists rows labels,
    render_history_result (VDict result) selected_idx s
    = (Ok tt, s,
       [Render (Alert MSuccess
                  (lit "找到 "
                   ++ py_str (default (VInt 0) (dict_get (lit "total") result))
                   ++ lit " 条记录"));
        Render (Dataframe rows);
        Render (Markdown (lit "---"));
        Render (Subheader (lit "📄 查看详细报告"));
        Render (Widget Selectbox (lit "选择记录") labels)]
       ++ selected_report items selected_idx)
    /\ length rows = length items
    /\ length labels = length items.
Proof.
  intros Hitems Hne Hmeta Hsel.
  assert (Hrows : exists rows, map_res history_row items = Val rows
                               /\ length rows = length items).
  { apply map_res_all. eapply Forall_impl; [exact Hmeta|].
    intros item [d [m [-> Hm]]]. apply history_row_listable.
    exists d. split; [done|]. right. by exists m. }
  assert (Hlabels : exists labels, map_res record_label items = Val labels
                                   /\ length labels = length items).
  { apply map_res_all. eapply Forall_impl; [exact Hmeta|].
    apply record_label_has_meta. }
  destruct Hrows as [rows [Hrows Hlr]], Hlabels as [labels [Hlabels Hll]].
  exists rows, labels. split; [|done].
  unfold render_history_result. run.
  rewrite (has_nonempty_items result items Hitems Hne). run.
  rewrite Hitems. run. rewrite Hrows. run.
  destruct rows as [|row rows]; [destruct items; done|]. run.
  rewrite option_labels, Hlabels. run.
  unfold selected_report.
  destruct selected_idx as [i|]; [|done]. run.
  destruct (lookup_lt_is_Some_2 items i (Hsel i eq_refl)) as [item Hi].
  rewrite Hi. run.
  rewrite Forall_forall in Hmeta.
  destruct (Hmeta item) as [d [m [-> _]]];
    [by apply list_elem_of_lookup; exists i|].
  run. destruct (dict_get (lit "report") d) as [report|] eqn:Hr.
  - rewrite bool_decide_eq_true_2 by (by eexists). by run.
  - rewrite bool_decide_eq_false_2 by (by intros [x Hx]). done.
Qed.

(** X9.  The table lists a record without "meta" with "N/A" in every column, but
    the labels of the selectbox read [item['meta']]: one such record is
    enough for the view to stop after the table with the KeyError, which its
    handler then shows. *)
Theorem history_record_without_meta (result : list (pystr * pyval))
    (items : list pyval) (selected_idx : option nat) (s : session) :
  dict_get (lit "items") result = Some (VList items) ->
  Forall listable items ->
  Exists lacks_meta items ->
  exists rows,
    render_history_result (VDict result) selected_idx s
    = (Raise (Exception (error_text (KeyError (VStr (lit "meta"))))), s,
       [Render (Alert MSuccess
                  (lit "找到 "
                   ++ py_str (default (VInt 0) (dict_get (lit "total") result))
                   ++ lit " 条记录"));
        Render (Dataframe rows);
        Render (Markdown (lit "---"));
        Render (Subheader (lit "📄 查看详细报告"))])
    /\ length rows = length items.
Proof.
  intros Hitems Hlist Hlack.
  assert (Hne : items <> []) by (intros ->; by apply Exists_nil in Hlack).
  assert (Hrows : exists rows, map_res history_row items = Val rows
                               /\ length rows = length items).
  { apply map_res_all. eapply Forall_impl; [exact Hlist|].
    apply history_row_listable. }
  assert (Hlabels : map_res record_label items
                    = Exc (error_text (KeyError (VStr (lit "meta"))))).
  { apply map_res_first_failure.
    - eapply Forall_impl; [exact Hlist|]. apply record_label_listable.
    - eapply Exists_impl; [exact Hlack|]. apply record_label_lacks_meta. }
  destruct Hrows as [rows [Hrows Hlr]]. exists rows. split; [|done].
  unfold render_history_result. run.
  rewrite (has_nonempty_items result items Hitems Hne). run.
  rewrite Hitems. run. rewrite Hrows. run.
  destruct rows as [|row rows]; [destruct items; done|]. run.
  by rewrite option_labels, Hlabels.
Qed.
End History.

Section ConfigFields.
Context {rt : PyRuntime} {ts : TaskStatusEnum}.

Lemma for_each_ok {A : Type} (l : list A) (body : A -> M unit)
    (f : A -> list event) (s : session) :
  Forall (fun x => body x s = (Ok tt, s, f x)) l ->
  for_each l body s = (Ok tt, s, concat (map f l)).
Proof.
  induction 1 as [|x l Hx _ IH]; [done|].
  simpl. unfold bind. by rewrite Hx, IH.
Qed.

Lemma config_key_shown (d : list (pystr * pyval)) (key : pystr) (s : session) :
  displayable d key ->
  render_config_key (VDict d) key s = (Ok tt, s, config_fields d [key]).
Proof.
  intros Hd. unfold render_config_key, config_fields, config_field. run.
  destruct (dict_get key d) as [value|] eqn:Hkey.
  - rewrite bool_decide_eq_true_2 by (by eexists). run.
    destruct (Hd value Hkey) as [shown Hshown]. rewrite Hshown. by run.
  - rewrite bool_decide_eq_false_2 by (by intros [x Hx]). done.
Qed.

Lemma config_key_fails (d : list (pystr * pyval)) (key : pystr) (value : pyval)
    (msg : pystr) (s : session) :
  dict_get key d = Some value ->
  display_value key value = Exc msg ->
  render_config_key (VDict d) key s = (Raise (Exception msg), s, []).
Proof.
  intros Hkey Hv. unfold render_config_key. run. rewrite Hkey.
  rewrite bool_decide_eq_true_2 by (by eexists). run. by rewrite Hv.
Qed.

Lemma config_fields_cons (d : list (pystr * pyval)) (key : pystr)
    (keys : list pystr) :
  config_fields d (key :: keys) = config_fields d [key] ++ config_fields d keys.
Proof.
  unfold config_fields. simpl. by destruct (config_field d key).
Qed.

Lemma config_section_shown (d : list (pystr * pyval)) (keys : list pystr)
    (s : session) :
  Forall (displayable d) keys ->
  for_each keys (render_config_key (VDict d)) s
  = (Ok tt, s, config_fields d keys).
Proof.
  induction 1 as [|key keys Hkey _ IH]; [done|].
  simpl. unfold bind. rewrite (config_key_shown d key s Hkey), IH.
  by rewrite (config_fields_cons d key keys).
Qed.

Lemma config_found (config_data : list (pystr * pyval)) (v : pyval) :
  dict_get (lit "config") config_data = Some v ->
  (if truthy (VDict config_data)
   then py_contains (lit "config") (VDict config_data)
   else Val false) = Val true.
Proof.
  intros Hconfig. destruct config_data as [|kv config_data]; [done|].
  cbn -[lit dict_get]. rewrite Hconfig.
  by rewrite bool_decide_eq_true_2 by (by eexists).
Qed.

#[local] Arguments for_each : simpl never.

(** X16.  A config mapping whose values can all be displayed is shown in full: the
    four sections in the order of the table, each with its expander even when
    none of its keys is present, and under it one text input for every key
    of the section that the mapping has, in the order of the table. *)
Theorem config_page_shows_every_present_key (w : World) (s : session)
    (config_data d : list (pystr * pyval)) :
  s !! "system_config_service" = Some (SHandle SystemConfigService) ->
  w_system_get_config w true = Returned (VDict config_data) ->
  dict_get (lit "config") config_data = Some (VDict d) ->
  Forall (displayable d) table_keys ->
  show_config_page w s
  = (Ok tt, s,
     [Render (Title (lit "⚙️ 系统配置"));
      Render (Markdown (lit "查看和管理系统配置"));
      Call (Call_system_get_config true);
      Render (Markdown (lit "### 当前配置"))]
     ++ concat (map (fun section =>
                       Render (Expander (fst section))
                       :: config_fields d (snd section)) sections)
     ++ [Render (Alert MInfo
                   (lit "⚠️ 配置修改需要在 .env 文件中进行，修改后需要重启应用"))]).
Proof.
  intros Hs Hw Hconfig Hd.
  assert (Hsections :
    for_each sections
      (fun '(section_name, keys) =>
         render (Expander section_name) ;;
         for_each keys (render_config_key (VDict d))) s
    = (Ok tt, s,
       concat (map (fun section =>
                      Render (Expander (fst section))
                      :: config_fields d (snd section)) sections))).
  { apply for_each_ok. unfold table_keys in Hd.
    apply Forall_concat in Hd. rewrite List.Forall_map in Hd.
    eapply Forall_impl; [exact Hd|].
    intros [name keys] Hkeys. simpl in Hkeys. unfold bind, render, emit.
    by rewrite (config_section_shown d keys s Hkeys). }
  unfold show_config_page. run. rewrite Hs. run. rewrite Hw. run.
  unfold render_config. rewrite (config_found _ _ Hconfig). run.
  rewrite Hconfig. run.
  rewrite Hsections. by run.
Qed.
End ConfigFields.

Section ConfigFailure.
Context {rt : PyRuntime} {ts : TaskStatusEnum}.

Lemma before_absent (key : pystr) (l : list pystr) :
  key ∉ l -> before key l = l.
Proof.
  induction l as [|k l IH]; [done|]. intros Hnot. simpl.
  rewrite decide_False by (intros ->; apply Hnot; by left).
  rewrite IH; [done|]. intros Hin. apply Hnot. by right.
Qed.

Lemma before_app (key : pystr) (l1 l2 : list pystr) :
  before key (l1 ++ l2)
  = if bool_decide (key ∈ l1) then before key l1 else l1 ++ before key l2.
Proof.
  induction l1 as [|k l1 IH]; cbn [before app].
  - by rewrite bool_decide_eq_false_2 by apply not_elem_of_nil.
  - destruct (decide (k = key)) as [->|Hne].
    + by rewrite bool_decide_eq_true_2 by (by left).
    + rewrite IH. destruct (bool_decide (key ∈ l1)) eqn:Hin.
      * apply bool_decide_eq_true_1 in Hin.
        by rewrite bool_decide_eq_true_2 by (by right).
      * apply bool_decide_eq_false_1 in Hin.
        rewrite bool_decide_eq_false_2; [done|].
        intros Hin'. apply elem_of_cons in Hin' as [->|Hin']; done.
Qed.

Lemma text_inputs_config_fields (d : list (pystr * pyval)) (keys : list pystr) :
  text_inputs (config_fields d keys) = omap (config_field d) keys
  /\ alerts (config_fields d keys) = [].
Proof.
  unfold config_fields.
  induction (omap (config_field d) keys) as [|[k v] l [IH1 IH2]]; [done|].
  simpl. by rewrite IH1.
Qed.

(** The keys of a section are shown up to the first occurrence of a key whose
    value cannot be displayed. *)
Lemma config_section_fails (d : list (pystr * pyval)) (key : pystr)
    (value : pyval) (msg : pystr) (keys : list pystr) (s : session) :
  dict_get key d = Some value ->
  display_value key value = Exc msg ->
  Forall (fun k => k <> key -> displayable d k) keys ->
  for_each keys (render_config_key (VDict d)) s
  = (if bool_decide (key ∈ keys) then Raise (Exception msg) else Ok tt, s,
     config_fields d (before key keys)).
Proof.
  intros Hkey Hv. induction 1 as [|k keys Hk _ IH].
  - by rewrite bool_decide_eq_false_2 by apply not_elem_of_nil.
  - simpl. unfold bind. destruct (decide (k = key)) as [->|Hne].
    + rewrite (config_key_fails d key value msg s Hkey Hv).
      by rewrite bool_decide_eq_true_2 by (by left).
    + rewrite (config_key_shown d k s (Hk Hne)), IH.
      rewrite (config_fields_cons d k (before key keys)).
      destruct (bool_decide (key ∈ keys)) eqn:Hin.
      * apply bool_decide_eq_true_1 in Hin.
        by rewrite bool_decide_eq_true_2 by (by right).
      * apply bool_decide_eq_false_1 in Hin.
        rewrite bool_decide_eq_false_2; [done|].
        intros Hin'. apply elem_of_cons in Hin' as [->|Hin']; done.
Qed.

Lemma config_sections_fail (d : list (pystr * pyval)) (key : pystr)
    (value : pyval) (msg : pystr) (secs : list (pystr * list pystr))
    (s : session) :
  dict_get key d = Some value ->
  display_value key value = Exc msg ->
  Forall (fun k => k <> key -> displayable d k) (concat (map snd secs)) ->
  exists t,
    for_each secs
      (fun '(section_name, keys) =>
         render (Expander section_name) ;;
         for_each keys (render_config_key (VDict d))) s
    = (if bool_decide (key ∈ concat (map snd secs))
       then Raise (Exception msg) else Ok tt, s, t)
    /\ text_inputs t
       = omap (config_field d) (before key (concat (map snd secs)))
    /\ alerts t = [].
Proof.
  intros Hkey Hv. induction secs as [|[name keys] secs IH]; intros Hd.
  - exists []. by rewrite bool_decide_eq_false_2 by apply not_elem_of_nil.
  - simpl in Hd. apply Forall_app in Hd as [Hkeys Hrest].
    destruct (IH Hrest) as [t [Ht [Hinputs Halerts]]].
    cbn [for_each map snd concat]. unfold bind at 1. unfold bind at 1.
    cbn [render emit].
    rewrite (config_section_fails d key value msg keys s Hkey Hv Hkeys).
    rewrite before_app.
    destruct (text_inputs_config_fields d (before key keys)) as [Hf Ha].
    destruct (bool_decide (key ∈ keys)) eqn:Hin.
    + apply bool_decide_eq_true_1 in Hin.
      rewrite bool_decide_eq_true_2 by (apply elem_of_app; by left).
      eexists. split; [done|]. by split.
    + apply bool_decide_eq_false_1 in Hin. rewrite Ht.
      rewrite (before_absent key keys Hin) in *.
      eexists. split; [|split].
      * f_equal. f_equal.
        destruct (bool_decide (key ∈ concat (map snd secs))) eqn:Hin2.
        -- apply bool_decide_eq_true_1 in Hin2.
           by rewrite bool_decide_eq_true_2 by (apply elem_of_app; by right).
        -- apply bool_decide_eq_false_1 in Hin2.
           rewrite bool_decide_eq_false_2; [done|].
           intros Hin'. apply elem_of_app in Hin' as [?|?]; done.
      * unfold text_inputs in *. cbn [omap app]. simpl.
        by rewrite !omap_app, Hf, Hinputs.
      * unfold alerts in *. simpl. by rewrite !omap_app, Ha, Halerts.
Qed.

Lemma unsized_secret (key : pystr) (value : pyval) :
  is_sensitive key = true ->
  unsized value = true ->
  truthy value = true ->
  display_value key value = Exc (error_text (NoLen value)).
Proof.
  intros Hkey Hu Ht. unfold display_value, mask_value. rewrite Hkey, Ht.
  by destruct value.
Qed.

#[local] Arguments for_each : simpl never.

(** X17.  The value of a masked key is measured with [len]: a number or [True]
    under such a key makes the view fail.  The text inputs of the keys before
    it in the table are on the page by then; the view shows the TypeError in
    its error box instead of the remaining keys and the closing note. *)
Theorem number_under_masked_key_breaks_config_page (w : World) (s : session)
    (config_data d : list (pystr * pyval)) (key : pystr) (value : pyval) :
  s !! "system_config_service" = Some (SHandle SystemConfigService) ->
  w_system_get_config w true = Returned (VDict config_data) ->
  dict_get (lit "config") config_data = Some (VDict d) ->
  key ∈ table_keys ->
  is_sensitive key = true ->
  dict_get key d = Some value ->
  unsized value = true ->
  truthy value = true ->
  Forall (fun k => k <> key -> displayable d k) table_keys ->
  result_of (show_config_page w s) = Ok tt
  /\ session_of (show_config_page w s) = s
  /\ alerts (trace_of (show_config_page w s))
     = [(MError, lit "加载配置失败: " ++ error_text (NoLen value))]
  /\ text_inputs (trace_of (show_config_page w s))
     = omap (config_field d) (before key table_keys).
Proof.
  intros Hs Hw Hconfig Hin Hsens Hkey Hu Ht Hd.
  destruct (config_sections_fail d key value _ sections s Hkey
              (unsized_secret key value Hsens Hu Ht) Hd)
    as [t [Hsections [Hinputs Halerts]]].
  fold table_keys in Hsections, Hinputs.
  rewrite bool_decide_eq_true_2 in Hsections by done.
  remember (omap (config_field d) (before key table_keys)) as fields.
  clear Hin Hd Heqfields.
  unfold show_config_page. run. rewrite Hs. run. rewrite Hw. run.
  unfold render_config. rewrite (config_found _ _ Hconfig). run.
  rewrite Hconfig. run.
  rewrite Hsections. run.
  unfold alerts, text_inputs in *. rewrite !omap_app, Halerts, Hinputs.
  simpl. by rewrite app_nil_r.
Qed.
End ConfigFailure.

Section Advice.
Context {rt : PyRuntime} {ts : TaskStatusEnum}.
Variable w : World.

(** X7.  The advice of a structured report is searched with [in]: an advice that
    is null or a number makes the view fail after the success box (and the
    summary, when the report has one) is on the page.  The error box of the
    handler follows, the failure is logged, and the rest of the report and
    the query id are not shown. *)
Theorem advice_without_text_breaks_report (inp : AnalysisInputs) (s : session)
    (result report : list (pystr * pyval)) (advice : pyval) :
  a_button inp = true ->
  a_stock_code inp <> [] ->
  s !! "analysis_service" = Some (SHandle AnalysisService) ->
  w_analyze_stock w (strip (a_stock_code inp)) (a_report_type inp)
    (a_force_refresh inp) (w_uuid4_hex w) (a_send_notification inp)
  = Returned (VDict result) ->
  dict_get (lit "report") result = Some (VDict report) ->
  dict_get (lit "operation_advice") report = Some advice ->
  unsized advice = true ->
  result_of (show_analysis_page w inp s) = Ok tt
  /\ alerts (trace_of (show_analysis_page w inp s))
     = (MSuccess, lit "分析完成！")
       :: match dict_get (lit "summary") report with
          | Some summary => [(MInfo, py_str summary)]
          | None => []
          end
       ++ [(MError,
            lit "分析过程中发生错误: " ++ error_text (NotIterable advice))]
  /\ logs_of (trace_of (show_analysis_page w inp s)) = [lit "Analysis error"]
  /\ (forall text,
        Render (Caption text) ∉ trace_of (show_analysis_page w inp s)).
Proof.
  intros Hb Hc Hs Hw Hreport Hadvice Hu.
  assert (Hin : py_contains (lit "买入") advice
                = Exc (error_text (NotIterable advice)))
    by (by destruct advice).
  unfold show_analysis_page. rewrite Hb.
  destruct (a_stock_code inp) as [|c code]; [done|]. run.
  rewrite Hs. run. rewrite Hw. run.
  unfold render_analysis_result.
  destruct result as [|kv result]; [done|]. run.
  rewrite Hreport. rewrite bool_decide_eq_true_2 by (by eexists). run.
  unfold render_structured_report, when_key, render_operation_advice.
  rewrite Hadvice.
  destruct (dict_get (lit "summary") report) as [summary|]; run;
    rewrite Hin; run; (split; [done|]; split; [done|]; split; [done|]);
    intros text Hcap;
    repeat (apply elem_of_cons in Hcap as [Hcap | Hcap]; [done|]);
    by apply elem_of_nil in Hcap.
Qed.
End Advice.

Section TaskRows.
Context {rt : PyRuntime} {ts : TaskStatusEnum}.
Variable w : World.

Lemma render_task_row (task : Task) (s : session) :
  exists m text,
    render_task task s
    = (Ok tt, s,
       map (fun line => Render (Text line)) (task_lines task)
       ++ [Render (Alert m text)]).
Proof.
  unfold render_task. run.
  destruct (task_status task) as [st|]; [|by eexists _, _].
  repeat (destruct (decide _); [by eexists _, _|]). by eexists _, _.
Qed.

Lemma render_task_rows (l : list Task) (s : session) :
  exists t,
    for_each l render_task s = (Ok tt, s, t)
    /\ texts t = concat (map task_lines l)
    /\ length (alerts t) = length l.
Proof.
  induction l as [|task l [t [Hl [Ht Ha]]]]; [by exists []|].
  destruct (render_task_row task s) as [m [text Hrow]].
  simpl. unfold bind. rewrite Hrow, Hl. eexists. split; [done|].
  unfold texts, alerts in *. rewrite !omap_app, Ht.
  split; [done|]. rewrite !length_app, Ha. done.
Qed.

Lemma render_task_groups (g : groups) (s : session) :
  exists t,
    for_each g
      (fun '(status, task_list) =>
         render (Expander (status_str status ++ lit " ("
                           ++ dec_Z (Z.of_nat (length task_list)) ++ lit ")")) ;;
         for_each task_list render_task) s
    = (Ok tt, s, t)
    /\ texts t = concat (map task_lines (concat (map snd g)))
    /\ length (alerts t) = length (concat (map snd g)).
Proof.
  induction g as [|[status l] g [t [Hg [Ht Ha]]]]; [by exists []|].
  destruct (render_task_rows l s) as [t1 [Hl [Ht1 Ha1]]].
  cbn [for_each map snd concat]. unfold bind at 1. unfold bind at 1.
  cbn [render emit]. rewrite Hl, Hg. eexists. split; [done|].
  unfold texts, alerts in *. cbn [app omap]. simpl.
  rewrite !omap_app, Ht1, Ht, map_app, concat_app.
  split; [done|]. by rewrite !length_app, Ha1, Ha.
Qed.

#[local] Arguments for_each : simpl never.

(** X13.  The task monitor shows every task of the list exactly once, whatever the
    statuses are: its text lines are those of the tasks in the order of the
    groups, which is a rearrangement of the list, and it shows one status box
    per task after the box with the total. *)
Theorem task_monitor_shows_every_task (inp : TaskInputs) (s : session)
    (tasks : list Task) :
  t_refresh inp = false ->
  w_get_task_queue w = Returned tt ->
  w_list_tasks w 50 = Returned (Some tasks) ->
  tasks <> [] ->
  result_of (show_task_monitor_page w inp s) = Ok tt
  /\ (exists shown,
        shown ≡ₚ tasks
        /\ texts (trace_of (show_task_monitor_page w inp s))
           = concat (map task_lines shown))
  /\ (exists boxes,
        alerts (trace_of (show_task_monitor_page w inp s))
        = (MSuccess,
           lit "当前有 " ++ dec_Z (Z.of_nat (length tasks)) ++ lit " 个任务")
          :: boxes
        /\ length boxes = length tasks).
Proof.
  intros Hb Hq Hl Hne.
  destruct (render_task_groups (group_by_status tasks) s)
    as [t [Hg [Ht Ha]]].
  pose proof (group_by_status_perm tasks) as Hperm.
  rewrite (Permutation_length Hperm) in Ha.
  unfold show_task_monitor_page. rewrite Hb. run. rewrite Hq. run.
  rewrite Hl. run. unfold render_tasks.
  destruct tasks as [|task tasks]; [done|].
  remember (task :: tasks) as all. clear Heqall Hne. run.
  rewrite Hg. run. split; [done|]. split.
  - exists (concat (map snd (group_by_status all))). by split.
  - by exists (alerts t).
Qed.
End TaskRows.

(** ** The further properties on sample inputs *)

Section MoreSamples.
#[local] Existing Instance sample_runtime.
#[local] Existing Instance str_status.

Lemma sent_codes_witness :
  trimmed (lit "600519")
  /\ exists p p', a_stock_code (analysis_inputs (lit " 600519 "))
                  = p ++ lit "600519" ++ p'
                  /\ blank p = true /\ blank p' = true.
Proof.
  apply (proj1 (sent_codes_are_trimmed analysis_world ready_session)
           (analysis_inputs (lit " 600519 ")) (lit "600519") detailed false
           (lit "3f2b8c1e9d4a4b6f8a7c5e2d1f0b9a8c") true).
  apply list_elem_of_In. vm_compute. left. reflexivity.
Defined.

Lemma blank_code_witness :
  calls_of (trace_of (show_analysis_page silent_world
                        (analysis_inputs (lit "  ")) ready_session))
  = [Call_analyze_stock [] (a_report_type (analysis_inputs (lit "  ")))
       (a_force_refresh (analysis_inputs (lit "  ")))
       (w_uuid4_hex silent_world)
       (a_send_notification (analysis_inputs (lit "  ")))]
  <-> a_stock_code (analysis_inputs (lit "  ")) <> []
      /\ blank (a_stock_code (analysis_inputs (lit "  "))) = true.
Proof.
  apply (proj1 (blank_code_is_sent_empty silent_world ready_session)
           (analysis_inputs (lit "  "))); reflexivity.
Defined.

Lemma raw_report_witness :
  render_analysis_result (VDict raw_result) (lit "q1") ∅
  = (Ok tt, ∅,
     [Render (Alert MSuccess (lit "分析完成！"));
      Render (Markdown (lit "---"));
      Render (Subheader
                (lit "📈 "
                 ++ py_str (default NA (dict_get (lit "stock_name") raw_result))
                 ++ lit " ("
                 ++ py_str (default NA (dict_get (lit "stock_code") raw_result))
                 ++ lit ")"));
      Render (Markdown (py_str (VStr (lit "# 600519"))));
      Render (Caption (lit "查询 ID: " ++ lit "q1"))]).
Proof.
  apply (raw_report_is_shown_verbatim raw_result (VStr (lit "# 600519"))
           (lit "q1") ∅); [reflexivity | discriminate].
Defined.

Lemma kline_failure_witness :
  result_of (show_stock_quote_page kline_down_world kline_inputs ready_session)
  = Ok tt
  /\ alerts (trace_of (show_stock_quote_page kline_down_world kline_inputs
                         ready_session))
     = [(MSuccess, lit "行情数据获取成功");
        (MWarning, lit "获取历史数据失败: " ++ lit "timeout")]
  /\ logs_of (trace_of (show_stock_quote_page kline_down_world kline_inputs
                          ready_session)) = [].
Proof.
  apply (proj1 (kline_failure_keeps_the_quote kline_down_world kline_inputs
                  sample_quote ready_session eq_refl
                  ltac:(discriminate) eq_refl eq_refl eq_refl
                  ltac:(discriminate)
                  ltac:(intros v Hv; vm_compute in Hv; discriminate)
                  ltac:(intros v Hv; vm_compute in Hv; discriminate))
           (lit "timeout")).
  reflexivity.
Defined.

Lemma sensitive_case_witness :
  is_sensitive (map ascii_upper (lit "tushare_token"))
  = is_sensitive (lit "tushare_token").
Proof. apply sensitive_ignores_case. vm_compute. reflexivity. Defined.

Lemma failed_config_witness :
  script no_config_world sample_inputs ∅
  = (Raise (Exception (lit "missing .env")), <["initialized" := SBool true]> ∅,
     [Render (SetPageConfig (lit "股票智能分析系统")); Call Call_get_config])
  /\ forall (w' : World) (inp' : Inputs),
       result_of (script w' inp' (<["initialized" := SBool true]> ∅))
       = Raise (Exception (error_text (SessionAttributeError "config")))
       /\ session_of (script w' inp' (<["initialized" := SBool true]> ∅))
          = <["initialized" := SBool true]> ∅
       /\ calls_of (trace_of (script w' inp' (<["initialized" := SBool true]> ∅)))
          = []
       /\ alerts (trace_of (script w' inp' (<["initialized" := SBool true]> ∅)))
          = [].
Proof.
  apply (failed_config_is_never_retried no_config_world sample_inputs ∅
           (lit "missing .env")); reflexivity.
Defined.

Lemma failed_service_witness :
  script no_analysis_world sample_inputs ∅
  = (Raise (Exception (lit "no model")),
     <["config" := SConfig (ConfigObject [])]>
       (<["initialized" := SBool true]> ∅),
     [Render (SetPageConfig (lit "股票智能分析系统")); Call Call_get_config;
      Call (Call_new AnalysisService)])
  /\ forall (w' : World) (inp' : AnalysisInputs),
       a_button inp' = true ->
       a_stock_code inp' <> [] ->
       error_state
         (show_analysis_page w' inp'
            (<["config" := SConfig (ConfigObject [])]>
               (<["initialized" := SBool true]> ∅)))
         (<["config" := SConfig (ConfigObject [])]>
            (<["initialized" := SBool true]> ∅))
         (lit "分析过程中发生错误: "
          ++ error_text (SessionAttributeError "analysis_service"))
       /\ calls_of
            (trace_of
               (show_analysis_page w' inp'
                  (<["config" := SConfig (ConfigObject [])]>
                     (<["initialized" := SBool true]> ∅)))) = [].
Proof.
  apply (failed_service_is_never_retried no_analysis_world sample_inputs ∅
           (ConfigObject []) (lit "no model")); reflexivity.
Defined.

Lemma history_records_witness :
  exists rows labels,
    render_history_result (VDict sample_history) (Some 0%nat) ∅
    = (Ok tt, ∅,
       [Render (Alert MSuccess
                  (lit "找到 "
                   ++ py_str (default (VInt 0)
                                (dict_get (lit "total") sample_history))
                   ++ lit " 条记录"));
        Render (Dataframe rows);
        Render (Markdown (lit "---"));
        Render (Subheader (lit "📄 查看详细报告"));
        Render (Widget Selectbox (lit "选择记录") labels)]
       ++ selected_report sample_records (Some 0%nat))
    /\ length rows = length sample_records
    /\ length labels = length sample_records.
Proof.
  apply (history_page_of_records sample_history sample_records (Some 0%nat) ∅).
  - reflexivity.
  - discriminate.
  - repeat constructor. eexists _, _. split; reflexivity.
  - intros i Hi. injection Hi as <-. vm_compute. lia.
Defined.

Lemma history_without_meta_witness :
  exists rows,
    render_history_result (VDict bare_history) (Some 0%nat) ∅
    = (Raise (Exception (error_text (KeyError (VStr (lit "meta"))))), ∅,
       [Render (Alert MSuccess
                  (lit "找到 "
                   ++ py_str (default (VInt 0)
                                (dict_get (lit "total") bare_history))
                   ++ lit " 条记录"));
        Render (Dataframe rows);
        Render (Markdown (lit "---"));
        Render (Subheader (lit "📄 查看详细报告"))])
    /\ length rows = length bare_records.
Proof.
  apply (history_record_without_meta bare_history bare_records (Some 0%nat) ∅).
  - reflexivity.
  - repeat constructor. eexists. split; [reflexivity|]. left. reflexivity.
  - constructor. eexists. split; reflexivity.
Defined.

Lemma config_page_witness :
  show_config_page config_world ready_session
  = (Ok tt, ready_session,
     [Render (Title (lit "⚙️ 系统配置"));
      Render (Markdown (lit "查看和管理系统配置"));
      Call (Call_system_get_config true);
      Render (Markdown (lit "### 当前配置"))]
     ++ concat (map (fun section =>
                       Render (Expander (fst section))
                       :: config_fields sample_config (snd section)) sections)
     ++ [Render (Alert MInfo
                   (lit "⚠️ 配置修改需要在 .env 文件中进行，修改后需要重启应用"))]).
Proof.
  apply (config_page_shows_every_present_key config_world ready_session
           [(lit "config", VDict sample_config)] sample_config);
    [reflexivity | reflexivity | reflexivity |].
  repeat constructor; intros value Hv; vm_compute in Hv;
    first [discriminate
          | injection Hv as <-; eexists; vm_compute; reflexivity].
Defined.

Lemma numeric_secret_witness :
  result_of (show_config_page numeric_config_world ready_session) = Ok tt
  /\ session_of (show_config_page numeric_config_world ready_session)
     = ready_session
  /\ alerts (trace_of (show_config_page numeric_config_world ready_session))
     = [(MError, lit "加载配置失败: " ++ error_text (NoLen (VInt 123456)))]
  /\ text_inputs (trace_of (show_config_page numeric_config_world
                              ready_session))
     = omap (config_field numeric_config)
         (before (lit "tushare_token") table_keys).
Proof.
  apply (number_under_masked_key_breaks_config_page numeric_config_world
           ready_session [(lit "config", VDict numeric_config)] numeric_config
           (lit "tushare_token") (VInt 123456));
    [reflexivity | reflexivity | reflexivity
    | apply list_elem_of_In; vm_compute; tauto
    | vm_compute; reflexivity | vm_compute; reflexivity
    | reflexivity | reflexivity |].
  repeat constructor; intros Hne value Hv;
    first [exfalso; apply Hne; reflexivity
          | vm_compute in Hv;
            first [discriminate
                  | injection Hv as <-; eexists; vm_compute; reflexivity]].
Defined.

Lemma null_advice_witness :
  result_of (show_analysis_page null_advice_world
               (analysis_inputs (lit "600519")) ready_session) = Ok tt
  /\ alerts (trace_of (show_analysis_page null_advice_world
                         (analysis_inputs (lit "600519")) ready_session))
     = (MSuccess, lit "分析完成！")
       :: match dict_get (lit "summary") null_advice_report with
          | Some summary => [(MInfo, py_str summary)]
          | None => []
          end
       ++ [(MError,
            lit "分析过程中发生错误: " ++ error_text (NotIterable VNone))]
  /\ logs_of (trace_of (show_analysis_page null_advice_world
                          (analysis_inputs (lit "600519")) ready_session))
     = [lit "Analysis error"]
  /\ (forall text,
        Render (Caption text)
          ∉ trace_of (show_analysis_page null_advice_world
                        (analysis_inputs (lit "600519")) ready_session)).
Proof.
  apply (advice_without_text_breaks_report null_advice_world
           (analysis_inputs (lit "600519")) ready_session null_advice_result
           null_advice_report VNone);
    [reflexivity | discriminate | reflexivity | reflexivity
    | vm_compute; reflexivity | vm_compute; reflexivity | reflexivity].
Defined.

Lemma task_rows_witness :
  result_of (show_task_monitor_page tasks_world {| t_refresh := false |}
               ready_session) = Ok tt
  /\ (exists shown,
        shown ≡ₚ sample_tasks
        /\ texts (trace_of (show_task_monitor_page tasks_world
                              {| t_refresh := false |} ready_session))
           = concat (map task_lines shown))
  /\ (exists boxes,
        alerts (trace_of (show_task_monitor_page tasks_world
                            {| t_refresh := false |} ready_session))
        = (MSuccess,
           lit "当前有 " ++ dec_Z (Z.of_nat (length sample_tasks))
           ++ lit " 个任务")
          :: boxes
        /\ length boxes = length sample_tasks).
Proof.
  apply (task_monitor_shows_every_task tasks_world {| t_refresh := false |}
           ready_session sample_tasks);
    [reflexivity | reflexivity | reflexivity | discriminate].
Defined.
End MoreSamples.
